(** * ingress-gce: backend-service pool and NEG controller

    A shallow embedding of [pkg/backends/backends.go] (package [backends]) and
    of the service-processing path of the NEG controller (package [neg]),
    together with the properties of the reconciliation engine that the
    design document states about them.

    Conventions of the embedding.
    - A Go function that talks to a collaborator (the cloud API, an informer
      store, the syncer manager, ...) is a computation in the monad [M]: it
      reads the history of calls made so far, appends its own calls to it and
      may end in a run-time panic.  A collaborator is an _oracle_: a function
      of the history of calls and of the call's arguments.  Two identical calls
      may therefore be answered differently, and what a run asked of its
      collaborators can be read off the history.
    - A Go result pair of a pointer and an error, of which exactly one is set,
      is a [result T]; a lone [error] is an [option error] ([None] is [nil]).
    - Logging ([klog], [c.logger]), metrics and timing have no influence on the
      values computed and are left out. *)

From Stdlib Require Import ZArith String List Bool Lia.
From stdpp Require Import base option list gmap strings pretty.
Import ListNotations.

Set Default Proof Using "Type".

(** ** Go values shared by both packages *)

(** The [error] values the code handles: the ones handed over by a remote
    collaborator ([*googleapi.Error] with its HTTP code, or any other opaque
    failure) and the ones built by [fmt.Errorf], which are told apart by their
    format and, for [ErrorfW], by the error wrapped by [%w]; the text of the
    printed arguments is not kept. *)
Inductive error : Type :=
| ApiError (code : Z) (message : string)
| OpaqueError (message : string)
| Errorf (format : string)
| ErrorfW (format : string) (wrapped : error).

(** A pointer-and-error pair with exactly one side set. *)
Inductive result (A : Type) : Type :=
| Ok (a : A)
| Err (e : error).
Arguments Ok {A} a.
Arguments Err {A} e.

(** How a call ends: with its return values, or in a run-time panic. *)
Inductive outcome (A : Type) : Type :=
| Returns (a : A)
| Panics.
Arguments Returns {A} a.
Arguments Panics {A}.

(** Computations over a history of collaborator calls of type [Ev]. *)
Definition M (Ev A : Type) : Type := list Ev -> outcome A * list Ev.

Definition mret {Ev A} (a : A) : M Ev A := fun tr => (Returns a, tr).

Definition bind {Ev A B} (m : M Ev A) (k : A -> M Ev B) : M Ev B :=
  fun tr =>
    match m tr with
    | (Returns a, tr') => k a tr'
    | (Panics, tr') => (Panics, tr')
    end.

Definition panic {Ev A} : M Ev A := fun tr => (Panics, tr).

(** One call to a collaborator: the oracle answers from the history before the
    call, and the call is appended to the history. *)
Definition call {Ev R} (c : Ev) (oracle : list Ev -> R) : M Ev R :=
  fun tr => (Returns (oracle tr), tr ++ [c]).

Declare Scope go_scope.
Delimit Scope go_scope with go.
Notation "'do' x <- m ; k" := (bind m (fun x => k))
  (at level 10, x name, m at level 100, k at level 200) : go_scope.
Notation "'do' ' p <- m ; k" := (bind m (fun x => match x with p => k end))
  (at level 10, p pattern, m at level 100, k at level 200) : go_scope.
Open Scope go_scope.

(** [k8s.io/apimachinery/pkg/types]: [NamespacedName] and its [String()]. *)
Module types.
Record NamespacedName : Type := { Namespace : string; Name : string }.
Definition String (n : NamespacedName) : string :=
  (Namespace n ++ "/" ++ Name n)%string.
End types.

(** [pkg/network]: the fields of [NetworkInfo] the code reads. *)
Module network.
Record NetworkInfo : Type := {
  IsDefault : bool;
  NetworkURL : string;
  SubnetworkURL : string
}.
End network.

(** ** Package [backends] *)

Module Backends.

Definition DefaultConnectionDrainingTimeoutSeconds : Z := 30.
Definition defaultTrackingMode : string := "PER_CONNECTION".
Definition PerSessionTrackingMode : string := "PER_SESSION".

(** [http.StatusNotFound] *)
Definition StatusNotFound : Z := 404.
(** [api_v1.ProtocolTCP] *)
Definition ProtocolTCP : string := "TCP".

(** [meta.Version] and [meta.KeyType]: string types, taken with the constants
    the package declares for them.  [Zonal] stands for every scope that is
    neither [Regional] nor [Global]. *)
Inductive Version : Type := VersionGA | VersionAlpha | VersionBeta.
Inductive KeyType : Type := Zonal | Regional | Global.

#[global] Instance Version_eq_dec : EqDecision Version.
Proof. solve_decision. Defined.
#[global] Instance KeyType_eq_dec : EqDecision KeyType.
Proof. solve_decision. Defined.

(** [meta.Key] *)
Record Key : Type := { KeyName : string; KeyZone : string; KeyRegion : string }.

(** The fields of the [composite] and [compute] objects that [backends.go]
    reads or writes.  Pointer fields are options, [int64] fields are integers
    (they are only copied and compared with zero). *)
Record Backend : Type := { Group : string }.

Record ConnectionDraining : Type := { DrainingTimeoutSec : Z }.

Record BackendServiceConnectionTrackingPolicy : Type := {
  TrackingMode : string;
  EnableStrongAffinity : bool;
  IdleTimeoutSec : Z
}.

#[global] Instance BackendServiceConnectionTrackingPolicy_eq_dec :
  EqDecision BackendServiceConnectionTrackingPolicy.
Proof. solve_decision. Defined.

Record BackendService : Type := {
  Name : string;
  Protocol : string;
  Description : string;
  HealthChecks : list string;
  SessionAffinity : string;
  LoadBalancingScheme : string;
  ConnectionTrackingPolicy : option BackendServiceConnectionTrackingPolicy;
  Network : string;
  ConnectionDraining_ : option ConnectionDraining;
  Fingerprint : string;
  Backends_ : list Backend;
  SelfLink : string
}.

(** [compute.HealthStatus] and [compute.BackendServiceGroupHealth]; the status
    list is a slice of pointers, whose entries may be [nil]. *)
Record HealthStatus : Type := { HealthState : string }.
Record BackendServiceGroupHealth : Type := {
  HealthStatus_ : list (option HealthStatus)
}.

(** The calls [backends.go] makes to the cloud. *)
Inductive Call : Type :=
| GetBackendServiceCall (key : Key) (version : Version)
| CreateBackendServiceCall (key : Key) (be : BackendService)
| UpdateBackendServiceCall (key : Key) (be : BackendService)
| DeleteBackendServiceCall (key : Key) (version : Version)
| GetGlobalBackendServiceHealthCall (name group : string)
| GetRegionalBackendServiceHealthCall (name region group : string).

(** [*gce.Cloud] as seen through [composite] and the health getters.
    [CreateKey] and [Region] only read the cloud's configuration. *)
Record Cloud : Type := {
  Region : string;
  CreateKey : string -> KeyType -> result Key;
  GetBackendService : list Call -> Key -> Version -> result BackendService;
  CreateBackendService : list Call -> Key -> BackendService -> option error;
  UpdateBackendService : list Call -> Key -> BackendService -> option error;
  DeleteBackendService : list Call -> Key -> Version -> option error;
  GetGlobalBackendServiceHealth :
    list Call -> string -> string -> result BackendServiceGroupHealth;
  GetRegionalBackendServiceHealth :
    list Call -> string -> string -> string -> result BackendServiceGroupHealth
}.

(** [type Backends struct]; the namer is not used by the functions below. *)
Record Backends : Type := {
  cloud : Cloud;
  useConnectionTrackingPolicy : bool
}.

(** Modelled from the spec: [utils.EqualStringSets] is not part of the source
    at hand; the health-check references are "compared as string sets", that
    is, by the sets of their elements. *)
Definition EqualStringSets (a b : list string) : bool :=
  bool_decide (list_to_set a =@{gset string} list_to_set b).

(** [utils.L4LBType] *)
Inductive L4LBType : Type := ILB | XLB.

(** Assignments to single fields of a backend service. *)
Definition set_ConnectionDraining (cd : option ConnectionDraining) (be : BackendService)
  : BackendService :=
  {| Name := Name be; Protocol := Protocol be; Description := Description be;
     HealthChecks := HealthChecks be; SessionAffinity := SessionAffinity be;
     LoadBalancingScheme := LoadBalancingScheme be;
     ConnectionTrackingPolicy := ConnectionTrackingPolicy be; Network := Network be;
     ConnectionDraining_ := cd;
     Fingerprint := Fingerprint be; Backends_ := Backends_ be; SelfLink := SelfLink be |}.

Definition set_Fingerprint (fp : string) (be : BackendService) : BackendService :=
  {| Name := Name be; Protocol := Protocol be; Description := Description be;
     HealthChecks := HealthChecks be; SessionAffinity := SessionAffinity be;
     LoadBalancingScheme := LoadBalancingScheme be;
     ConnectionTrackingPolicy := ConnectionTrackingPolicy be; Network := Network be;
     ConnectionDraining_ := ConnectionDraining_ be;
     Fingerprint := fp; Backends_ := Backends_ be; SelfLink := SelfLink be |}.

Definition set_Backends (bs : list Backend) (be : BackendService) : BackendService :=
  {| Name := Name be; Protocol := Protocol be; Description := Description be;
     HealthChecks := HealthChecks be; SessionAffinity := SessionAffinity be;
     LoadBalancingScheme := LoadBalancingScheme be;
     ConnectionTrackingPolicy := ConnectionTrackingPolicy be; Network := Network be;
     ConnectionDraining_ := ConnectionDraining_ be;
     Fingerprint := Fingerprint be; Backends_ := bs; SelfLink := SelfLink be |}.

(** [func connectionTrackingPolicyEqual]: with a [nil] argument the pointers
    are compared, which holds exactly when both are [nil]. *)
Definition connectionTrackingPolicyEqual
  (a b : option BackendServiceConnectionTrackingPolicy) : bool :=
  match a, b with
  | Some a, Some b =>
    String.eqb (TrackingMode a) (TrackingMode b) &&
    Bool.eqb (EnableStrongAffinity a) (EnableStrongAffinity b) &&
    Z.eqb (IdleTimeoutSec a) (IdleTimeoutSec b)
  | None, None => true
  | _, _ => false
  end.

(** [func backendSvcEqual] *)
Definition backendSvcEqual (a b : BackendService) (compareConnectionTracking : bool)
  : bool :=
  let svcsEqual :=
    String.eqb (Protocol a) (Protocol b) &&
    String.eqb (Description a) (Description b) &&
    String.eqb (SessionAffinity a) (SessionAffinity b) &&
    String.eqb (LoadBalancingScheme a) (LoadBalancingScheme b) &&
    EqualStringSets (HealthChecks a) (HealthChecks b) &&
    String.eqb (Network a) (Network b) in
  if compareConnectionTracking
  then svcsEqual &&
       connectionTrackingPolicyEqual (ConnectionTrackingPolicy a) (ConnectionTrackingPolicy b)
  else svcsEqual.

(** The inner loop of [Health] over the instance statuses of one group.  It
    either returns from [Health] with the state just read ([FoundHealthy]),
    or runs to the end of the list ([Exhausted], with the last state read), or
    reads the state of a [nil] entry ([NilStatus]). *)
Inductive scanned : Type :=
| FoundHealthy (ret : string)
| Exhausted (ret : string)
| NilStatus.

Fixpoint scanHealthStatus (statuses : list (option HealthStatus)) (ret : string)
  : scanned :=
  match statuses with
  | [] => Exhausted ret
  | None :: _ => NilStatus
  | Some instanceStatus :: rest =>
    let ret := HealthState instanceStatus in
    if String.eqb ret "HEALTHY" then FoundHealthy ret else scanHealthStatus rest ret
  end.

(** [len(hs.HealthStatus) == 0 || hs.HealthStatus[0] == nil] *)
Definition noHealthStatus (hs : BackendServiceGroupHealth) : bool :=
  match HealthStatus_ hs with
  | [] => true
  | None :: _ => true
  | Some _ :: _ => false
  end.

Section WithHelpers.

(** Functions of the packages [features] and [utils] that [backends.go] calls
    and whose code is not part of the source at hand. *)
Variable VersionFromDescription : string -> Version.
Variable IsLowerVersion : Version -> Version -> bool.
Variable IsHTTPErrorCode : error -> Z -> bool.
Variable IsInUsedByError : error -> bool.
Variable IsNotFoundError : error -> bool.
Variable MakeL4LBServiceDescription :
  string -> string -> Version -> bool -> L4LBType -> string * option error.
Variable TranslateAffinityType : string -> string.

(** [func (b *Backends) Get] *)
Definition Get (b : Backends) (name : string) (version : Version) (scope : KeyType)
  : M Call (result BackendService) :=
  match CreateKey (cloud b) name scope with
  | Err err => mret (Err err)
  | Ok key =>
    do r <- call (GetBackendServiceCall key version)
                 (fun tr => GetBackendService (cloud b) tr key version);
    match r with
    | Err err => mret (Err err)
    | Ok be =>
      let versionRequired := VersionFromDescription (Description be) in
      if IsLowerVersion versionRequired version then
        do r' <- call (GetBackendServiceCall key versionRequired)
                      (fun tr => GetBackendService (cloud b) tr key versionRequired);
        match r' with
        | Err err => mret (Err err)
        | Ok be' => mret (Ok be')
        end
      else mret (Ok be)
    end
  end.

(** [func (b *Backends) Delete] *)
Definition Delete (b : Backends) (name : string) (version : Version) (scope : KeyType)
  : M Call (option error) :=
  match CreateKey (cloud b) name scope with
  | Err err => mret (Some err)
  | Ok key =>
    do e <- call (DeleteBackendServiceCall key version)
                 (fun tr => DeleteBackendService (cloud b) tr key version);
    match e with
    | Some err =>
      if IsHTTPErrorCode err StatusNotFound || IsInUsedByError err
      then mret None
      else mret (Some err)
    | None => mret None
    end
  end.

(** The health lookup of one group, by scope; [None] is the [default] branch
    of the [switch], which makes no call. *)
Definition groupHealth (b : Backends) (name : string) (scope : KeyType) (group : string)
  : option (M Call (result BackendServiceGroupHealth)) :=
  match scope with
  | Global =>
    Some (call (GetGlobalBackendServiceHealthCall name group)
               (fun tr => GetGlobalBackendServiceHealth (cloud b) tr name group))
  | Regional =>
    Some (call (GetRegionalBackendServiceHealthCall name (Region (cloud b)) group)
               (fun tr => GetRegionalBackendServiceHealth (cloud b) tr name
                            (Region (cloud b)) group))
  | Zonal => None
  end.

(** The loop of [Health] over [be.Backends], started with the current [ret]. *)
Fixpoint healthLoop (b : Backends) (name : string) (scope : KeyType)
  (backends : list Backend) (ret : string) : M Call (string * option error) :=
  match backends with
  | [] => mret (ret, None)
  | backend :: rest =>
    match groupHealth b name scope (Group backend) with
    | None =>
      mret ("Unknown",
            Some (Errorf "invalid scope for Health(): %s"))
    | Some lookup =>
      do r <- lookup;
      match r with
      | Err err =>
        mret ("Unknown",
              Some (ErrorfW "error getting health for backend %q: %w" err))
      | Ok hs =>
        if noHealthStatus hs then healthLoop b name scope rest ret
        else
          match scanHealthStatus (HealthStatus_ hs) ret with
          | FoundHealthy ret' => mret (ret', None)
          | Exhausted ret' => healthLoop b name scope rest ret'
          | NilStatus => panic
          end
      end
    end
  end.

(** [func (b *Backends) Health] *)
Definition Health (b : Backends) (name : string) (version : Version) (scope : KeyType)
  : M Call (string * option error) :=
  do r <- Get b name version scope;
  match r with
  | Err err =>
    mret ("Unknown", Some (ErrorfW "error getting backend service %s: %w" err))
  | Ok be =>
    if length (Backends_ be) =? 0
    then mret ("Unknown",
               Some (Errorf "no backends found for backend service %q"))
    else healthLoop b name scope (Backends_ be) "Unknown"
  end.

(** The object [EnsureL4BackendService] builds from its arguments before it
    looks at the existing one (the assignments to [expectedBS] up to the
    choice of the draining timeout by protocol). *)
Definition expectedBackendService (b : Backends)
  (name hcLink protocol sessionAffinity scheme : string)
  (namespacedName : types.NamespacedName) (network : network.NetworkInfo)
  (connectionTrackingPolicy : option BackendServiceConnectionTrackingPolicy)
  : BackendService :=
  let desc :=
    fst (MakeL4LBServiceDescription (types.String namespacedName) ""
                                     VersionGA false ILB) in
  {| Name := name;
     Protocol := protocol;
     Description := desc;
     HealthChecks := [hcLink];
     SessionAffinity := TranslateAffinityType sessionAffinity;
     LoadBalancingScheme := scheme;
     ConnectionTrackingPolicy :=
       if useConnectionTrackingPolicy b then connectionTrackingPolicy else None;
     Network := if negb (network.IsDefault network)
                then network.NetworkURL network else "";
     ConnectionDraining_ :=
       if String.eqb protocol ProtocolTCP
       then Some {| DrainingTimeoutSec := DefaultConnectionDrainingTimeoutSeconds |}
       else Some {| DrainingTimeoutSec := 0 |};
     Fingerprint := "";
     Backends_ := [];
     SelfLink := "" |}.

(** The object submitted by the update: the existing positive timeout is kept
    for TCP, then fingerprint and backends are copied from the existing
    object. *)
Definition updatedBackendService (protocol : string) (expectedBS bs : BackendService)
  : BackendService :=
  let expectedBS :=
    match ConnectionDraining_ bs with
    | Some cd =>
      if (0 <? DrainingTimeoutSec cd)%Z && String.eqb protocol ProtocolTCP
      then set_ConnectionDraining
             (Some {| DrainingTimeoutSec := DrainingTimeoutSec cd |}) expectedBS
      else expectedBS
    | None => expectedBS
    end in
  set_Backends (Backends_ bs) (set_Fingerprint (Fingerprint bs) expectedBS).

(** [func (b *Backends) EnsureL4BackendService] *)
Definition EnsureL4BackendService (b : Backends)
  (name hcLink protocol sessionAffinity scheme : string)
  (namespacedName : types.NamespacedName) (network : network.NetworkInfo)
  (connectionTrackingPolicy : option BackendServiceConnectionTrackingPolicy)
  : M Call (result BackendService) :=
  match CreateKey (cloud b) name Regional with
  | Err err => mret (Err err)
  | Ok key =>
    do r <- call (GetBackendServiceCall key VersionGA)
                 (fun tr => GetBackendService (cloud b) tr key VersionGA);
    let expectedBS :=
      expectedBackendService b name hcLink protocol sessionAffinity scheme
                             namespacedName network connectionTrackingPolicy in
    match r with
    | Err err =>
      if negb (IsNotFoundError err) then mret (Err err)
      else
        (* bs == nil: create, then fetch again *)
        do e <- call (CreateBackendServiceCall key expectedBS)
                     (fun tr => CreateBackendService (cloud b) tr key expectedBS);
        match e with
        | Some err => mret (Err err)
        | None =>
          call (GetBackendServiceCall key VersionGA)
               (fun tr => GetBackendService (cloud b) tr key VersionGA)
        end
    | Ok bs =>
      if backendSvcEqual expectedBS bs (useConnectionTrackingPolicy b)
      then mret (Ok bs)
      else
        let expectedBS := updatedBackendService protocol expectedBS bs in
        do e <- call (UpdateBackendServiceCall key expectedBS)
                     (fun tr => UpdateBackendService (cloud b) tr key expectedBS);
        match e with
        | Some err => mret (Err err)
        | None =>
          call (GetBackendServiceCall key VersionGA)
               (fun tr => GetBackendService (cloud b) tr key VersionGA)
        end
    end
  end.

End WithHelpers.

(** *** Vocabulary for the statements about [Health] *)

(** The call by which [Health] asks for the health of one attached backend,
    and the cloud's answer to it after the history [tr] (for the two scopes
    [Health] accepts). *)
Definition healthQuery (b : Backends) (name : string) (scope : KeyType)
  (backend : Backend) : Call :=
  match scope with
  | Regional =>
    GetRegionalBackendServiceHealthCall name (Region (cloud b)) (Group backend)
  | _ => GetGlobalBackendServiceHealthCall name (Group backend)
  end.

Definition healthAnswer (b : Backends) (name : string) (scope : KeyType)
  (backend : Backend) (tr : list Call) : result BackendServiceGroupHealth :=
  match scope with
  | Regional =>
    GetRegionalBackendServiceHealth (cloud b) tr name (Region (cloud b)) (Group backend)
  | _ => GetGlobalBackendServiceHealth (cloud b) tr name (Group backend)
  end.

(** The answers the cloud gives when the backends are asked one after the
    other, starting after the history [tr]. *)
Fixpoint healthAnswers (b : Backends) (name : string) (scope : KeyType)
  (backends : list Backend) (tr : list Call)
  : list (result BackendServiceGroupHealth) :=
  match backends with
  | [] => []
  | backend :: rest =>
    healthAnswer b name scope backend tr
      :: healthAnswers b name scope rest (tr ++ [healthQuery b name scope backend])
  end.

(** The instance statuses a group reports: none when its list is empty or
    starts with a [nil] entry; and the statuses reported by a sequence of
    groups, in the order in which [Health] examines them. *)
Definition reported (hs : BackendServiceGroupHealth) : list (option HealthStatus) :=
  if noHealthStatus hs then [] else HealthStatus_ hs.

Definition examined (hss : list BackendServiceGroupHealth)
  : list (option HealthStatus) :=
  concat (map reported hss).

(** The state of the last status of a list, or [ret] when there is none. *)
Definition lastStateFrom (ret : string) (statuses : list (option HealthStatus))
  : string :=
  match last statuses with
  | Some (Some s) => HealthState s
  | _ => ret
  end.

(** An entry that is an instance status whose state is not "HEALTHY". *)
Definition notHealthy (st : option HealthStatus) : Prop :=
  exists s, st = Some s /\ HealthState s <> "HEALTHY".

#[global] Instance notHealthy_dec st : Decision (notHealthy st).
Proof.
  destruct st as [s|].
  - destruct (decide (HealthState s = "HEALTHY")) as [Heq|Hne].
    + right. intros (s' & [= <-] & H). exact (H Heq).
    + left. exists s. split; [reflexivity|exact Hne].
  - right. intros (s' & [=] & _).
Defined.

(** *** Vocabulary for the statements about [EnsureL4BackendService] *)

(** The object a call submits to the cloud, for the two calls that submit
    one, and the draining timeout an object carries. *)
Definition submitted (c : Call) : option BackendService :=
  match c with
  | CreateBackendServiceCall _ be => Some be
  | UpdateBackendServiceCall _ be => Some be
  | _ => None
  end.

Definition drainingTimeout (be : BackendService) : option Z :=
  match ConnectionDraining_ be with
  | Some cd => Some (DrainingTimeoutSec cd)
  | None => None
  end.

(** The existing object [bs] carries every attribute [EnsureL4BackendService]
    asks for in [expectedBS], the draining timeout left aside (so do the
    fingerprint, the backends and the self link, which are not asked for). *)
Definition sameExceptDraining (expectedBS bs : BackendService) : Prop :=
  Name bs = Name expectedBS /\
  Protocol bs = Protocol expectedBS /\
  Description bs = Description expectedBS /\
  HealthChecks bs = HealthChecks expectedBS /\
  SessionAffinity bs = SessionAffinity expectedBS /\
  LoadBalancingScheme bs = LoadBalancingScheme expectedBS /\
  ConnectionTrackingPolicy bs = ConnectionTrackingPolicy expectedBS /\
  Network bs = Network expectedBS.

#[global] Instance sameExceptDraining_dec expectedBS bs :
  Decision (sameExceptDraining expectedBS bs).
Proof. unfold sameExceptDraining. apply _. Defined.

End Backends.

(** ** Package [neg]: the service path of the controller *)

Module Neg.

(** *** Objects of the cluster *)

(** [intstr.IntOrString] and its [String()]. *)
Inductive IntOrString : Type :=
| IntVal (i : Z)
| StrVal (s : string).

Definition IntOrString_String (v : IntOrString) : string :=
  match v with
  | IntVal i => pretty i
  | StrVal s => s
  end.

(** [metav1.ObjectMeta]; a nil map of annotations reads as the empty map. *)
Record ObjectMeta : Type := {
  Namespace : string;
  Name : string;
  Annotations : gmap string string;
  Finalizers : list string
}.

(** [apiv1.ServicePort] *)
Module ServicePort.
Record t : Type := {
  Name : string;
  Port : Z;
  TargetPort : IntOrString
}.
End ServicePort.

(** [apiv1.ServiceSpec] and [apiv1.Service] *)
Record ServiceSpec : Type := {
  Type_ : string;
  Ports : list ServicePort.t;
  Selector : gmap string string;
  LoadBalancerClass : option string;
  ExternalTrafficPolicy : string;
  IPFamilyPolicy : option string;
  IPFamilies : list string
}.

Record Service : Type := {
  ServiceMeta : ObjectMeta;
  Spec : ServiceSpec
}.

Definition ServiceTypeLoadBalancer : string := "LoadBalancer".
Definition IPFamilyPolicySingleStack : string := "SingleStack".
Definition IPv6Protocol : string := "IPv6".
Definition EventTypeWarning : string := "Warning".

(** [v1.ServiceBackendPort], [utils.ServicePortID] and the fields of
    [utils.ServicePort] read for the default backend. *)
Record ServiceBackendPort : Type := { PortName : string; PortNumber : Z }.

Record ServicePortID : Type := {
  IDService : types.NamespacedName;
  IDPort : ServiceBackendPort
}.

Module utils.
Record ServicePort : Type := {
  ID : ServicePortID;
  Port : Z;
  TargetPort : IntOrString
}.
End utils.

(** [v1.Ingress]: its metadata, its default backend and the backends of its
    rules. *)
Record Ingress : Type := {
  IngressMeta : ObjectMeta;
  DefaultBackend : option ServicePortID;
  Rules : list ServicePortID
}.

(** What a store hands out for a key: a pointer to a service, which may be
    nil, or something that is not a service pointer at all. *)
Inductive StoreObj : Type :=
| ServicePtr (service : option Service)
| OtherObj.

(** *** Types of [negtypes], [annotations] and the usage metrics *)

(** [negtypes.SvcPortTuple] and sets of them. *)
Module SvcPortTuple.
Record t : Type := {
  Port : Z;
  Name : string;
  TargetPort : string
}.
#[global] Instance eq_dec : EqDecision t.
Proof. solve_decision. Defined.
#[global] Instance countable : Countable t.
Proof.
  refine (inj_countable' (fun x => (Port x, Name x, TargetPort x))
                         (fun '(p, n, t) => {| Port := p; Name := n; TargetPort := t |})
                         _).
  intros []; reflexivity.
Defined.
End SvcPortTuple.

Abbreviation SvcPortTupleSet := (gset SvcPortTuple.t).

(** Modelled from the spec: the declarations of [negtypes.PortInfoMapKey] and
    [negtypes.PortInfo] are not part of the source at hand.  The key is the
    triple of namespace, name and port tuple; the information attached to it
    is the assigned name, the endpoint type (port- or node-IP-granular), the
    readiness-gate flag, the network attachment and the optional custom
    name. *)
Record PortInfoMapKey : Type := {
  KeyNamespace : string;
  KeyName : string;
  KeyPortTuple : SvcPortTuple.t
}.

#[global] Instance PortInfoMapKey_eq_dec : EqDecision PortInfoMapKey.
Proof. solve_decision. Defined.
#[global] Instance PortInfoMapKey_countable : Countable PortInfoMapKey.
Proof.
  refine (inj_countable' (fun k => (KeyNamespace k, KeyName k, KeyPortTuple k))
                         (fun '(ns, n, t) =>
                            {| KeyNamespace := ns; KeyName := n; KeyPortTuple := t |})
                         _).
  intros []; reflexivity.
Defined.

(** Modelled from the spec: the endpoint-type variant of a [PortInfo]. *)
Inductive EndpointType : Type := PortGranular | NodeIPGranular.

(** Modelled from the spec: [negtypes.PortInfo], see above. *)
Record PortInfo : Type := {
  NegName : string;
  EpType : EndpointType;
  ReadinessGate : bool;
  PortNetwork : network.NetworkInfo;
  CustomName : option string
}.

Abbreviation PortInfoMap := (gmap PortInfoMapKey PortInfo).

(** Modelled from the spec: the declaration of [annotations.NegAnnotation] is
    not part of the source at hand.  The exposure annotation has the options
    [ingress] (read by the source as the field [Ingress]) and [exposed-ports],
    from the port to its attributes, which are the optional custom name. *)
Record NegAttributes : Type := { AttrName : string }.

(** Modelled from the spec: [annotations.NegAnnotation], see above. *)
Record NegAnnotation : Type := {
  Ingress_ : bool;
  ExposedPorts : gmap Z NegAttributes
}.

(** [usageMetrics.VmIpNegType], which is made from the only-local flag, and
    [usageMetrics.NegServiceState] with the counters the source assigns. *)
Record VmIpNegType : Type := { trafficPolicyLocal : bool }.

Record NegServiceState : Type := {
  IngressNeg : Z;
  StandaloneNeg : Z;
  AsmNeg : Z;
  VmIpNeg : option VmIpNegType;
  CustomNamedNeg : Z;
  SuccessfulNeg : Z;
  ErrorNeg : Z
}.

(** *** Collaborators *)

(** The calls the service path makes to its collaborators: the two informer
    stores, the network resolver, the zone getter, the syncer manager, the
    usage collector, the event recorder and the API client. *)
Inductive Event : Type :=
| ServiceGetByKeyCall (key : string)
| IngressListCall
| ServiceNetworkCall (service : Service)
| ListZonesCall (mode : string)
| StopSyncerCall (namespace name : string)
| EnsureSyncersCall (namespace name : string) (portInfoMap : PortInfoMap)
| DeleteNegServiceCall (key : string)
| SetNegServiceCall (key : string) (negUsage : NegServiceState)
| EventfCall (service : Service) (eventtype reason message : string)
| PatchServiceObjectMetadataCall (service : Service) (newObjectMeta : ObjectMeta).

(** [type Controller struct]: the configuration read by the service path and
    the oracles of its collaborators.  [ListZones] is given the endpoints
    calculator mode, from which the source derives the node predicate.  The
    ingress store hands out ingresses: the source reads its items as such
    without a check, whereas it guards what the service store hands out. *)
Record Controller : Type := {
  defaultBackendService : utils.ServicePort;
  enableASM : bool;
  asmServiceNEGSkipNamespaces : list string;
  runL4 : bool;
  enableIngressRegionalExternal : bool;
  serviceLister_GetByKey : list Event -> string -> StoreObj * bool * option error;
  ingressLister_List : list Event -> list Ingress;
  networkResolver_ServiceNetwork : list Event -> Service -> result network.NetworkInfo;
  zoneGetter_ListZones : list Event -> string -> result (list string);
  manager_EnsureSyncers :
    list Event -> string -> string -> PortInfoMap -> Z * Z * option error;
  patch_PatchServiceObjectMetadata :
    list Event -> Service -> ObjectMeta -> option error
}.

(** The functions of other packages, and of files of this package outside
    the source at hand, that the service path calls.  The namers of the
    controller are fixed, so the constructors of port-info maps are taken as
    already applied to them; [NegStatusMarshal zones portMap] stands for
    [annotations.NewNegStatus(zones, portMap.ToPortNegMap()).Marshal()]; a
    callback given to [TraverseIngressBackends] is a function on the state it
    captures, returning whether the traversal is to stop. *)
Record Deps : Type := {
  NEGStatusKey : string;
  SplitMetaNamespaceKey : string -> string * string * option error;
  getServiceKey : string -> string -> string;
  contains : list string -> string -> bool;
  NEGAnnotation : Service -> option NegAnnotation * bool * option error;
  NEGEnabledForIngress : NegAnnotation -> bool;
  NEGExposed : NegAnnotation -> bool;
  negServicePorts :
    NegAnnotation -> SvcPortTupleSet ->
    SvcPortTupleSet * gmap SvcPortTuple.t string * option error;
  WantsL4ILB : Service -> bool;
  WantsL4NetLB : Service -> bool;
  HasRBSAnnotation : Service -> bool;
  IsSubsettingL4ILBService : Service -> bool;
  RequestsOnlyLocalTraffic : Service -> bool;
  NewVmIpNegType : bool -> option VmIpNegType;
  IsGCEIngress : Ingress -> bool;
  IsGCEL7ILBIngress : Ingress -> bool;
  IsGCEL7XLBRegionalIngress : Ingress -> bool;
  IsGLBCIngress : Ingress -> bool;
  TraverseIngressBackends :
    forall S : Type, Ingress -> (ServicePortID -> S -> bool * S) -> S -> S;
  translator_ServicePort : Service -> ServiceBackendPort -> option ServicePort.t;
  NewPortInfoMap :
    string -> string -> SvcPortTupleSet -> bool -> gmap SvcPortTuple.t string ->
    network.NetworkInfo -> PortInfoMap;
  NewPortInfoMapForVMIPNEG :
    string -> string -> bool -> network.NetworkInfo -> PortInfoMap;
  Merge : PortInfoMap -> PortInfoMap -> PortInfoMap * option error;
  EndpointsCalculatorMode : PortInfoMap -> string;
  NegStatusMarshal : list string -> PortInfoMap -> string * option error
}.

(** Assignments to the fields of the usage record and of the metadata. *)
Definition set_IngressNeg (n : Z) (u : NegServiceState) : NegServiceState :=
  {| IngressNeg := n; StandaloneNeg := StandaloneNeg u; AsmNeg := AsmNeg u;
     VmIpNeg := VmIpNeg u; CustomNamedNeg := CustomNamedNeg u;
     SuccessfulNeg := SuccessfulNeg u; ErrorNeg := ErrorNeg u |}.

Definition set_StandaloneNeg (n : Z) (u : NegServiceState) : NegServiceState :=
  {| IngressNeg := IngressNeg u; StandaloneNeg := n; AsmNeg := AsmNeg u;
     VmIpNeg := VmIpNeg u; CustomNamedNeg := CustomNamedNeg u;
     SuccessfulNeg := SuccessfulNeg u; ErrorNeg := ErrorNeg u |}.

Definition set_AsmNeg (n : Z) (u : NegServiceState) : NegServiceState :=
  {| IngressNeg := IngressNeg u; StandaloneNeg := StandaloneNeg u; AsmNeg := n;
     VmIpNeg := VmIpNeg u; CustomNamedNeg := CustomNamedNeg u;
     SuccessfulNeg := SuccessfulNeg u; ErrorNeg := ErrorNeg u |}.

Definition set_VmIpNeg (v : option VmIpNegType) (u : NegServiceState)
  : NegServiceState :=
  {| IngressNeg := IngressNeg u; StandaloneNeg := StandaloneNeg u; AsmNeg := AsmNeg u;
     VmIpNeg := v; CustomNamedNeg := CustomNamedNeg u;
     SuccessfulNeg := SuccessfulNeg u; ErrorNeg := ErrorNeg u |}.

Definition set_CustomNamedNeg (n : Z) (u : NegServiceState) : NegServiceState :=
  {| IngressNeg := IngressNeg u; StandaloneNeg := StandaloneNeg u; AsmNeg := AsmNeg u;
     VmIpNeg := VmIpNeg u; CustomNamedNeg := n;
     SuccessfulNeg := SuccessfulNeg u; ErrorNeg := ErrorNeg u |}.

Definition set_SuccessfulErrorNeg (ok bad : Z) (u : NegServiceState)
  : NegServiceState :=
  {| IngressNeg := IngressNeg u; StandaloneNeg := StandaloneNeg u; AsmNeg := AsmNeg u;
     VmIpNeg := VmIpNeg u; CustomNamedNeg := CustomNamedNeg u;
     SuccessfulNeg := ok; ErrorNeg := bad |}.

Definition set_Annotations (a : gmap string string) (m : ObjectMeta) : ObjectMeta :=
  {| Namespace := Namespace m; Name := Name m; Annotations := a;
     Finalizers := Finalizers m |}.

(** [len] of a Go map, as an [int]. *)
Definition len {K V} `{Countable K} (m : gmap K V) : Z := Z.of_nat (size m).

(** *** The functions of the service path *)

(** [func isSingleStackIPv6Service] *)
Definition isSingleStackIPv6Service (service : Service) : bool :=
  if match IPFamilyPolicy (Spec service) with
     | Some policy => negb (String.eqb policy IPFamilyPolicySingleStack)
     | None => false
     end
  then false
  else
    match IPFamilies (Spec service) with
    | [family] => String.eqb family IPv6Protocol
    | _ => false
    end.

(** The tuple inserted for one port of a service. *)
Definition tupleOfServicePort (sp : ServicePort.t) : SvcPortTuple.t :=
  {| SvcPortTuple.Port := ServicePort.Port sp;
     SvcPortTuple.Name := ServicePort.Name sp;
     SvcPortTuple.TargetPort := IntOrString_String (ServicePort.TargetPort sp) |}.

(** [func gatherPortMappingFromService] *)
Definition gatherPortMappingFromService (svc : Service) : SvcPortTupleSet :=
  foldl (fun svcPortTupleSet svcPort => {[ tupleOfServicePort svcPort ]} ∪ svcPortTupleSet)
        ∅ (Ports (Spec svc)).

Section WithDeps.

Variable deps : Deps.

(** [func gatherPortMappingUsedByIngress] *)
Definition gatherPortMappingUsedByIngress (ings : list Ingress) (svc : Service)
  : SvcPortTupleSet :=
  foldl
    (fun ingressSvcPortTuples ing =>
       if IsGLBCIngress deps ing then
         TraverseIngressBackends deps SvcPortTupleSet ing
           (fun id ingressSvcPortTuples =>
              if String.eqb (types.Name (IDService id)) (Name (ServiceMeta svc)) &&
                 String.eqb (types.Namespace (IDService id)) (Namespace (ServiceMeta svc))
              then
                match translator_ServicePort deps svc (IDPort id) with
                | None => (false, ingressSvcPortTuples)
                | Some servicePort =>
                  (false, {[ tupleOfServicePort servicePort ]} ∪ ingressSvcPortTuples)
                end
              else (false, ingressSvcPortTuples))
           ingressSvcPortTuples
       else ingressSvcPortTuples)
    ∅ ings.

(** [func getIngressServicesFromStore]; [store_List] is [store.List]. *)
Definition getIngressServicesFromStore (store_List : list Event -> list Ingress)
  (svc : Service) : M Event (list Ingress) :=
  do items <- call IngressListCall store_List;
  mret (foldl
          (fun ings ing =>
             if negb (String.eqb (Namespace (IngressMeta ing)) (Namespace (ServiceMeta svc)))
             then ings
             else if IsGLBCIngress deps ing then
               TraverseIngressBackends deps (list Ingress) ing
                 (fun id ings =>
                    if String.eqb (types.Name (IDService id)) (Name (ServiceMeta svc))
                    then (true, ings ++ [ing])
                    else (false, ings))
                 ings
             else ings)
          [] items).

(** [func (c *Controller) getCSMPortInfoMap]; a nil selector is the empty map. *)
Definition getCSMPortInfoMap (c : Controller) (namespace name : string)
  (service : Service) (networkInfo : network.NetworkInfo)
  : PortInfoMap * option error :=
  let servicePorts := gatherPortMappingFromService service in
  if (len (Selector (Spec service)) =? 0)%Z then (∅, None)
  else if contains deps (asmServiceNEGSkipNamespaces c) namespace then (∅, None)
  else (NewPortInfoMap deps namespace name servicePorts false ∅ networkInfo, None).

(** [func (c *Controller) mergeStandaloneNEGsPortInfo]; the map and the usage
    record are updated in place by the source and returned here. *)
Definition mergeStandaloneNEGsPortInfo (c : Controller) (service : Service)
  (name : types.NamespacedName) (portInfoMap : PortInfoMap)
  (negUsage : NegServiceState) (networkInfo : network.NetworkInfo)
  : PortInfoMap * NegServiceState * option error :=
  let '(negAnnotation, foundNEGAnnotation, err) := NEGAnnotation deps service in
  match err with
  | Some err => (portInfoMap, negUsage, Some err)
  | None =>
    if negb foundNEGAnnotation then (portInfoMap, negUsage, None)
    else
      match negAnnotation with
      | Some negAnnotation =>
        if NEGExposed deps negAnnotation then
          let knowSvcPortSet :=
            foldl (fun set sp => {[ tupleOfServicePort sp ]} ∪ set)
                  (∅ : SvcPortTupleSet) (Ports (Spec service)) in
          let '(exposedNegSvcPort, customNames, err) :=
            negServicePorts deps negAnnotation knowSvcPortSet in
          match err with
          | Some err => (portInfoMap, negUsage, Some err)
          | None =>
            if NEGEnabledForIngress deps negAnnotation && negb (len customNames =? 0)%Z
            then
              (portInfoMap, negUsage,
               Some (Errorf "configuration for negs in service (%s) is invalid, custom neg name cannot be used with ingress enabled"))
            else
              let negUsage := set_CustomNamedNeg (len customNames) negUsage in
              match Merge deps portInfoMap
                      (NewPortInfoMap deps (types.Namespace name) (types.Name name)
                                      exposedNegSvcPort true customNames networkInfo)
              with
              | (portInfoMap, Some err) =>
                (portInfoMap, negUsage,
                 Some (ErrorfW "failed to merge service ports exposed as standalone NEGs (%v) into ingress referenced service ports (%v): %w" err))
              | (portInfoMap, None) => (portInfoMap, negUsage, None)
              end
          end
        else (portInfoMap, negUsage, None)
      | None => (portInfoMap, negUsage, None)
      end
  end.

(** [func (c *Controller) mergeIngressPortInfo] *)
Definition mergeIngressPortInfo (c : Controller) (service : Service)
  (name : types.NamespacedName) (portInfoMap : PortInfoMap)
  (networkInfo : network.NetworkInfo) : M Event (PortInfoMap * option error) :=
  let '(negAnnotation, foundNEGAnnotation, err) := NEGAnnotation deps service in
  match err with
  | Some err => mret (portInfoMap, Some err)
  | None =>
    if negb foundNEGAnnotation then mret (portInfoMap, None)
    else
      match negAnnotation with
      | Some negAnnotation =>
        if NEGEnabledForIngress deps negAnnotation then
          do ings <- getIngressServicesFromStore (ingressLister_List c) service;
          let ingressSvcPortTuples := gatherPortMappingUsedByIngress ings service in
          let ingressPortInfoMap :=
            NewPortInfoMap deps (types.Namespace name) (types.Name name)
                           ingressSvcPortTuples true ∅ networkInfo in
          match Merge deps portInfoMap ingressPortInfoMap with
          | (portInfoMap, Some err) =>
            mret (portInfoMap,
                  Some (ErrorfW "failed to merge service ports referenced by ingress (%v): %w" err))
          | (portInfoMap, None) => mret (portInfoMap, None)
          end
        else mret (portInfoMap, None)
      | None => mret (portInfoMap, None)
      end
  end.

(** [func (c *Controller) mergeVmIpNEGsPortInfo] *)
Definition mergeVmIpNEGsPortInfo (c : Controller) (service : Service)
  (name : types.NamespacedName) (portInfoMap : PortInfoMap)
  (negUsage : NegServiceState) (networkInfo : network.NetworkInfo)
  : M Event (PortInfoMap * NegServiceState * option error) :=
  let wantsILB := WantsL4ILB deps service in
  let wantsNetLB := WantsL4NetLB deps service in
  let needsNEGForNetLB :=
    wantsNetLB && negb (network.IsDefault networkInfo) && HasRBSAnnotation deps service in
  if negb wantsILB && negb needsNEGForNetLB then mret (portInfoMap, negUsage, None)
  else if wantsILB && negb (IsSubsettingL4ILBService deps service) then
    do _ <- call (EventfCall service EventTypeWarning "ProcessServiceSkipped"
                             "Ignoring ILB Service %s, namespace %s as it does not have the v2 finalizer")
                 (fun _ => tt);
    mret (portInfoMap, negUsage, None)
  else
    match LoadBalancerClass (Spec service) with
    | Some _ => mret (portInfoMap, negUsage, None)
    | None =>
      let onlyLocal := RequestsOnlyLocalTraffic deps service in
      let negUsage := set_VmIpNeg (NewVmIpNegType deps onlyLocal) negUsage in
      let '(portInfoMap, err) :=
        Merge deps portInfoMap
              (NewPortInfoMapForVMIPNEG deps (types.Namespace name) (types.Name name)
                                        onlyLocal networkInfo) in
      mret (portInfoMap, negUsage, err)
    end.

(** The closure [scanIngress] of [mergeDefaultBackendServicePortInfoMap]: the
    first listed ingress that qualifies and has no default backend of its own
    makes the default backend's port be merged. *)
Definition scanIngress (c : Controller) (portInfoMap : PortInfoMap)
  (networkInfo : network.NetworkInfo) (qualify : Ingress -> bool)
  : M Event (PortInfoMap * option error) :=
  do items <- call IngressListCall (ingressLister_List c);
  match List.find (fun ing => qualify ing &&
                              match DefaultBackend ing with None => true | Some _ => false end)
                  items with
  | Some _ =>
    let svcPortTupleSet : SvcPortTupleSet :=
      {[ {| SvcPortTuple.Name := PortName (IDPort (utils.ID (defaultBackendService c)));
            SvcPortTuple.Port := utils.Port (defaultBackendService c);
            SvcPortTuple.TargetPort :=
              IntOrString_String (utils.TargetPort (defaultBackendService c)) |} ]} in
    let defaultServicePortInfoMap :=
      NewPortInfoMap deps
        (types.Namespace (IDService (utils.ID (defaultBackendService c))))
        (types.Name (IDService (utils.ID (defaultBackendService c))))
        svcPortTupleSet false ∅ networkInfo in
    mret (Merge deps portInfoMap defaultServicePortInfoMap)
  | None => mret (portInfoMap, None)
  end.

(** [func (c *Controller) mergeDefaultBackendServicePortInfoMap] *)
Definition mergeDefaultBackendServicePortInfoMap (c : Controller) (key : string)
  (service : Service) (portInfoMap : PortInfoMap) (networkInfo : network.NetworkInfo)
  : M Event (PortInfoMap * option error) :=
  if negb (String.eqb (types.String (IDService (utils.ID (defaultBackendService c)))) key)
  then mret (portInfoMap, None)
  else
    do '(portInfoMap, err) <- scanIngress c portInfoMap networkInfo (IsGCEL7ILBIngress deps);
    match err with
    | Some err => mret (portInfoMap, Some err)
    | None =>
      do '(portInfoMap, err) <-
         (if enableIngressRegionalExternal c
          then scanIngress c portInfoMap networkInfo (IsGCEL7XLBRegionalIngress deps)
          else mret (portInfoMap, None));
      match err with
      | Some err => mret (portInfoMap, Some err)
      | None =>
        let '(negAnnotation, foundNEGAnnotation, err) := NEGAnnotation deps service in
        match err with
        | Some err => mret (portInfoMap, Some err)
        | None =>
          if negb foundNEGAnnotation then mret (portInfoMap, None)
          else
            match negAnnotation with
            | None => panic
            | Some negAnnotation =>
              if Bool.eqb (Ingress_ negAnnotation) false then mret (portInfoMap, None)
              else scanIngress c portInfoMap networkInfo (IsGCEIngress deps)
            end
        end
      end
    end.

(** [func (c *Controller) syncNegStatusAnnotation] *)
Definition syncNegStatusAnnotation (c : Controller) (namespace name : string)
  (portMap : PortInfoMap) : M Event (option error) :=
  do zones <- call (ListZonesCall (EndpointsCalculatorMode deps portMap))
                   (fun tr => zoneGetter_ListZones c tr (EndpointsCalculatorMode deps portMap));
  match zones with
  | Err err => mret (Some err)
  | Ok zones =>
    do '(obj, exists_, err) <-
       call (ServiceGetByKeyCall (getServiceKey deps namespace name))
            (fun tr => serviceLister_GetByKey c tr (getServiceKey deps namespace name));
    match err with
    | Some err => mret (Some err)
    | None =>
      if negb exists_ then mret None
      else
        match obj with
        | OtherObj => mret (Some (Errorf "cannot convert obj to Service; obj=%T"))
        | ServicePtr service =>
          if (len portMap =? 0)%Z then
            match service with
            | None => panic
            | Some service =>
              match Annotations (ServiceMeta service) !! NEGStatusKey deps with
              | Some _ =>
                let newSvcObjectMeta :=
                  set_Annotations
                    (delete (NEGStatusKey deps) (Annotations (ServiceMeta service)))
                    (ServiceMeta service) in
                call (PatchServiceObjectMetadataCall service newSvcObjectMeta)
                     (fun tr => patch_PatchServiceObjectMetadata c tr service
                                  newSvcObjectMeta)
              | None => mret None
              end
            end
          else
            let '(annotation, err) := NegStatusMarshal deps zones portMap in
            match err with
            | Some err => mret (Some err)
            | None =>
              match service with
              | None => panic
              | Some service =>
                if match Annotations (ServiceMeta service) !! NEGStatusKey deps with
                   | Some existingAnnotation => String.eqb existingAnnotation annotation
                   | None => false
                   end
                then mret None
                else
                  let newSvcObjectMeta :=
                    set_Annotations (<[NEGStatusKey deps := annotation]>
                                       (Annotations (ServiceMeta service)))
                                    (ServiceMeta service) in
                  call (PatchServiceObjectMetadataCall service newSvcObjectMeta)
                       (fun tr => patch_PatchServiceObjectMetadata c tr service
                                    newSvcObjectMeta)
              end
            end
        end
    end
  end.

(** The last stretch of [processService]: what is done with the resolved
    [svcPortInfoMap]. *)
Definition applyPortInfoMap (c : Controller) (key namespace name : string)
  (svcPortInfoMap : PortInfoMap) (negUsage : NegServiceState)
  : M Event (option error) :=
  if negb (len svcPortInfoMap =? 0)%Z then
    do err <- syncNegStatusAnnotation c namespace name svcPortInfoMap;
    match err with
    | Some err => mret (Some err)
    | None =>
      do '(successful, errored, err) <-
         call (EnsureSyncersCall namespace name svcPortInfoMap)
              (fun tr => manager_EnsureSyncers c tr namespace name svcPortInfoMap);
      let negUsage := set_SuccessfulErrorNeg successful errored negUsage in
      do _ <- call (SetNegServiceCall key negUsage) (fun _ => tt);
      mret err
    end
  else
    do _ <- call (DeleteNegServiceCall key) (fun _ => tt);
    do _ <- call (StopSyncerCall namespace name) (fun _ => tt);
    syncNegStatusAnnotation c namespace name ∅.

(** The middle stretch of [processService]: the desired state of an existing
    service, resolved from the four sources, with the usage counted on the
    way. *)
Definition resolvePortInfoMap (c : Controller) (key namespace name : string)
  (service : Service) : M Event (PortInfoMap * NegServiceState * option error) :=
  let negUsage :=
    {| IngressNeg := 0; StandaloneNeg := 0; AsmNeg := 0; VmIpNeg := None;
       CustomNamedNeg := 0; SuccessfulNeg := 0; ErrorNeg := 0 |} in
  let svcPortInfoMap : PortInfoMap := ∅ in
  let nn := {| types.Namespace := namespace; types.Name := name |} in
  do networkInfo <- call (ServiceNetworkCall service)
                         (fun tr => networkResolver_ServiceNetwork c tr service);
  match networkInfo with
  | Err err => mret (svcPortInfoMap, negUsage, Some err)
  | Ok networkInfo =>
    do '(svcPortInfoMap, err) <-
       mergeDefaultBackendServicePortInfoMap c key service svcPortInfoMap networkInfo;
    match err with
    | Some err => mret (svcPortInfoMap, negUsage, Some err)
    | None =>
      let negUsage := set_IngressNeg (len svcPortInfoMap) negUsage in
      do '(svcPortInfoMap, err) <-
         mergeIngressPortInfo c service nn svcPortInfoMap networkInfo;
      match err with
      | Some err => mret (svcPortInfoMap, negUsage, Some err)
      | None =>
        let negUsage := set_IngressNeg (len svcPortInfoMap) negUsage in
        let '(svcPortInfoMap, negUsage, err) :=
          mergeStandaloneNEGsPortInfo c service nn svcPortInfoMap negUsage networkInfo in
        match err with
        | Some err => mret (svcPortInfoMap, negUsage, Some err)
        | None =>
          let negUsage :=
            set_StandaloneNeg (len svcPortInfoMap - IngressNeg negUsage)%Z negUsage in
          let '(svcPortInfoMap, negUsage, err) :=
            if enableASM c then
              let '(csmSVCPortInfoMap, err) :=
                getCSMPortInfoMap c namespace name service networkInfo in
              match err with
              | Some err => (svcPortInfoMap, negUsage, Some err)
              | None =>
                let negUsage := set_AsmNeg (len csmSVCPortInfoMap) negUsage in
                match Merge deps svcPortInfoMap csmSVCPortInfoMap with
                | (svcPortInfoMap, Some err) =>
                  (svcPortInfoMap, negUsage,
                   Some (ErrorfW "failed to merge CSM service PortInfoMap: %v, error: %w" err))
                | (svcPortInfoMap, None) => (svcPortInfoMap, negUsage, None)
                end
              end
            else (svcPortInfoMap, negUsage, None) in
          match err with
          | Some err => mret (svcPortInfoMap, negUsage, Some err)
          | None =>
            if runL4 c then
              mergeVmIpNEGsPortInfo c service nn svcPortInfoMap negUsage networkInfo
            else mret (svcPortInfoMap, negUsage, None)
          end
        end
      end
    end
  end.

(** [func (c *Controller) processService] *)
Definition processService (c : Controller) (key : string) : M Event (option error) :=
  let '(namespace, name, err) := SplitMetaNamespaceKey deps key in
  match err with
  | Some err => mret (Some err)
  | None =>
    do '(obj, exists_, err) <- call (ServiceGetByKeyCall key)
                                    (fun tr => serviceLister_GetByKey c tr key);
    match err with
    | Some err => mret (Some err)
    | None =>
      if negb exists_ then
        do _ <- call (DeleteNegServiceCall key) (fun _ => tt);
        do _ <- call (StopSyncerCall namespace name) (fun _ => tt);
        mret None
      else
        match obj with
        | OtherObj => panic
        | ServicePtr None => mret (Some (Errorf "cannot convert to Service (%T)"))
        | ServicePtr (Some service) =>
          if negb (String.eqb (Type_ (Spec service)) ServiceTypeLoadBalancer) &&
             isSingleStackIPv6Service service
          then mret (Some (Errorf "NEG is not supported for ipv6 only service (%T)"))
          else
            do '(svcPortInfoMap, negUsage, err) <-
               resolvePortInfoMap c key namespace name service;
            match err with
            | Some err => mret (Some err)
            | None => applyPortInfoMap c key namespace name svcPortInfoMap negUsage
            end
        end
    end
  end.

End WithDeps.

(** *** Vocabulary for the statements about [processService] *)

(** The calls that only read: the look-ups in the two stores and the network
    resolution.  Every other call changes the syncers, the usage metrics, the
    events or the service resource. *)
Definition isRead (e : Event) : Prop :=
  match e with
  | ServiceGetByKeyCall _ | IngressListCall | ServiceNetworkCall _ => True
  | _ => False
  end.

(** The writes to the service resource found in a history. *)
Definition isPatch (e : Event) : Prop :=
  match e with
  | PatchServiceObjectMetadataCall _ _ => True
  | _ => False
  end.

#[global] Instance isRead_dec e : Decision (isRead e).
Proof. destruct e; cbn; apply _. Defined.
#[global] Instance isPatch_dec e : Decision (isPatch e).
Proof. destruct e; cbn; apply _. Defined.

End Neg.

(** ** Scenarios

    Concrete clouds, stores and helper functions on which the statements
    below are exercised. *)

Module BackendsScenarios.
Import Backends.

(** Stand-ins for the functions of [features] and [utils]. *)
Definition versionFromDescription (description : string) : Version :=
  if String.eqb description "beta-feature" then VersionBeta else VersionGA.

Definition isLowerVersion (a b : Version) : bool :=
  match a, b with
  | VersionAlpha, VersionBeta | VersionAlpha, VersionGA | VersionBeta, VersionGA => true
  | _, _ => false
  end.

Definition isHTTPErrorCode (err : error) (code : Z) : bool :=
  match err with
  | ApiError c _ => Z.eqb c code
  | _ => false
  end.

Definition isInUsedByError (err : error) : bool :=
  match err with
  | ApiError c message => Z.eqb c 400 && String.eqb message "resourceInUseByAnotherResource"
  | _ => false
  end.

Definition isNotFoundError (err : error) : bool := isHTTPErrorCode err StatusNotFound.

Definition makeL4LBServiceDescription (svcName ip : string) (version : Version)
  (shared : bool) (lbType : L4LBType) : string * option error :=
  (("networking.gke.io/service-name=" ++ svcName)%string, None).

Definition translateAffinityType (affinity : string) : string :=
  if String.eqb affinity "ClientIP" then "CLIENT_IP" else "NONE".

(** A cloud that makes every key, answers every fetch by [get] of the
    version, every delete and update by [del] and [upd], every create with
    success, and every health lookup by [health] of the group. *)
Definition cloudWith (get : Version -> result BackendService) (del upd : option error)
  (health : string -> result BackendServiceGroupHealth) : Cloud :=
  {| Region := "region1";
     CreateKey := fun name scope =>
       Ok {| KeyName := name; KeyZone := "";
             KeyRegion := match scope with Regional => "region1" | _ => "" end |};
     GetBackendService := fun _ _ version => get version;
     CreateBackendService := fun _ _ _ => None;
     UpdateBackendService := fun _ _ _ => upd;
     DeleteBackendService := fun _ _ _ => del;
     GetGlobalBackendServiceHealth := fun _ _ group => health group;
     GetRegionalBackendServiceHealth := fun _ _ _ group => health group |}.

Definition pool (cloud : Cloud) : Backends :=
  {| cloud := cloud; useConnectionTrackingPolicy := false |}.

(** An existing backend service. *)
Definition existing (description fingerprint : string) (timeout : Z)
  (backends : list Backend) : BackendService :=
  {| Name := "k8s-be";
     Protocol := "TCP";
     Description := description;
     HealthChecks := ["hc"];
     SessionAffinity := "NONE";
     LoadBalancingScheme := "INTERNAL";
     ConnectionTrackingPolicy := None;
     Network := "";
     ConnectionDraining_ := Some {| DrainingTimeoutSec := timeout |};
     Fingerprint := fingerprint;
     Backends_ := backends;
     SelfLink := "regions/region1/backendServices/k8s-be" |}.

Definition status (state : string) : option HealthStatus :=
  Some {| HealthState := state |}.

Definition threeGroups : list Backend :=
  [ {| Group := "g1" |}; {| Group := "g2" |}; {| Group := "g3" |} ].

(** The first group reports a healthy instance first. *)
Definition healthyFirst (group : string) : result BackendServiceGroupHealth :=
  if String.eqb group "g1"
  then Ok {| HealthStatus_ := [status "HEALTHY"; status "UNHEALTHY"] |}
  else Ok {| HealthStatus_ := [status "UNHEALTHY"] |}.

(** No group reports a healthy instance; the second reports nothing. *)
Definition neverHealthy (group : string) : result BackendServiceGroupHealth :=
  if String.eqb group "g1"
  then Ok {| HealthStatus_ := [status "UNHEALTHY"; status "DRAINING"] |}
  else if String.eqb group "g2"
  then Ok {| HealthStatus_ := [] |}
  else Ok {| HealthStatus_ := [status "TIMEOUT"] |}.

(** The only group asked about reports one instance, in the state "Unknown". *)
Definition unknownState (group : string) : result BackendServiceGroupHealth :=
  Ok {| HealthStatus_ := [status "Unknown"] |}.

(** The only group asked about reports an unhealthy instance and, behind it,
    a nil entry. *)
Definition nilBehindFirst (group : string) : result BackendServiceGroupHealth :=
  Ok {| HealthStatus_ := [status "UNHEALTHY"; None] |}.

(** No group reports anything: empty lists and a list starting with nil. *)
Definition silent (group : string) : result BackendServiceGroupHealth :=
  if String.eqb group "g1"
  then Ok {| HealthStatus_ := [None; status "HEALTHY"] |}
  else Ok {| HealthStatus_ := [] |}.

(** The object fetched at GA asks for the beta version; the one fetched at
    beta has another fingerprint. *)
Definition getByVersion (version : Version) : result BackendService :=
  match version with
  | VersionBeta => Ok (existing "beta-feature" "fp-beta" 30 [])
  | _ => Ok (existing "beta-feature" "fp-ga" 30 [])
  end.

Definition serviceName : types.NamespacedName :=
  {| types.Namespace := "default"; types.Name := "web" |}.

Definition defaultNetwork : network.NetworkInfo :=
  {| network.IsDefault := true; network.NetworkURL := ""; network.SubnetworkURL := "" |}.

(** The description [EnsureL4BackendService] expects for [serviceName]. *)
Definition expectedDescription : string :=
  fst (makeL4LBServiceDescription (types.String serviceName) "" VersionGA false ILB).

(** Pools over clouds that differ in one answer, and the keys they make. *)
Definition deleting (del : option error) : Backends :=
  pool (cloudWith getByVersion del None silent).

Definition fetching (get : Version -> result BackendService)
  (health : string -> result BackendServiceGroupHealth) : Backends :=
  pool (cloudWith get None None health).

(** Fetches that do not depend on the version. *)
Definition getWith (backends : list Backend) (version : Version)
  : result BackendService :=
  Ok (existing "" "fp" 30 backends).

Definition getWith' (description : string) (timeout : Z) (backends : list Backend)
  (version : Version) : result BackendService :=
  Ok (existing description "fp" timeout backends).

Definition globalKey : Key := {| KeyName := "k8s-be"; KeyZone := ""; KeyRegion := "" |}.

Definition regionalKey : Key :=
  {| KeyName := "k8s-be"; KeyZone := ""; KeyRegion := "region1" |}.

(** A cloud with a memory: a fetch answers with the object submitted last,
    under a fresh fingerprint, and with not-found before any submission. *)
Definition rememberingCloud : Cloud :=
  {| Region := "region1";
     CreateKey := fun name scope =>
       Ok {| KeyName := name; KeyZone := "";
             KeyRegion := match scope with Regional => "region1" | _ => "" end |};
     GetBackendService := fun tr _ _ =>
       match last (omap submitted tr) with
       | Some be => Ok (set_Fingerprint "fp-new" be)
       | None => Err (ApiError 404 "notFound")
       end;
     CreateBackendService := fun _ _ _ => None;
     UpdateBackendService := fun _ _ _ => None;
     DeleteBackendService := fun _ _ _ => None;
     GetGlobalBackendServiceHealth := fun _ _ group => silent group;
     GetRegionalBackendServiceHealth := fun _ _ _ group => silent group |}.

(** What [EnsureL4BackendService] asks for in the scenarios, for UDP. *)
Definition desiredUDP : BackendService :=
  {| Name := "k8s-be";
     Protocol := "UDP";
     Description := expectedDescription;
     HealthChecks := ["hc"];
     SessionAffinity := "NONE";
     LoadBalancingScheme := "INTERNAL";
     ConnectionTrackingPolicy := None;
     Network := "";
     ConnectionDraining_ := Some {| DrainingTimeoutSec := 0 |};
     Fingerprint := "";
     Backends_ := [];
     SelfLink := "" |}.

End BackendsScenarios.

Module NegScenarios.
Import Neg.

Definition statusKey : string := "cloud.google.com/neg-status".
Definition negKey : string := "cloud.google.com/neg".

(** Stand-in for the parser of the exposure annotation: two annotation texts
    are understood, anything else is a parse error. *)
Definition parseNEGAnnotation (service : Service)
  : option NegAnnotation * bool * option error :=
  match Annotations (ServiceMeta service) !! negKey with
  | None => (None, false, None)
  | Some text =>
    if String.eqb text "ingress+custom"
    then (Some {| Ingress_ := true;
                  ExposedPorts := {[ 80%Z := {| AttrName := "my-neg" |} ]} |},
          true, None)
    else if String.eqb text "exposed"
    then (Some {| Ingress_ := false;
                  ExposedPorts := {[ 80%Z := {| AttrName := "" |} ]} |},
          true, None)
    else (None, true, Some (OpaqueError "invalid annotation"))
  end.

(** Stand-in for [negServicePorts]: the known tuples whose port is exposed,
    and the custom names given to them. *)
Definition exposedServicePorts (ann : NegAnnotation) (known : SvcPortTupleSet)
  : SvcPortTupleSet * gmap SvcPortTuple.t string * option error :=
  (filter (fun t => is_Some (ExposedPorts ann !! SvcPortTuple.Port t)) known,
   list_to_map
     (omap (fun t =>
              match ExposedPorts ann !! SvcPortTuple.Port t with
              | Some attr =>
                if String.eqb (AttrName attr) "" then None else Some (t, AttrName attr)
              | None => None
              end)
           (elements known)),
   None).

(** Stand-in for [TraverseIngressBackends]: default backend first, then the
    rules, until the callback asks to stop. *)
Fixpoint traverse {S : Type} (ids : list ServicePortID)
  (process : ServicePortID -> S -> bool * S) (s : S) : S :=
  match ids with
  | [] => s
  | id :: rest =>
    let '(stop, s) := process id s in
    if stop then s else traverse rest process s
  end.

Definition portInfoMapOf (namespace name : string) (tuples : SvcPortTupleSet)
  (readinessGate : bool) (customNames : gmap SvcPortTuple.t string)
  (networkInfo : network.NetworkInfo) : PortInfoMap :=
  list_to_map
    (map (fun t =>
            ({| KeyNamespace := namespace; KeyName := name; KeyPortTuple := t |},
             {| NegName := default ("k8s1-" ++ name)%string (customNames !! t);
                EpType := PortGranular;
                ReadinessGate := readinessGate;
                PortNetwork := networkInfo;
                CustomName := customNames !! t |}))
         (elements tuples)).

Definition deps : Deps :=
  {| NEGStatusKey := statusKey;
     SplitMetaNamespaceKey := fun key =>
       if String.eqb key "default/web" then ("default", "web", None)
       else ("", "", Some (OpaqueError "unexpected key format"));
     getServiceKey := fun namespace name => (namespace ++ "/" ++ name)%string;
     contains := fun l x => existsb (String.eqb x) l;
     NEGAnnotation := parseNEGAnnotation;
     NEGEnabledForIngress := Ingress_;
     NEGExposed := fun ann => negb (Nat.eqb (size (ExposedPorts ann)) 0);
     negServicePorts := exposedServicePorts;
     WantsL4ILB := fun _ => false;
     WantsL4NetLB := fun _ => false;
     HasRBSAnnotation := fun _ => false;
     IsSubsettingL4ILBService := fun _ => false;
     RequestsOnlyLocalTraffic := fun _ => false;
     NewVmIpNegType := fun onlyLocal => Some {| trafficPolicyLocal := onlyLocal |};
     IsGCEIngress := fun _ => true;
     IsGCEL7ILBIngress := fun _ => false;
     IsGCEL7XLBRegionalIngress := fun _ => false;
     IsGLBCIngress := fun _ => true;
     TraverseIngressBackends := fun S ing process s =>
       traverse (match DefaultBackend ing with Some id => [id] | None => [] end
                 ++ Rules ing) process s;
     translator_ServicePort := fun svc port =>
       List.find (fun sp => Z.eqb (ServicePort.Port sp) (PortNumber port))
                 (Ports (Spec svc));
     NewPortInfoMap := portInfoMapOf;
     NewPortInfoMapForVMIPNEG := fun _ _ _ _ => ∅;
     Merge := fun p1 p2 => (p2 ∪ p1, None);
     EndpointsCalculatorMode := fun _ => "L7";
     NegStatusMarshal := fun _ _ => ("{}", None) |}.

(** The service [default/web] with one port and the given annotations. *)
Definition web (annotations : gmap string string) : Service :=
  {| ServiceMeta := {| Namespace := "default"; Name := "web";
                       Annotations := annotations; Finalizers := [] |};
     Spec := {| Type_ := "ClusterIP";
                Ports := [ {| ServicePort.Name := "http"; ServicePort.Port := 80;
                              ServicePort.TargetPort := IntVal 8080 |} ];
                Selector := {[ "app" := "web" ]};
                LoadBalancerClass := None;
                ExternalTrafficPolicy := "";
                IPFamilyPolicy := None;
                IPFamilies := ["IPv4"] |} |}.

(** A controller for ingress only, whose store holds [service], whose ingress
    store is empty, and whose zone getter answers [zones]. *)
Definition controller (service : Service) (zones : result (list string)) : Controller :=
  {| defaultBackendService :=
       {| utils.ID := {| IDService := {| types.Namespace := "kube-system";
                                         types.Name := "default-http-backend" |};
                         IDPort := {| PortName := "http"; PortNumber := 80 |} |};
          utils.Port := 80;
          utils.TargetPort := IntVal 8080 |};
     enableASM := false;
     asmServiceNEGSkipNamespaces := [];
     runL4 := false;
     enableIngressRegionalExternal := false;
     serviceLister_GetByKey := fun _ _ => (ServicePtr (Some service), true, None);
     ingressLister_List := fun _ => [];
     networkResolver_ServiceNetwork := fun _ _ =>
       Ok {| network.IsDefault := true; network.NetworkURL := "";
             network.SubnetworkURL := "" |};
     zoneGetter_ListZones := fun _ _ => zones;
     manager_EnsureSyncers := fun _ _ _ _ => (1%Z, 0%Z, None);
     patch_PatchServiceObjectMetadata := fun _ _ _ => None |}.

(** The usage record of a service that needs nothing. *)
Definition zeroUsage : NegServiceState :=
  {| IngressNeg := 0; StandaloneNeg := 0; AsmNeg := 0; VmIpNeg := None;
     CustomNamedNeg := 0; SuccessfulNeg := 0; ErrorNeg := 0 |}.

End NegScenarios.

(** ** Further vocabulary and functions

    What the statements of the second part need beyond the above: kinds of
    calls of package [backends], and the functions of the two packages that
    the first part leaves out. *)

Module BackendsMore.
Import Backends.

(** The kinds of calls to the cloud. *)
Definition isFetch (c : Call) : Prop :=
  match c with
  | GetBackendServiceCall _ _ => True
  | _ => False
  end.

Definition isHealthLookup (c : Call) : Prop :=
  match c with
  | GetGlobalBackendServiceHealthCall _ _
  | GetRegionalBackendServiceHealthCall _ _ _ => True
  | _ => False
  end.

Definition isDelete (c : Call) : Prop :=
  match c with
  | DeleteBackendServiceCall _ _ => True
  | _ => False
  end.

#[global] Instance isFetch_dec c : Decision (isFetch c).
Proof. destruct c; cbn; apply _. Defined.
#[global] Instance isHealthLookup_dec c : Decision (isHealthLookup c).
Proof. destruct c; cbn; apply _. Defined.
#[global] Instance isDelete_dec c : Decision (isDelete c).
Proof. destruct c; cbn; apply _. Defined.

(** The objects submitted by the calls of a history, in order. *)
Definition submissions (tr : list Call) : list BackendService := omap submitted tr.

(** *** Listing

    [List] makes one call of its own, kept in a history of its own.  The
    listing is a slice of pointers, whose entries may be [nil].  The namer's
    [NameBelongsToCluster] and [composite.ScopeFromSelfLink] are not part of
    the source at hand and are parameters.  The [Scope] that the source
    stores in each object it returns is returned beside the object. *)

Inductive ListCall : Type :=
| ListBackendServicesCall (key : Key) (version : Version).

Section Listing.

Variable ListBackendServices :
  list ListCall -> Key -> Version -> result (list (option BackendService)).
Variable NameBelongsToCluster : string -> bool.
Variable ScopeFromSelfLink : string -> result KeyType.

(** The loop of [List] over the listing, from the backends of the cluster
    collected so far. *)
Fixpoint listLoop (backends : list (option BackendService))
  (clusterBackends : list (BackendService * KeyType))
  : outcome (result (list (BackendService * KeyType))) :=
  match backends with
  | [] => Returns (Ok clusterBackends)
  | None :: _ => Panics
  | Some bs :: backends =>
    if NameBelongsToCluster (Name bs) then
      match ScopeFromSelfLink (SelfLink bs) with
      | Err err => Returns (Err err)
      | Ok scope => listLoop backends (clusterBackends ++ [(bs, scope)])
      end
    else listLoop backends clusterBackends
  end.

(** [func (b *Backends) List] *)
Definition List (key : Key) (version : Version)
  : M ListCall (result (list (BackendService * KeyType))) :=
  do backends <- call (ListBackendServicesCall key version)
                      (fun tr => ListBackendServices tr key version);
  match backends with
  | Err err => mret (Err err)
  | Ok backends => fun tr => (listLoop backends [], tr)
  end.

End Listing.

End BackendsMore.

Module NegMore.
Import Neg.

(** Further kinds of calls of the service path. *)
Definition isEventf (e : Event) : Prop :=
  match e with
  | EventfCall _ _ _ _ => True
  | _ => False
  end.

Definition isStopSyncer (e : Event) : Prop :=
  match e with
  | StopSyncerCall _ _ => True
  | _ => False
  end.

Definition isEnsureSyncers (e : Event) : Prop :=
  match e with
  | EnsureSyncersCall _ _ _ => True
  | _ => False
  end.

#[global] Instance isEventf_dec e : Decision (isEventf e).
Proof. destruct e; cbn; apply _. Defined.
#[global] Instance isStopSyncer_dec e : Decision (isStopSyncer e).
Proof. destruct e; cbn; apply _. Defined.
#[global] Instance isEnsureSyncers_dec e : Decision (isEnsureSyncers e).
Proof. destruct e; cbn; apply _. Defined.

(** A call that changes nothing: a read, or the recording of an event. *)
Definition quiet (e : Event) : Prop := isRead e \/ isEventf e.

#[global] Instance quiet_dec e : Decision (quiet e).
Proof. unfold quiet. apply _. Defined.

(** The metadata [new] differs from [old] in the annotation [key] at most. *)
Definition sameButAnnotation (key : string) (old new : ObjectMeta) : Prop :=
  Namespace new = Namespace old /\
  Name new = Name old /\
  Finalizers new = Finalizers old /\
  forall k, k <> key -> Annotations new !! k = Annotations old !! k.

(** The calls [syncNegStatusAnnotation] can make for a map: the listing of
    the zones, the look-up of the service and one write. *)
Definition zonesCall (deps : Deps) (portMap : PortInfoMap) : Event :=
  ListZonesCall (EndpointsCalculatorMode deps portMap).

Definition lookupCall (deps : Deps) (namespace name : string) : Event :=
  ServiceGetByKeyCall (getServiceKey deps namespace name).

(** What one run of [syncNegStatusAnnotation] can add to the history. *)
Definition syncCalls (deps : Deps) (namespace name : string) (portMap : PortInfoMap)
  (new : list Event) : Prop :=
  new = [zonesCall deps portMap] \/
  new = [zonesCall deps portMap; lookupCall deps namespace name] \/
  exists service newObjectMeta,
    new = [zonesCall deps portMap; lookupCall deps namespace name;
           PatchServiceObjectMetadataCall service newObjectMeta].

(** The calls that change the syncers of a service. *)
Definition isSyncerCall (e : Event) : Prop := isStopSyncer e \/ isEnsureSyncers e.

#[global] Instance isSyncerCall_dec e : Decision (isSyncerCall e).
Proof. unfold isSyncerCall. apply _. Defined.

End NegMore.

(** ** The worker of the service queue

    [serviceWorker] takes keys from the service queue and hands them to
    [processService]; [handleErr] decides what becomes of a key afterwards.
    The queue hands out its items as [interface{}]; the worker asserts them
    to be strings.  The history of a worker holds the calls to the queue and
    to the event recorder next to the calls of the service path; the
    collaborators of the service path answer by the calls of the service
    path alone. *)

Module NegWorkers.
Import Neg.

(** What a queue hands out: a key, or a value that is not a string. *)
Inductive Item : Type :=
| StringItem (key : string)
| OtherItem.

Inductive WorkerEvent : Type :=
| ControllerCall (e : Event)
| QueueGetCall
| QueueDoneCall (key : Item)
| QueueForgetCall (key : Item)
| QueueAddRateLimitedCall (key : Item)
| RecorderEventfCall (object : option Service) (eventtype reason message : string).

(** The calls of the service path found in the history of a worker. *)
Definition controllerCalls (tr : list WorkerEvent) : list Event :=
  omap (fun e => match e with ControllerCall e => Some e | _ => None end) tr.

(** A computation of the service path, run by a worker. *)
Definition lift {A} (m : M Event A) : M WorkerEvent A :=
  fun tr =>
    let before := controllerCalls tr in
    let '(out, after) := m before in
    (out, tr ++ map ControllerCall (drop (length before) after)).

(** [defer]: the deferred call runs when the body has returned and when it
    has panicked, and the panic goes on afterwards. *)
Definition defer {Ev A} (deferred : M Ev unit) (body : M Ev A) : M Ev A :=
  fun tr =>
    let '(out, tr') := body tr in
    match deferred tr' with
    | (Returns _, tr'') => (out, tr'')
    | (Panics, tr'') => (Panics, tr'')
    end.

Definition isQueueCall (e : WorkerEvent) : Prop :=
  match e with
  | QueueGetCall | QueueDoneCall _ | QueueForgetCall _ | QueueAddRateLimitedCall _ => True
  | _ => False
  end.

#[global] Instance isQueueCall_dec e : Decision (isQueueCall e).
Proof. destruct e; cbn; apply _. Defined.

Section WithDeps.

Variable deps : Deps.
Variable c : Controller.

(** [c.serviceQueue.Get]: the item and whether the queue has shut down. *)
Variable serviceQueue_Get : list WorkerEvent -> Item * bool.

(** [func (c *Controller) handleErr] *)
Definition handleErr (err : option error) (key : Item) : M WorkerEvent unit :=
  match err with
  | None => call (QueueForgetCall key) (fun _ => tt)
  | Some _ =>
    match key with
    | OtherItem => panic
    | StringItem k =>
      do '(service, exists_, err) <-
         lift (call (ServiceGetByKeyCall k) (fun tr => serviceLister_GetByKey c tr k));
      do _ <-
         match err with
         | Some _ => mret tt
         | None =>
           if exists_ then
             match service with
             | OtherObj => panic
             | ServicePtr service =>
               call (RecorderEventfCall service EventTypeWarning "ProcessServiceFailed"
                                        "error processing service %q: %v")
                    (fun _ => tt)
             end
           else mret tt
         end;
      call (QueueAddRateLimitedCall key) (fun _ => tt)
    end
  end.

(** [func (c *Controller) serviceWorker]: one turn of its loop, which is the
    closure called in it. *)
Definition serviceWorker : M WorkerEvent unit :=
  do '(key, quit) <- call QueueGetCall serviceQueue_Get;
  if (quit : bool) then mret tt
  else
    defer (call (QueueDoneCall key) (fun _ => tt))
          (match key with
           | OtherItem => panic
           | StringItem k =>
             do err <- lift (processService deps c k);
             handleErr err key
           end).

End WithDeps.

End NegWorkers.

(** ** Further scenarios *)

Module BackendsMoreScenarios.
Import Backends BackendsMore BackendsScenarios.

(** The first group reports an unhealthy instance; the lookup of every other
    group fails. *)
Definition failingSecond (group : string) : result BackendServiceGroupHealth :=
  if String.eqb group "g1"
  then Ok {| HealthStatus_ := [status "UNHEALTHY"] |}
  else Err (ApiError 503 "unavailable").

(** Stand-ins for the namer and for [composite.ScopeFromSelfLink]. *)
Definition nameBelongsToCluster (name : string) : bool := String.prefix "k8s-" name.

Definition scopeFromSelfLink (selfLink : string) : result KeyType :=
  if String.prefix "regions/" selfLink then Ok Regional
  else if String.prefix "global/" selfLink then Ok Global
  else if String.prefix "zones/" selfLink then Ok Zonal
  else Err (Errorf "failed to parse self link %q").

(** A listed backend service. *)
Definition listed (name selfLink : string) : BackendService :=
  {| Name := name;
     Protocol := "TCP";
     Description := "";
     HealthChecks := ["hc"];
     SessionAffinity := "NONE";
     LoadBalancingScheme := "INTERNAL";
     ConnectionTrackingPolicy := None;
     Network := "";
     ConnectionDraining_ := None;
     Fingerprint := "fp";
     Backends_ := [];
     SelfLink := selfLink |}.

(** A cloud that lists [backends], whatever is asked. *)
Definition listing (backends : list BackendService)
  : list ListCall -> Key -> Version -> result (list (option BackendService)) :=
  fun _ _ _ => Ok (map Some backends).

(** Two backends of the cluster around one of somebody else, whose self link
    has no scope. *)
Definition ownAndForeign : list BackendService :=
  [ listed "k8s-a" "regions/region1/backendServices/k8s-a";
    listed "other-b" "backendServices/other-b";
    listed "k8s-c" "global/backendServices/k8s-c" ].

(** Three backends of the cluster, the second with a self link without
    scope. *)
Definition ownWithBadLink : list BackendService :=
  [ listed "k8s-a" "regions/region1/backendServices/k8s-a";
    listed "k8s-d" "backendServices/k8s-d";
    listed "k8s-c" "global/backendServices/k8s-c" ].

End BackendsMoreScenarios.

Module NegMoreScenarios.
Import Neg NegScenarios NegWorkers.

(** The service [default/web] with the IPv6 family alone. *)
Definition web6 : Service :=
  {| ServiceMeta := ServiceMeta (web ∅);
     Spec := {| Type_ := "ClusterIP";
                Ports := Ports (Spec (web ∅));
                Selector := Selector (Spec (web ∅));
                LoadBalancerClass := None;
                ExternalTrafficPolicy := "";
                IPFamilyPolicy := Some IPFamilyPolicySingleStack;
                IPFamilies := [IPv6Protocol] |} |}.

(** The controller [c] over a service store that answers by [getByKey]. *)
Definition overStore (getByKey : list Event -> string -> StoreObj * bool * option error)
  (c : Controller) : Controller :=
  {| defaultBackendService := defaultBackendService c;
     enableASM := enableASM c;
     asmServiceNEGSkipNamespaces := asmServiceNEGSkipNamespaces c;
     runL4 := runL4 c;
     enableIngressRegionalExternal := enableIngressRegionalExternal c;
     serviceLister_GetByKey := getByKey;
     ingressLister_List := ingressLister_List c;
     networkResolver_ServiceNetwork := networkResolver_ServiceNetwork c;
     zoneGetter_ListZones := zoneGetter_ListZones c;
     manager_EnsureSyncers := manager_EnsureSyncers c;
     patch_PatchServiceObjectMetadata := patch_PatchServiceObjectMetadata c |}.

(** A controller whose service store is empty. *)
Definition emptyStore : Controller :=
  overStore (fun _ _ => (OtherObj, false, None)) (controller (web ∅) (Ok ["zone1"])).

(** The map of the one port of [default/web]. *)
Definition webPorts : PortInfoMap :=
  portInfoMapOf "default" "web" (gatherPortMappingFromService (web ∅)) true ∅
                {| network.IsDefault := true; network.NetworkURL := "";
                   network.SubnetworkURL := "" |}.

(** A service queue that hands out [key]. *)
Definition queueOf (key : string) : list WorkerEvent -> Item * bool :=
  fun _ => (StringItem key, false).

End NegMoreScenarios.

(** * Properties of package [backends] *)

Module BackendsFacts.
Import Backends.

(** Unfolds one layer of the monad at the head of a run. *)
Ltac run := unfold bind, call, mret, panic in *; cbn beta iota in *.

Section WithHelpers.

Variable VersionFromDescription : string -> Version.
Variable IsLowerVersion : Version -> Version -> bool.
Variable IsHTTPErrorCode : error -> Z -> bool.
Variable IsInUsedByError : error -> bool.

Local Abbreviation Get := (Get VersionFromDescription IsLowerVersion).
Local Abbreviation Delete := (Delete IsHTTPErrorCode IsInUsedByError).
Local Abbreviation Health := (Health VersionFromDescription IsLowerVersion).

(** What [Get] does once the key is made and the first fetch has answered. *)
Lemma Get_run b name version scope key tr :
  CreateKey (cloud b) name scope = Ok key ->
  Get b name version scope tr =
    match GetBackendService (cloud b) tr key version with
    | Err err => (Returns (Err err), tr ++ [GetBackendServiceCall key version])
    | Ok be =>
      let versionRequired := VersionFromDescription (Description be) in
      if IsLowerVersion versionRequired version then
        (Returns (GetBackendService (cloud b)
                    (tr ++ [GetBackendServiceCall key version]) key versionRequired),
         (tr ++ [GetBackendServiceCall key version])
            ++ [GetBackendServiceCall key versionRequired])
      else (Returns (Ok be), tr ++ [GetBackendServiceCall key version])
    end.
Proof.
  intros Hkey. unfold Backends.Get. rewrite Hkey. run.
  destruct (GetBackendService (cloud b) tr key version) as [be|err]; [|reflexivity].
  cbn zeta.
  destruct (IsLowerVersion (VersionFromDescription (Description be)) version);
    [|reflexivity].
  run.
  destruct (GetBackendService (cloud b) _ key _); reflexivity.
Qed.

(** C3: once the key is made, [Delete] returns [nil] when the remote delete
    reports not-found (HTTP 404), returns [nil] when it reports that the
    resource is in use by another one, and returns the remote error itself for
    every other failure. *)
Theorem Delete_idempotent b name version scope key tr :
  CreateKey (cloud b) name scope = Ok key ->
  forall err, DeleteBackendService (cloud b) tr key version = Some err ->
    (IsHTTPErrorCode err StatusNotFound = true ->
       fst (Delete b name version scope tr) = Returns None) /\
    (IsInUsedByError err = true ->
       fst (Delete b name version scope tr) = Returns None) /\
    (IsHTTPErrorCode err StatusNotFound = false -> IsInUsedByError err = false ->
       fst (Delete b name version scope tr) = Returns (Some err)).
Proof.
  intros Hkey err Hdel. unfold Backends.Delete. rewrite Hkey. run. rewrite Hdel.
  repeat split.
  - intros ->. reflexivity.
  - intros ->. rewrite orb_true_r. reflexivity.
  - intros -> ->. reflexivity.
Qed.

(** C4: a successful [Get] made a key and a first fetch at the requested
    version; when the version recorded in the description of the object
    fetched first is lower than the requested one, the object returned is the
    one fetched again at that lower version, and otherwise it is the object of
    the first fetch, with no second fetch. *)
Theorem Get_refetches_at_lower_version b name version scope tr be tr' :
  Get b name version scope tr = (Returns (Ok be), tr') ->
  exists key first,
    CreateKey (cloud b) name scope = Ok key /\
    GetBackendService (cloud b) tr key version = Ok first /\
    let versionRequired := VersionFromDescription (Description first) in
    if IsLowerVersion versionRequired version
    then GetBackendService (cloud b) (tr ++ [GetBackendServiceCall key version])
                           key versionRequired = Ok be /\
         tr' = tr ++ [GetBackendServiceCall key version;
                      GetBackendServiceCall key versionRequired]
    else be = first /\ tr' = tr ++ [GetBackendServiceCall key version].
Proof.
  intros Hget.
  destruct (CreateKey (cloud b) name scope) as [key|e] eqn:Hkey.
  2:{ unfold Backends.Get in Hget. rewrite Hkey in Hget. discriminate. }
  rewrite (Get_run _ _ _ _ key _ Hkey) in Hget.
  exists key.
  destruct (GetBackendService (cloud b) tr key version) as [first|e] eqn:Hfirst;
    [|discriminate].
  exists first. split; [reflexivity|]. split; [reflexivity|].
  cbn zeta in *.
  destruct (IsLowerVersion (VersionFromDescription (Description first)) version).
  - injection Hget as Hres Htr. split; [exact Hres|].
    rewrite <- Htr, <- app_assoc. reflexivity.
  - injection Hget as Hres Htr. split; congruence.
Qed.

(** *** The loop of [Health] *)

Lemma groupHealth_scope b name scope backend :
  scope <> Zonal ->
  groupHealth b name scope (Group backend) =
    Some (call (healthQuery b name scope backend)
               (healthAnswer b name scope backend)).
Proof. destruct scope; [congruence|reflexivity|reflexivity]. Qed.

Lemma healthAnswers_app b name scope pre rest tr :
  healthAnswers b name scope (pre ++ rest) tr =
    healthAnswers b name scope pre tr
      ++ healthAnswers b name scope rest (tr ++ map (healthQuery b name scope) pre).
Proof.
  revert tr. induction pre as [|g pre IH]; intros tr; cbn.
  - rewrite app_nil_r. reflexivity.
  - rewrite IH, <- app_assoc. reflexivity.
Qed.

Lemma lastStateFrom_app ret l1 l2 :
  Forall notHealthy l2 ->
  lastStateFrom ret (l1 ++ l2) = lastStateFrom (lastStateFrom ret l1) l2.
Proof.
  intros H2. unfold lastStateFrom.
  destruct l2 as [|x l2 _] using rev_ind.
  - rewrite app_nil_r. cbn. destruct (last l1) as [[s|]|]; reflexivity.
  - rewrite app_assoc, !last_snoc.
    apply Forall_app in H2 as [_ H2]. apply Forall_inv in H2 as [s [-> _]].
    reflexivity.
Qed.

Lemma scanHealthStatus_notHealthy statuses ret :
  Forall notHealthy statuses ->
  scanHealthStatus statuses ret = Exhausted (lastStateFrom ret statuses).
Proof.
  intros H. revert ret. induction H as [|st l [s [-> Hs]] Hl IH]; intros ret.
  - reflexivity.
  - cbn. apply String.eqb_neq in Hs. rewrite Hs, IH.
    change (Some s :: l) with ([Some s] ++ l).
    rewrite (lastStateFrom_app _ _ _ Hl). reflexivity.
Qed.

Lemma scanHealthStatus_healthy before s after ret :
  Forall notHealthy before -> HealthState s = "HEALTHY" ->
  scanHealthStatus (before ++ Some s :: after) ret = FoundHealthy "HEALTHY".
Proof.
  intros H Hs. revert ret. induction H as [|st l [s' [-> Hs']] Hl IH]; intros ret; cbn.
  - rewrite Hs. reflexivity.
  - apply String.eqb_neq in Hs'. rewrite Hs'. apply IH.
Qed.

Lemma Forall_notHealthy_examined_cons hs hss :
  Forall notHealthy (examined (hs :: hss)) ->
  Forall notHealthy (reported hs) /\ Forall notHealthy (examined hss).
Proof. unfold examined. cbn. apply Forall_app. Qed.

(** Groups that all answer and report no healthy status are passed one by
    one; the loop goes on behind them with the last state read. *)
Lemma healthLoop_app_notHealthy b name scope pre rest hss ret tr :
  scope <> Zonal ->
  healthAnswers b name scope pre tr = map Ok hss ->
  Forall notHealthy (examined hss) ->
  healthLoop b name scope (pre ++ rest) ret tr =
    healthLoop b name scope rest (lastStateFrom ret (examined hss))
               (tr ++ map (healthQuery b name scope) pre).
Proof.
  intros Hscope. revert hss ret tr.
  induction pre as [|g pre IH]; intros hss ret tr Hans Hq.
  - destruct hss; [|discriminate]. cbn. rewrite app_nil_r. reflexivity.
  - destruct hss as [|hs hss]; [discriminate|].
    cbn in Hans. injection Hans as Hg Hrest.
    apply Forall_notHealthy_examined_cons in Hq as [Hhs Hhss].
    cbn [app healthLoop map]. rewrite (groupHealth_scope _ _ _ _ Hscope).
    run. rewrite Hg.
    replace (tr ++ healthQuery b name scope g :: map (healthQuery b name scope) pre)
      with ((tr ++ [healthQuery b name scope g]) ++ map (healthQuery b name scope) pre)
      by (rewrite <- app_assoc; reflexivity).
    unfold examined. cbn [map concat]. fold (examined hss).
    rewrite (lastStateFrom_app _ _ _ Hhss).
    unfold reported in *. destruct (noHealthStatus hs).
    + cbn. apply IH; assumption.
    + rewrite (scanHealthStatus_notHealthy _ _ Hhs). apply IH; assumption.
Qed.

(** An error returned by the loop comes from the scope or from a lookup that
    failed. *)
Lemma healthLoop_error b name scope backends ret tr state err tr' :
  healthLoop b name scope backends ret tr = (Returns (state, Some err), tr') ->
  (backends <> [] /\ scope = Zonal) \/
  exists e, In (Err e) (healthAnswers b name scope backends tr).
Proof.
  destruct (decide (scope = Zonal)) as [->|Hscope].
  { destruct backends; [discriminate|]. intros _. left. split; congruence. }
  revert ret tr. induction backends as [|g rest IH]; intros ret tr H.
  - discriminate.
  - right. cbn [healthLoop] in H. rewrite (groupHealth_scope _ _ _ _ Hscope) in H.
    run. cbn [healthAnswers].
    destruct (healthAnswer b name scope g tr) as [hs|e] eqn:Hg.
    2:{ exists e. left. reflexivity. }
    assert (Hrest : forall ret', healthLoop b name scope rest ret'
                      (tr ++ [healthQuery b name scope g])
                    = (Returns (state, Some err), tr') ->
                    exists e, In (Err e)
                      (Ok hs :: healthAnswers b name scope rest
                                   (tr ++ [healthQuery b name scope g]))).
    { intros ret' H'. apply IH in H' as [[_ ?]|[e He]]; [congruence|].
      exists e. right. exact He. }
    destruct (noHealthStatus hs); [eauto|].
    destruct (scanHealthStatus (HealthStatus_ hs) ret); [discriminate|eauto|discriminate].
Qed.

Lemma Health_run b name version scope tr be tr1 :
  Get b name version scope tr = (Returns (Ok be), tr1) ->
  Backends_ be <> [] ->
  Health b name version scope tr = healthLoop b name scope (Backends_ be) "Unknown" tr1.
Proof.
  intros Hget Hne. unfold Backends.Health, bind. rewrite Hget.
  destruct (Backends_ be); [congruence|reflexivity].
Qed.

Lemma noHealthStatus_reports hs before s after :
  HealthStatus_ hs = before ++ Some s :: after ->
  Forall notHealthy before ->
  noHealthStatus hs = false.
Proof.
  intros Hhs Hb. unfold noHealthStatus. rewrite Hhs.
  destruct Hb as [|st l [s' [-> _]] _]; reflexivity.
Qed.

(** C9: when the fetch succeeds and the groups asked before group [g] all
    answer without a healthy status, and [g] answers with a status list whose
    first "HEALTHY" entry is [s], [Health] returns "HEALTHY" with a nil error
    and its health lookups are exactly those of the groups up to [g]: the
    statuses behind [s] and the groups behind [g] are not evaluated. *)
Theorem Health_short_circuits_on_healthy
  b name version scope tr be tr1 pre g post hpre hs before s after :
  Get b name version scope tr = (Returns (Ok be), tr1) ->
  scope <> Zonal ->
  Backends_ be = pre ++ g :: post ->
  healthAnswers b name scope (pre ++ [g]) tr1 = map Ok (hpre ++ [hs]) ->
  Forall notHealthy (examined hpre) ->
  HealthStatus_ hs = before ++ Some s :: after ->
  Forall notHealthy before ->
  HealthState s = "HEALTHY" ->
  Health b name version scope tr =
    (Returns ("HEALTHY", None), tr1 ++ map (healthQuery b name scope) (pre ++ [g])).
Proof.
  intros Hget Hscope Hbe Hans Hpre Hhs Hbefore Hs.
  rewrite (Health_run _ _ _ _ _ _ _ Hget) by (rewrite Hbe; destruct pre; discriminate).
  rewrite Hbe.
  rewrite healthAnswers_app, map_app in Hans. cbn in Hans.
  apply app_inj_tail in Hans as [Hans Hg].
  rewrite (healthLoop_app_notHealthy _ _ _ _ _ _ _ _ Hscope Hans Hpre).
  cbn [healthLoop]. rewrite (groupHealth_scope _ _ _ _ Hscope). run.
  rewrite Hg, (noHealthStatus_reports _ _ _ _ Hhs Hbefore), Hhs.
  rewrite (scanHealthStatus_healthy _ _ _ _ Hbefore Hs).
  rewrite map_app, app_assoc. reflexivity.
Qed.

(** C10, as the code has it: when the fetch succeeds with a non-empty list of
    backends, the scope is global or regional, every health lookup succeeds
    and every entry examined is an instance status that is not healthy,
    [Health] asks every group and returns a nil error with the state of the
    last status examined over all groups, whatever that state is; it returns
    the initial "Unknown" when no group reported a status, and it returns
    "Unknown" only if no group reported a status or the last status examined
    has itself the state "Unknown". *)
Theorem Health_returns_last_state b name version scope tr be tr1 hss :
  Get b name version scope tr = (Returns (Ok be), tr1) ->
  Backends_ be <> [] ->
  scope <> Zonal ->
  healthAnswers b name scope (Backends_ be) tr1 = map Ok hss ->
  Forall notHealthy (examined hss) ->
  exists state,
    Health b name version scope tr =
      (Returns (state, None), tr1 ++ map (healthQuery b name scope) (Backends_ be)) /\
    (forall s, last (examined hss) = Some (Some s) -> state = HealthState s) /\
    (examined hss = [] -> state = "Unknown") /\
    (state = "Unknown" ->
     examined hss = [] \/
     exists s, last (examined hss) = Some (Some s) /\ HealthState s = "Unknown").
Proof.
  intros Hget Hne Hscope Hans Hq.
  exists (lastStateFrom "Unknown" (examined hss)). split; [|split; [|split]].
  - rewrite (Health_run _ _ _ _ _ _ _ Hget Hne).
    rewrite <- (app_nil_r (Backends_ be)) at 1.
    rewrite (healthLoop_app_notHealthy _ _ _ _ _ _ _ _ Hscope Hans Hq). reflexivity.
  - intros s Hlast. unfold lastStateFrom. rewrite Hlast. reflexivity.
  - intros ->. reflexivity.
  - unfold lastStateFrom. destruct (last (examined hss)) as [[s|]|] eqn:Hlast.
    + intros Hstate. right. exists s. split; [reflexivity|exact Hstate].
    + intros _. exfalso. apply last_Some in Hlast as [before Hlast].
      rewrite Hlast in Hq. apply Forall_app in Hq as [_ Hq].
      inversion Hq as [|? ? Hnil _]. destruct Hnil as (s & Hs & _). discriminate Hs.
    + intros _. left. apply last_None. exact Hlast.
Qed.

(** C1, as the code has it: when the fetch succeeds, the list of backends is
    not empty, the scope is global or regional and every health lookup
    succeeds, [Health] returns "Unknown" with a nil error whenever no group
    reports a status; and after a successful fetch [Health] returns an error
    only when the list of backends is empty, or the scope is neither global
    nor regional, or a health lookup fails. *)
Theorem Health_unknown_without_status b name version scope tr be tr1 :
  Get b name version scope tr = (Returns (Ok be), tr1) ->
  (forall hss,
     Backends_ be <> [] ->
     scope <> Zonal ->
     healthAnswers b name scope (Backends_ be) tr1 = map Ok hss ->
     Forall (fun hs => noHealthStatus hs = true) hss ->
     Health b name version scope tr =
       (Returns ("Unknown", None),
        tr1 ++ map (healthQuery b name scope) (Backends_ be))) /\
  (forall state err tr',
     Health b name version scope tr = (Returns (state, Some err), tr') ->
     Backends_ be = [] \/ scope = Zonal \/
     exists e, In (Err e) (healthAnswers b name scope (Backends_ be) tr1)).
Proof.
  intros Hget. split.
  - intros hss Hne Hscope Hans Hnone.
    assert (Hex : examined hss = []).
    { clear Hans. unfold examined.
      induction Hnone as [|hs l Hhs _ IH]; [reflexivity|].
      cbn. unfold reported at 1. rewrite Hhs. exact IH. }
    rewrite (Health_run _ _ _ _ _ _ _ Hget Hne).
    rewrite <- (app_nil_r (Backends_ be)) at 1.
    rewrite (healthLoop_app_notHealthy _ _ _ _ _ hss _ _ Hscope Hans)
      by (rewrite Hex; constructor).
    rewrite Hex. reflexivity.
  - intros state err tr' H.
    destruct (Backends_ be) as [|g rest] eqn:Hbe; [left; reflexivity|right].
    rewrite (Health_run _ _ _ _ _ _ _ Hget) in H by (rewrite Hbe; discriminate).
    rewrite Hbe in H.
    apply healthLoop_error in H as [[_ ->]|H]; [left; reflexivity|right; exact H].
Qed.

End WithHelpers.

(** *** Equality of backend services *)

Lemma EqualStringSets_refl l : EqualStringSets l l = true.
Proof. unfold EqualStringSets. apply bool_decide_eq_true. reflexivity. Qed.

Lemma connectionTrackingPolicyEqual_refl p : connectionTrackingPolicyEqual p p = true.
Proof.
  destruct p as [p|]; [|reflexivity]. cbn.
  rewrite String.eqb_refl, Bool.eqb_reflx, Z.eqb_refl. reflexivity.
Qed.

(** The part of [backendSvcEqual] that does not look at the tracking policy. *)
Lemma backendSvcEqual_true_fields a b flag :
  backendSvcEqual a b flag = true ->
  Protocol a = Protocol b /\ Description a = Description b /\
  SessionAffinity a = SessionAffinity b /\
  LoadBalancingScheme a = LoadBalancingScheme b /\
  list_to_set (HealthChecks a) =@{gset string} list_to_set (HealthChecks b) /\
  Network a = Network b.
Proof.
  unfold backendSvcEqual, EqualStringSets. intros H.
  assert (H' : (Protocol a =? Protocol b)%string &&
               (Description a =? Description b)%string &&
               (SessionAffinity a =? SessionAffinity b)%string &&
               (LoadBalancingScheme a =? LoadBalancingScheme b)%string &&
               bool_decide (list_to_set (HealthChecks a)
                            =@{gset string} list_to_set (HealthChecks b)) &&
               (Network a =? Network b)%string = true).
  { destruct flag; [apply andb_true_iff in H as [H _]|]; exact H. }
  repeat (apply andb_true_iff in H' as [H' ?]).
  repeat match goal with
         | H : (_ =? _)%string = true |- _ => apply String.eqb_eq in H
         | H : bool_decide _ = true |- _ => apply bool_decide_eq_true in H
         end.
  tauto.
Qed.

(** C5: [backendSvcEqual] holds of every backend service and itself; its
    result is the same whatever the lists of backends and the draining
    timeouts of the two objects are; and it is false as soon as the two
    objects differ in protocol, description, session affinity, load-balancing
    scheme, set of health checks, or network. *)
Theorem backendSvcEqual_reflexive_ignoring_sensitive :
  (forall a flag, backendSvcEqual a a flag = true) /\
  (forall a b flag backendsA drainingA backendsB drainingB,
     backendSvcEqual (set_Backends backendsA (set_ConnectionDraining drainingA a))
                     (set_Backends backendsB (set_ConnectionDraining drainingB b))
                     flag
     = backendSvcEqual a b flag) /\
  (forall a b flag,
     Protocol a <> Protocol b \/ Description a <> Description b \/
     SessionAffinity a <> SessionAffinity b \/
     LoadBalancingScheme a <> LoadBalancingScheme b \/
     list_to_set (HealthChecks a) <> (list_to_set (HealthChecks b) : gset string) \/
     Network a <> Network b ->
     backendSvcEqual a b flag = false).
Proof.
  split; [|split].
  - intros a flag. unfold backendSvcEqual.
    rewrite !String.eqb_refl, EqualStringSets_refl, connectionTrackingPolicyEqual_refl.
    destruct flag; reflexivity.
  - reflexivity.
  - intros a b flag Hdiff.
    destruct (backendSvcEqual a b flag) eqn:Heq; [|reflexivity].
    apply backendSvcEqual_true_fields in Heq. tauto.
Qed.

(** *** [EnsureL4BackendService] *)

Section Ensure.

Variable IsNotFoundError : error -> bool.
Variable MakeL4LBServiceDescription :
  string -> string -> Version -> bool -> L4LBType -> string * option error.
Variable TranslateAffinityType : string -> string.

Local Abbreviation EnsureL4BackendService :=
  (EnsureL4BackendService IsNotFoundError MakeL4LBServiceDescription
                          TranslateAffinityType).
Local Abbreviation expectedBackendService :=
  (expectedBackendService MakeL4LBServiceDescription TranslateAffinityType).

Lemma drainingTimeout_expected_not_TCP
  b name hcLink protocol sessionAffinity scheme namespacedName network policy :
  protocol <> ProtocolTCP ->
  drainingTimeout (expectedBackendService b name hcLink protocol sessionAffinity scheme
                                          namespacedName network policy) = Some 0%Z.
Proof.
  intros H. apply String.eqb_neq in H. unfold drainingTimeout. cbn. rewrite H.
  reflexivity.
Qed.

Lemma drainingTimeout_updated_not_TCP protocol expectedBS bs :
  protocol <> ProtocolTCP ->
  drainingTimeout (updatedBackendService protocol expectedBS bs)
  = drainingTimeout expectedBS.
Proof.
  intros H. apply String.eqb_neq in H. unfold updatedBackendService.
  destruct (ConnectionDraining_ bs); [|reflexivity].
  rewrite H, andb_false_r. reflexivity.
Qed.

Lemma drainingTimeout_updated_TCP expectedBS bs cd :
  ConnectionDraining_ bs = Some cd -> (0 < DrainingTimeoutSec cd)%Z ->
  drainingTimeout (updatedBackendService ProtocolTCP expectedBS bs)
  = Some (DrainingTimeoutSec cd).
Proof.
  intros Hcd Hpos. apply Z.ltb_lt in Hpos. unfold updatedBackendService.
  rewrite Hcd, Hpos. reflexivity.
Qed.

(** The run of [EnsureL4BackendService] when the existing object is found. *)
Lemma EnsureL4BackendService_found
  b name hcLink protocol sessionAffinity scheme namespacedName network policy
  key bs tr :
  CreateKey (cloud b) name Regional = Ok key ->
  GetBackendService (cloud b) tr key VersionGA = Ok bs ->
  let expectedBS := expectedBackendService b name hcLink protocol sessionAffinity
                      scheme namespacedName network policy in
  let fetch := GetBackendServiceCall key VersionGA in
  EnsureL4BackendService b name hcLink protocol sessionAffinity scheme namespacedName
                         network policy tr =
    if backendSvcEqual expectedBS bs (useConnectionTrackingPolicy b)
    then (Returns (Ok bs), tr ++ [fetch])
    else
      let update := UpdateBackendServiceCall key
                      (updatedBackendService protocol expectedBS bs) in
      match UpdateBackendService (cloud b) (tr ++ [fetch]) key
              (updatedBackendService protocol expectedBS bs) with
      | Some err => (Returns (Err err), tr ++ [fetch; update])
      | None =>
        (Returns (GetBackendService (cloud b) (tr ++ [fetch; update]) key VersionGA),
         tr ++ [fetch; update; fetch])
      end.
Proof.
  intros Hkey Hget. cbn zeta. unfold Backends.EnsureL4BackendService.
  rewrite Hkey. run. rewrite Hget.
  destruct (backendSvcEqual _ bs _); [reflexivity|].
  cbn zeta. run.
  destruct (UpdateBackendService _ _ _ _); rewrite <- ?app_assoc; reflexivity.
Qed.

(** The run of [EnsureL4BackendService] when the fetch fails. *)
Lemma EnsureL4BackendService_not_found
  b name hcLink protocol sessionAffinity scheme namespacedName network policy
  key err tr :
  CreateKey (cloud b) name Regional = Ok key ->
  GetBackendService (cloud b) tr key VersionGA = Err err ->
  let expectedBS := expectedBackendService b name hcLink protocol sessionAffinity
                      scheme namespacedName network policy in
  let fetch := GetBackendServiceCall key VersionGA in
  let create := CreateBackendServiceCall key expectedBS in
  EnsureL4BackendService b name hcLink protocol sessionAffinity scheme namespacedName
                         network policy tr =
    if negb (IsNotFoundError err) then (Returns (Err err), tr ++ [fetch])
    else
      match CreateBackendService (cloud b) (tr ++ [fetch]) key expectedBS with
      | Some err' => (Returns (Err err'), tr ++ [fetch; create])
      | None =>
        (Returns (GetBackendService (cloud b) (tr ++ [fetch; create]) key VersionGA),
         tr ++ [fetch; create; fetch])
      end.
Proof.
  intros Hkey Hget. cbn zeta. unfold Backends.EnsureL4BackendService.
  rewrite Hkey. run. rewrite Hget.
  destruct (IsNotFoundError err); [|reflexivity].
  cbn [negb]. run.
  destruct (CreateBackendService _ _ _ _); rewrite <- ?app_assoc; reflexivity.
Qed.

Lemma backendSvcEqual_sameExceptDraining expectedBS bs flag :
  sameExceptDraining expectedBS bs -> backendSvcEqual expectedBS bs flag = true.
Proof.
  intros (_ & Hp & Hd & Hh & Hs & Hl & Hc & Hn). unfold backendSvcEqual.
  rewrite Hp, Hd, Hh, Hs, Hl, Hc, Hn.
  rewrite !String.eqb_refl, EqualStringSets_refl, connectionTrackingPolicyEqual_refl.
  destruct flag; reflexivity.
Qed.

(** C6: when the existing backend service is found and carries every desired
    attribute, whatever its draining timeout, [EnsureL4BackendService] makes
    the fetch and no other call, in particular no update, and returns the
    fetched object as it is. *)
Theorem EnsureL4BackendService_no_update_for_draining_only
  b name hcLink protocol sessionAffinity scheme namespacedName network policy
  key bs tr :
  CreateKey (cloud b) name Regional = Ok key ->
  GetBackendService (cloud b) tr key VersionGA = Ok bs ->
  sameExceptDraining
    (expectedBackendService b name hcLink protocol sessionAffinity scheme
                            namespacedName network policy) bs ->
  EnsureL4BackendService b name hcLink protocol sessionAffinity scheme namespacedName
                         network policy tr =
    (Returns (Ok bs), tr ++ [GetBackendServiceCall key VersionGA]).
Proof.
  intros Hkey Hget Hsame.
  rewrite (EnsureL4BackendService_found _ _ _ _ _ _ _ _ _ _ _ _ Hkey Hget).
  rewrite (backendSvcEqual_sameExceptDraining _ _ _ Hsame). reflexivity.
Qed.

(** A history that is a fetch, a call submitting [x], and calls that submit
    nothing, submits [x] only. *)
Lemma submitted_one_object key (be x : BackendService) (c : Call) rest :
  submitted c = Some x ->
  Forall (fun c => submitted c = None) rest ->
  In (Some be) (map submitted (GetBackendServiceCall key VersionGA :: c :: rest)) ->
  be = x.
Proof.
  intros Hc Hrest [H|[H|H]].
  - discriminate.
  - congruence.
  - apply in_map_iff in H as (c' & Hc' & Hin).
    rewrite List.Forall_forall in Hrest. apply Hrest in Hin. congruence.
Qed.

(** C2: the calls [EnsureL4BackendService] adds to the history are such that,
    when the protocol is not TCP, every object submitted by a create or an
    update carries the draining timeout zero, whatever the existing object
    carries; and when the protocol is TCP and the existing object is found
    with a positive draining timeout and is not equal to the expected one, an
    update is submitted, it carries the existing timeout, and it is the only
    object submitted. *)
Theorem EnsureL4BackendService_draining_timeout
  b name hcLink protocol sessionAffinity scheme namespacedName network policy tr :
  exists new,
    snd (EnsureL4BackendService b name hcLink protocol sessionAffinity scheme
                                namespacedName network policy tr) = tr ++ new /\
    (protocol <> ProtocolTCP ->
     forall be, In (Some be) (map submitted new) ->
                drainingTimeout be = Some 0%Z) /\
    (protocol = ProtocolTCP ->
     forall key bs cd,
       CreateKey (cloud b) name Regional = Ok key ->
       GetBackendService (cloud b) tr key VersionGA = Ok bs ->
       ConnectionDraining_ bs = Some cd ->
       (0 < DrainingTimeoutSec cd)%Z ->
       backendSvcEqual
         (expectedBackendService b name hcLink protocol sessionAffinity scheme
                                 namespacedName network policy)
         bs (useConnectionTrackingPolicy b) = false ->
       exists update,
         In (UpdateBackendServiceCall key update) new /\
         drainingTimeout update = Some (DrainingTimeoutSec cd) /\
         forall be, In (Some be) (map submitted new) -> be = update).
Proof.
  set (expectedBS := expectedBackendService b name hcLink protocol sessionAffinity
                       scheme namespacedName network policy).
  destruct (CreateKey (cloud b) name Regional) as [key|e] eqn:Hkey.
  2:{ exists []. unfold Backends.EnsureL4BackendService. rewrite Hkey, app_nil_r.
      split; [reflexivity|]. split; [intros _ be []|discriminate]. }
  set (fetch := GetBackendServiceCall key VersionGA).
  destruct (GetBackendService (cloud b) tr key VersionGA) as [bs|e] eqn:Hget.
  - (* the object exists *)
    rewrite (EnsureL4BackendService_found _ _ _ _ _ _ _ _ _ _ _ _ Hkey Hget).
    fold expectedBS fetch.
    set (update := updatedBackendService protocol expectedBS bs).
    destruct (backendSvcEqual expectedBS bs (useConnectionTrackingPolicy b)) eqn:Heq.
    { exists [fetch]. split; [reflexivity|]. split.
      - intros _ be [H|[]]. discriminate.
      - intros _ key' bs' cd Hkey' Hget' _ _ Hne. subst expectedBS. congruence. }
    assert (Hnew : exists rest,
              snd (let call := UpdateBackendServiceCall key update in
                   match UpdateBackendService (cloud b) (tr ++ [fetch]) key update with
                   | Some err => (Returns (Err err), tr ++ [fetch; call])
                   | None =>
                     (Returns (GetBackendService (cloud b) (tr ++ [fetch; call])
                                                 key VersionGA),
                      tr ++ [fetch; call; fetch])
                   end)
              = tr ++ fetch :: UpdateBackendServiceCall key update :: rest /\
              Forall (fun c => submitted c = None) rest).
    { cbn zeta. destruct (UpdateBackendService _ _ _ _);
        [exists []|exists [fetch]]; (split; [reflexivity|repeat constructor]). }
    destruct Hnew as (rest & Hnew & Hrest).
    exists (fetch :: UpdateBackendServiceCall key update :: rest).
    split; [exact Hnew|]. split.
    + intros Hp be Hin.
      rewrite (submitted_one_object key be update (UpdateBackendServiceCall key update)
                                    rest eq_refl Hrest Hin).
      unfold update. rewrite (drainingTimeout_updated_not_TCP _ _ _ Hp).
      apply drainingTimeout_expected_not_TCP, Hp.
    + intros Hp key' bs' cd Hkey' Hget' Hcd Hpos _.
      assert (key' = key) as -> by congruence.
      assert (bs' = bs) as -> by congruence.
      exists update. split; [right; left; reflexivity|]. split.
      * unfold update. rewrite Hp. exact (drainingTimeout_updated_TCP _ _ _ Hcd Hpos).
      * intros be Hin.
        exact (submitted_one_object key be update (UpdateBackendServiceCall key update)
                                    rest eq_refl Hrest Hin).
  - (* the fetch fails *)
    rewrite (EnsureL4BackendService_not_found _ _ _ _ _ _ _ _ _ _ _ _ Hkey Hget).
    fold expectedBS fetch.
    destruct (negb (IsNotFoundError e)).
    { exists [fetch]. split; [reflexivity|]. split.
      - intros _ be [H|[]]. discriminate.
      - intros _ key' bs' cd Hkey' Hget'. congruence. }
    assert (Hnew : exists rest,
              snd (let call := CreateBackendServiceCall key expectedBS in
                   match CreateBackendService (cloud b) (tr ++ [fetch]) key expectedBS with
                   | Some err => (Returns (Err err), tr ++ [fetch; call])
                   | None =>
                     (Returns (GetBackendService (cloud b) (tr ++ [fetch; call])
                                                 key VersionGA),
                      tr ++ [fetch; call; fetch])
                   end)
              = tr ++ fetch :: CreateBackendServiceCall key expectedBS :: rest /\
              Forall (fun c => submitted c = None) rest).
    { cbn zeta. destruct (CreateBackendService _ _ _ _);
        [exists []|exists [fetch]]; (split; [reflexivity|repeat constructor]). }
    destruct Hnew as (rest & Hnew & Hrest).
    exists (fetch :: CreateBackendServiceCall key expectedBS :: rest).
    split; [exact Hnew|]. split.
    + intros Hp be Hin.
      rewrite (submitted_one_object key be expectedBS
                                    (CreateBackendServiceCall key expectedBS)
                                    rest eq_refl Hrest Hin).
      apply drainingTimeout_expected_not_TCP, Hp.
    + intros _ key' bs' cd Hkey' Hget'. congruence.
Qed.

End Ensure.

(** *** The statements on the scenarios *)

Import BackendsScenarios.

Local Abbreviation Get' := (Get versionFromDescription isLowerVersion).
Local Abbreviation Delete' := (Delete isHTTPErrorCode isInUsedByError).
Local Abbreviation Health' := (Health versionFromDescription isLowerVersion).
Local Abbreviation Ensure' :=
  (EnsureL4BackendService isNotFoundError makeL4LBServiceDescription
                          translateAffinityType).

(** [Delete] on a missing object, on an object in use, and on a failure of
    the backend. *)
Lemma Delete_idempotent_witness :
  fst (Delete' (deleting (Some (ApiError 404 "notFound"))) "k8s-be" VersionGA Global [])
    = Returns None /\
  fst (Delete' (deleting (Some (ApiError 400 "resourceInUseByAnotherResource")))
               "k8s-be" VersionGA Global [])
    = Returns None /\
  fst (Delete' (deleting (Some (ApiError 500 "backendError"))) "k8s-be" VersionGA Global [])
    = Returns (Some (ApiError 500 "backendError")).
Proof.
  split; [|split].
  - exact (proj1 (Delete_idempotent isHTTPErrorCode isInUsedByError
                    (deleting (Some (ApiError 404 "notFound")))
                    "k8s-be" VersionGA Global _ [] eq_refl _ eq_refl) eq_refl).
  - exact (proj1 (proj2 (Delete_idempotent isHTTPErrorCode isInUsedByError
                    (deleting (Some (ApiError 400 "resourceInUseByAnotherResource")))
                    "k8s-be" VersionGA Global _ [] eq_refl _ eq_refl)) eq_refl).
  - exact (proj2 (proj2 (Delete_idempotent isHTTPErrorCode isInUsedByError
                    (deleting (Some (ApiError 500 "backendError")))
                    "k8s-be" VersionGA Global _ [] eq_refl _ eq_refl)) eq_refl eq_refl).
Defined.

(** A [Get] at GA of an object whose description asks for beta. *)
Lemma Get_refetches_at_lower_version_witness :
  exists key first,
    CreateKey (cloud (fetching getByVersion silent)) "k8s-be" Global = Ok key /\
    GetBackendService (cloud (fetching getByVersion silent)) [] key VersionGA = Ok first /\
    let versionRequired := versionFromDescription (Description first) in
    if isLowerVersion versionRequired VersionGA
    then GetBackendService (cloud (fetching getByVersion silent))
           ([] ++ [GetBackendServiceCall key VersionGA]) key versionRequired
         = Ok (existing "beta-feature" "fp-beta" 30 []) /\
         [GetBackendServiceCall {| KeyName := "k8s-be"; KeyZone := ""; KeyRegion := "" |}
                                VersionGA;
          GetBackendServiceCall {| KeyName := "k8s-be"; KeyZone := ""; KeyRegion := "" |}
                                VersionBeta]
         = [] ++ [GetBackendServiceCall key VersionGA;
                  GetBackendServiceCall key versionRequired]
    else existing "beta-feature" "fp-beta" 30 [] = first /\
         [GetBackendServiceCall {| KeyName := "k8s-be"; KeyZone := ""; KeyRegion := "" |}
                                VersionGA;
          GetBackendServiceCall {| KeyName := "k8s-be"; KeyZone := ""; KeyRegion := "" |}
                                VersionBeta]
         = [] ++ [GetBackendServiceCall key VersionGA].
Proof.
  exact (Get_refetches_at_lower_version versionFromDescription isLowerVersion
           (fetching getByVersion silent) "k8s-be" VersionGA Global [] _ _ eq_refl).
Defined.

(** Three groups, the first of which reports a healthy instance first: the
    other two are not asked. *)
Lemma Health_short_circuits_on_healthy_witness :
  Health' (fetching (getWith threeGroups) healthyFirst) "k8s-be" VersionGA Global []
  = (Returns ("HEALTHY", None),
     [GetBackendServiceCall globalKey VersionGA;
      GetGlobalBackendServiceHealthCall "k8s-be" "g1"]).
Proof.
  exact (Health_short_circuits_on_healthy versionFromDescription isLowerVersion
           (fetching (getWith threeGroups) healthyFirst) "k8s-be" VersionGA Global []
           (existing "" "fp" 30 threeGroups) [GetBackendServiceCall globalKey VersionGA]
           [] {| Group := "g1" |} [ {| Group := "g2" |}; {| Group := "g3" |} ]
           [] {| HealthStatus_ := [status "HEALTHY"; status "UNHEALTHY"] |}
           [] {| HealthState := "HEALTHY" |} [status "UNHEALTHY"]
           eq_refl ltac:(discriminate) eq_refl eq_refl ltac:(constructor) eq_refl
           ltac:(constructor) eq_refl).
Defined.

Lemma notHealthy_status state :
  String.eqb state "HEALTHY" = false -> notHealthy (status state).
Proof.
  intros H. exists {| HealthState := state |}. split; [reflexivity|].
  apply String.eqb_neq. exact H.
Qed.

(** Three regional groups without a healthy instance: the state returned is
    that of the last status of the last group. *)
Lemma Health_returns_last_state_witness :
  exists state,
    Health' (fetching (getWith threeGroups) neverHealthy) "k8s-be" VersionGA Regional []
    = (Returns (state, None),
       [GetBackendServiceCall
          {| KeyName := "k8s-be"; KeyZone := ""; KeyRegion := "region1" |} VersionGA]
         ++ map (healthQuery (fetching (getWith threeGroups) neverHealthy)
                             "k8s-be" Regional) threeGroups) /\
    (forall s,
       last (examined [ {| HealthStatus_ := [status "UNHEALTHY"; status "DRAINING"] |};
                        {| HealthStatus_ := [] |};
                        {| HealthStatus_ := [status "TIMEOUT"] |} ]) = Some (Some s) ->
       state = HealthState s) /\
    (examined [ {| HealthStatus_ := [status "UNHEALTHY"; status "DRAINING"] |};
                {| HealthStatus_ := [] |};
                {| HealthStatus_ := [status "TIMEOUT"] |} ] = [] ->
     state = "Unknown") /\
    (state = "Unknown" ->
     examined [ {| HealthStatus_ := [status "UNHEALTHY"; status "DRAINING"] |};
                {| HealthStatus_ := [] |};
                {| HealthStatus_ := [status "TIMEOUT"] |} ] = [] \/
     exists s,
       last (examined [ {| HealthStatus_ := [status "UNHEALTHY"; status "DRAINING"] |};
                        {| HealthStatus_ := [] |};
                        {| HealthStatus_ := [status "TIMEOUT"] |} ]) = Some (Some s) /\
       HealthState s = "Unknown").
Proof.
  refine (Health_returns_last_state versionFromDescription isLowerVersion
            (fetching (getWith threeGroups) neverHealthy) "k8s-be" VersionGA Regional []
            (existing "" "fp" 30 threeGroups) _
            [ {| HealthStatus_ := [status "UNHEALTHY"; status "DRAINING"] |};
              {| HealthStatus_ := [] |};
              {| HealthStatus_ := [status "TIMEOUT"] |} ]
            eq_refl ltac:(discriminate) ltac:(discriminate) eq_refl _).
  repeat constructor; apply notHealthy_status; reflexivity.
Defined.

(** Three groups that report no status: the state is unknown and there is no
    error. *)
Lemma Health_unknown_without_status_witness :
  Health' (fetching (getWith threeGroups) silent) "k8s-be" VersionGA Global []
  = (Returns ("Unknown", None),
     [GetBackendServiceCall globalKey VersionGA]
       ++ map (healthQuery (fetching (getWith threeGroups) silent) "k8s-be" Global)
              threeGroups).
Proof.
  refine (proj1 (Health_unknown_without_status versionFromDescription isLowerVersion
                   (fetching (getWith threeGroups) silent) "k8s-be" VersionGA Global []
                   (existing "" "fp" 30 threeGroups) _ eq_refl)
                [ {| HealthStatus_ := [None; status "HEALTHY"] |};
                  {| HealthStatus_ := [] |}; {| HealthStatus_ := [] |} ]
                ltac:(discriminate) ltac:(discriminate) eq_refl _).
  repeat constructor.
Defined.

(** C1 as stated fails when no backend is attached: the fetch succeeds, no
    remote call fails, and [Health] returns an error. *)
Lemma Health_no_backends_is_an_error :
  Get' (fetching (getWith []) silent) "k8s-be" VersionGA Global []
    = (Returns (Ok (existing "" "fp" 30 [])), [GetBackendServiceCall globalKey VersionGA]) /\
  Backends_ (existing "" "fp" 30 []) = [] /\
  Health' (fetching (getWith []) silent) "k8s-be" VersionGA Global []
    = (Returns ("Unknown", Some (Errorf "no backends found for backend service %q")),
       [GetBackendServiceCall globalKey VersionGA]).
Proof. repeat split. Qed.

(** C10 as stated fails on a status list with a nil entry behind the first:
    the fetch succeeds with one backend attached, the health lookup succeeds,
    no instance status is healthy, and [Health] does not return: the first
    entry passes the test for a list without status, and the loop over the
    entries panics on the nil one. *)
Lemma Health_panics_on_nil_entry :
  Get' (fetching (getWith [ {| Group := "g1" |} ]) nilBehindFirst) "k8s-be" VersionGA Global []
    = (Returns (Ok (existing "" "fp" 30 [ {| Group := "g1" |} ])),
       [GetBackendServiceCall globalKey VersionGA]) /\
  Backends_ (existing "" "fp" 30 [ {| Group := "g1" |} ]) = [ {| Group := "g1" |} ] /\
  healthAnswers (fetching (getWith [ {| Group := "g1" |} ]) nilBehindFirst) "k8s-be" Global
                [ {| Group := "g1" |} ] [GetBackendServiceCall globalKey VersionGA]
    = [Ok {| HealthStatus_ := [status "UNHEALTHY"; None] |}] /\
  noHealthStatus {| HealthStatus_ := [status "UNHEALTHY"; None] |} = false /\
  (forall s, In (Some s) [status "UNHEALTHY"; None] -> HealthState s <> "HEALTHY") /\
  Health' (fetching (getWith [ {| Group := "g1" |} ]) nilBehindFirst) "k8s-be" VersionGA Global []
    = (Panics,
       [GetBackendServiceCall globalKey VersionGA;
        GetGlobalBackendServiceHealthCall "k8s-be" "g1"]).
Proof.
  repeat split. intros s [[= <-]|[[=]|[]]]. discriminate.
Qed.

(** The exception in the last part of C10 is met by a status whose state is
    the text "Unknown": the fetch and the health lookup succeed, the one
    group reports an instance status, none is healthy, and [Health] returns
    "Unknown", the state of the last status examined. *)
Lemma Health_returns_reported_unknown :
  Get' (fetching (getWith [ {| Group := "g1" |} ]) unknownState) "k8s-be" VersionGA Global []
    = (Returns (Ok (existing "" "fp" 30 [ {| Group := "g1" |} ])),
       [GetBackendServiceCall globalKey VersionGA]) /\
  healthAnswers (fetching (getWith [ {| Group := "g1" |} ]) unknownState) "k8s-be" Global
                [ {| Group := "g1" |} ] [GetBackendServiceCall globalKey VersionGA]
    = [Ok {| HealthStatus_ := [status "Unknown"] |}] /\
  examined [ {| HealthStatus_ := [status "Unknown"] |} ] = [status "Unknown"] /\
  Forall notHealthy (examined [ {| HealthStatus_ := [status "Unknown"] |} ]) /\
  Health' (fetching (getWith [ {| Group := "g1" |} ]) unknownState) "k8s-be" VersionGA Global []
    = (Returns ("Unknown", None),
       [GetBackendServiceCall globalKey VersionGA;
        GetGlobalBackendServiceHealthCall "k8s-be" "g1"]).
Proof.
  repeat split. repeat constructor. apply notHealthy_status. reflexivity.
Qed.

(** On a cloud that does not know the object, it is created and fetched
    again; asked once more, nothing is submitted. *)
Example EnsureL4BackendService_creates_then_settles :
  Ensure' (pool rememberingCloud) "k8s-be" "hc" "UDP" "None" "INTERNAL" serviceName
          defaultNetwork None []
  = (Returns (Ok (set_Fingerprint "fp-new" desiredUDP)),
     [GetBackendServiceCall regionalKey VersionGA;
      CreateBackendServiceCall regionalKey desiredUDP;
      GetBackendServiceCall regionalKey VersionGA]) /\
  Ensure' (pool rememberingCloud) "k8s-be" "hc" "UDP" "None" "INTERNAL" serviceName
          defaultNetwork None
          [GetBackendServiceCall regionalKey VersionGA;
           CreateBackendServiceCall regionalKey desiredUDP;
           GetBackendServiceCall regionalKey VersionGA]
  = (Returns (Ok (set_Fingerprint "fp-new" desiredUDP)),
     [GetBackendServiceCall regionalKey VersionGA;
      CreateBackendServiceCall regionalKey desiredUDP;
      GetBackendServiceCall regionalKey VersionGA;
      GetBackendServiceCall regionalKey VersionGA]).
Proof. split; reflexivity. Qed.

(** The existing object has the desired attributes and a timeout of ten
    minutes where thirty seconds are the default: nothing is updated. *)
Lemma EnsureL4BackendService_no_update_for_draining_only_witness :
  Ensure' (fetching (getWith' expectedDescription 600 threeGroups) silent)
          "k8s-be" "hc" "TCP" "None" "INTERNAL" serviceName defaultNetwork None []
  = (Returns (Ok (existing expectedDescription "fp" 600 threeGroups)),
     [] ++ [GetBackendServiceCall regionalKey VersionGA]).
Proof.
  refine (EnsureL4BackendService_no_update_for_draining_only
            isNotFoundError makeL4LBServiceDescription translateAffinityType
            (fetching (getWith' expectedDescription 600 threeGroups) silent)
            "k8s-be" "hc" "TCP" "None" "INTERNAL" serviceName defaultNetwork None
            regionalKey (existing expectedDescription "fp" 600 threeGroups) []
            eq_refl eq_refl _).
  repeat split.
Defined.

(** An existing TCP object with a timeout of ten minutes and another health
    check: turned to UDP, the update carries the timeout zero; kept at TCP, it
    carries the ten minutes. *)
Lemma EnsureL4BackendService_draining_timeout_witness :
  (forall be,
     In (Some be)
        (map submitted
           (snd (Ensure' (fetching (getWith' expectedDescription 600 threeGroups) silent)
                         "k8s-be" "hc2" "UDP" "None" "INTERNAL" serviceName
                         defaultNetwork None []))) ->
     drainingTimeout be = Some 0%Z) /\
  (exists update,
     In (UpdateBackendServiceCall regionalKey update)
        (snd (Ensure' (fetching (getWith' expectedDescription 600 threeGroups) silent)
                      "k8s-be" "hc2" "TCP" "None" "INTERNAL" serviceName
                      defaultNetwork None [])) /\
     drainingTimeout update = Some 600%Z).
Proof.
  split.
  - destruct (EnsureL4BackendService_draining_timeout
                isNotFoundError makeL4LBServiceDescription translateAffinityType
                (fetching (getWith' expectedDescription 600 threeGroups) silent)
                "k8s-be" "hc2" "UDP" "None" "INTERNAL" serviceName defaultNetwork None [])
      as (new & Hnew & Hudp & _).
    cbn [app] in Hnew. rewrite Hnew. apply Hudp. discriminate.
  - destruct (EnsureL4BackendService_draining_timeout
                isNotFoundError makeL4LBServiceDescription translateAffinityType
                (fetching (getWith' expectedDescription 600 threeGroups) silent)
                "k8s-be" "hc2" "TCP" "None" "INTERNAL" serviceName defaultNetwork None [])
      as (new & Hnew & _ & Htcp).
    cbn [app] in Hnew. rewrite Hnew.
    destruct (Htcp eq_refl regionalKey (existing expectedDescription "fp" 600 threeGroups)
                   {| DrainingTimeoutSec := 600 |} eq_refl eq_refl eq_refl eq_refl eq_refl)
      as (update & Hin & Htimeout & _).
    exists update. split; assumption.
Defined.

(** An object equals itself, and does not equal the one that differs from it
    in the description only. *)
Lemma backendSvcEqual_reflexive_ignoring_sensitive_witness :
  backendSvcEqual (existing "" "fp" 30 threeGroups) (existing "" "fp" 30 threeGroups) true
    = true /\
  backendSvcEqual (existing "" "fp" 30 threeGroups)
                  (existing "beta-feature" "fp" 30 threeGroups) true
    = false.
Proof.
  split.
  - exact (proj1 backendSvcEqual_reflexive_ignoring_sensitive
                 (existing "" "fp" 30 threeGroups) true).
  - apply (proj2 (proj2 backendSvcEqual_reflexive_ignoring_sensitive)).
    right. left. discriminate.
Defined.

End BackendsFacts.

(** * Properties of package [neg] *)

Module NegFacts.
Import Neg.

Ltac run := unfold bind, call, mret, panic in *; cbn beta iota in *.

Section WithDeps.

Variable deps : Deps.
Variable c : Controller.

Local Abbreviation processService := (processService deps c).
Local Abbreviation resolvePortInfoMap := (resolvePortInfoMap deps c).
Local Abbreviation applyPortInfoMap := (applyPortInfoMap deps c).
Local Abbreviation syncNegStatusAnnotation := (syncNegStatusAnnotation deps c).

(** [mergeStandaloneNEGsPortInfo] rejects custom names under ingress mode and
    leaves the map and the usage record as they were. *)
Lemma mergeStandaloneNEGsPortInfo_rejects
  service name portInfoMap negUsage networkInfo ann exposed customNames perr :
  NEGAnnotation deps service = (Some ann, true, None) ->
  NEGEnabledForIngress deps ann = true ->
  NEGExposed deps ann = true ->
  negServicePorts deps ann (gatherPortMappingFromService service)
    = (exposed, customNames, perr) ->
  size customNames <> 0 ->
  exists err,
    mergeStandaloneNEGsPortInfo deps c service name portInfoMap negUsage networkInfo
    = (portInfoMap, negUsage, Some err).
Proof.
  intros Hann Hing Hexp Hports Hsize.
  unfold mergeStandaloneNEGsPortInfo. rewrite Hann. cbn [negb].
  rewrite Hexp.
  change (foldl _ ∅ (Ports (Spec service))) with (gatherPortMappingFromService service).
  rewrite Hports.
  destruct perr as [err|]; [eauto|].
  rewrite Hing.
  replace (len customNames =? 0)%Z with false; [cbn; eauto|].
  symmetry. apply Z.eqb_neq. unfold len. lia.
Qed.

Lemma scanIngress_run portInfoMap networkInfo qualify tr :
  exists portInfoMap' err,
    scanIngress deps c portInfoMap networkInfo qualify tr
    = (Returns (portInfoMap', err), tr ++ [IngressListCall]).
Proof.
  unfold scanIngress. run.
  destruct (find _ _); [|eauto].
  destruct (Merge deps portInfoMap _) as [m e]. eauto.
Qed.

Lemma Forall_isRead_snoc new :
  Forall isRead new -> Forall isRead (new ++ [IngressListCall]).
Proof. intros H. apply Forall_app. split; [exact H|]. repeat constructor. Qed.

(** Merging the default backend only reads, and returns, when the annotation
    of the service is parsed. *)
Lemma mergeDefaultBackendServicePortInfoMap_reads
  key service portInfoMap networkInfo ann found tr :
  NEGAnnotation deps service = (Some ann, found, None) ->
  exists portInfoMap' err new,
    mergeDefaultBackendServicePortInfoMap deps c key service portInfoMap networkInfo tr
    = (Returns (portInfoMap', err), tr ++ new) /\
    Forall isRead new.
Proof.
  intros Hann. unfold mergeDefaultBackendServicePortInfoMap.
  destruct (negb _).
  { exists portInfoMap, None, []. rewrite app_nil_r. split; [reflexivity|constructor]. }
  destruct (scanIngress_run portInfoMap networkInfo (IsGCEL7ILBIngress deps) tr)
    as (m1 & e1 & H1).
  unfold bind at 1. rewrite H1.
  destruct e1 as [e1|].
  { exists m1, (Some e1), [IngressListCall]. split; [reflexivity|repeat constructor]. }
  assert (Hsecond : exists m2 e2 new2,
            (if enableIngressRegionalExternal c
             then scanIngress deps c m1 networkInfo (IsGCEL7XLBRegionalIngress deps)
             else mret (m1, None)) (tr ++ [IngressListCall])
            = (Returns (m2, e2), tr ++ new2) /\ Forall isRead new2).
  { destruct (enableIngressRegionalExternal c).
    - destruct (scanIngress_run m1 networkInfo (IsGCEL7XLBRegionalIngress deps)
                                (tr ++ [IngressListCall])) as (m2 & e2 & H2).
      exists m2, e2, [IngressListCall; IngressListCall].
      rewrite H2, <- app_assoc. split; [reflexivity|repeat constructor].
    - exists m1, None, [IngressListCall]. split; [reflexivity|repeat constructor]. }
  destruct Hsecond as (m2 & e2 & new2 & H2 & Hnew2).
  unfold bind. rewrite H2.
  destruct e2 as [e2|]; [eauto 6|].
  rewrite Hann.
  destruct (negb found); [eauto 6|].
  destruct (Bool.eqb (Ingress_ ann) false); [eauto 6|].
  destruct (scanIngress_run m2 networkInfo (IsGCEIngress deps) (tr ++ new2))
    as (m3 & e3 & H3).
  exists m3, e3, (new2 ++ [IngressListCall]).
  rewrite H3, <- app_assoc. split; [reflexivity|]. apply Forall_isRead_snoc, Hnew2.
Qed.

(** Merging the ports referenced by ingresses only reads, and returns. *)
Lemma mergeIngressPortInfo_reads service name portInfoMap networkInfo tr :
  exists portInfoMap' err new,
    mergeIngressPortInfo deps c service name portInfoMap networkInfo tr
    = (Returns (portInfoMap', err), tr ++ new) /\
    Forall isRead new.
Proof.
  unfold mergeIngressPortInfo.
  assert (Hnone : forall e : option error, exists portInfoMap' err new,
            mret (Ev := Event) (portInfoMap, e) tr = (Returns (portInfoMap', err), tr ++ new)
            /\ Forall isRead new).
  { intros e. exists portInfoMap, e, []. rewrite app_nil_r.
    split; [reflexivity|constructor]. }
  destruct (NEGAnnotation deps service) as [[ann found] err].
  destruct err as [err|]; [apply Hnone|].
  destruct (negb found); [apply Hnone|].
  destruct ann as [ann|]; [|apply Hnone].
  destruct (NEGEnabledForIngress deps ann); [|apply Hnone].
  unfold getIngressServicesFromStore. run.
  destruct (Merge deps portInfoMap _) as [m [e|]];
    eexists _, _, [IngressListCall]; (split; [reflexivity|repeat constructor]).
Qed.

(** The resolution of the desired state fails, having only read, when the
    annotation combines ingress mode with custom names. *)
Lemma resolvePortInfoMap_rejects
  key namespace name service ann exposed customNames perr tr :
  NEGAnnotation deps service = (Some ann, true, None) ->
  NEGEnabledForIngress deps ann = true ->
  NEGExposed deps ann = true ->
  negServicePorts deps ann (gatherPortMappingFromService service)
    = (exposed, customNames, perr) ->
  size customNames <> 0 ->
  exists portInfoMap negUsage err new,
    resolvePortInfoMap key namespace name service tr
    = (Returns (portInfoMap, negUsage, Some err), tr ++ new) /\
    Forall isRead new.
Proof.
  intros Hann Hing Hexp Hports Hsize. unfold Neg.resolvePortInfoMap.
  unfold bind at 1, call at 1.
  destruct (networkResolver_ServiceNetwork c tr service) as [networkInfo|err].
  2:{ eexists _, _, err, [ServiceNetworkCall service].
      split; [reflexivity|repeat constructor]. }
  destruct (mergeDefaultBackendServicePortInfoMap_reads key service ∅ networkInfo
              ann true (tr ++ [ServiceNetworkCall service]) Hann)
    as (m1 & e1 & new1 & H1 & Hnew1).
  unfold bind at 1. rewrite H1.
  destruct e1 as [e1|].
  { eexists _, _, e1, (ServiceNetworkCall service :: new1).
    rewrite <- app_assoc. split; [reflexivity|]. constructor; [exact I|exact Hnew1]. }
  cbn zeta.
  destruct (mergeIngressPortInfo_reads service
              {| types.Namespace := namespace; types.Name := name |} m1 networkInfo
              ((tr ++ [ServiceNetworkCall service]) ++ new1))
    as (m2 & e2 & new2 & H2 & Hnew2).
  unfold bind at 1. rewrite H2.
  assert (Hreads : Forall isRead ((ServiceNetworkCall service :: new1) ++ new2)).
  { apply Forall_app. split; [constructor; [exact I|exact Hnew1]|exact Hnew2]. }
  assert (Htr : ((tr ++ [ServiceNetworkCall service]) ++ new1) ++ new2
                = tr ++ (ServiceNetworkCall service :: new1) ++ new2).
  { rewrite <- !app_assoc. reflexivity. }
  rewrite Htr.
  destruct e2 as [e2|]; [eauto 8|].
  destruct (mergeStandaloneNEGsPortInfo_rejects service
              {| types.Namespace := namespace; types.Name := name |} m2
              (set_IngressNeg (len m2)
                 (set_IngressNeg (len m1)
                    {| IngressNeg := 0; StandaloneNeg := 0; AsmNeg := 0; VmIpNeg := None;
                       CustomNamedNeg := 0; SuccessfulNeg := 0; ErrorNeg := 0 |}))
              networkInfo ann exposed customNames perr Hann Hing Hexp Hports Hsize)
    as (err & Hrej).
  rewrite Hrej. eauto 8.
Qed.

(** C7: for a service that exists and whose annotation enables ingress mode
    and exposes ports, of which at least one is given a custom name (the
    custom names [negServicePorts] finds for the ports of the service are not
    empty), [processService] returns an error; up to there it has only read
    from the stores and the network resolver: no syncer is touched and nothing
    is written. *)
Theorem processService_rejects_custom_names_with_ingress
  key namespace name service ann exposed customNames perr tr :
  SplitMetaNamespaceKey deps key = (namespace, name, None) ->
  serviceLister_GetByKey c tr key = (ServicePtr (Some service), true, None) ->
  NEGAnnotation deps service = (Some ann, true, None) ->
  NEGEnabledForIngress deps ann = true ->
  NEGExposed deps ann = true ->
  negServicePorts deps ann (gatherPortMappingFromService service)
    = (exposed, customNames, perr) ->
  size customNames <> 0 ->
  exists err new,
    processService key tr = (Returns (Some err), tr ++ new) /\
    Forall isRead new.
Proof.
  intros Hkey Hget Hann Hing Hexp Hports Hsize.
  unfold Neg.processService. rewrite Hkey.
  unfold bind at 1, call at 1. rewrite Hget. cbn [negb].
  destruct (_ && isSingleStackIPv6Service service).
  { eexists _, [ServiceGetByKeyCall key]. split; [reflexivity|repeat constructor]. }
  destruct (resolvePortInfoMap_rejects key namespace name service ann exposed
              customNames perr (tr ++ [ServiceGetByKeyCall key])
              Hann Hing Hexp Hports Hsize)
    as (m & u & err & new & Hres & Hnew).
  unfold bind. rewrite Hres.
  exists err, (ServiceGetByKeyCall key :: new).
  rewrite <- app_assoc. split; [reflexivity|]. constructor; [exact I|exact Hnew].
Qed.

(** *** An empty desired state *)

Lemma applyPortInfoMap_empty key namespace name svcPortInfoMap negUsage tr :
  size svcPortInfoMap = 0 ->
  applyPortInfoMap key namespace name svcPortInfoMap negUsage tr =
    syncNegStatusAnnotation namespace name ∅
      (tr ++ [DeleteNegServiceCall key; StopSyncerCall namespace name]).
Proof.
  intros Hsize. unfold Neg.applyPortInfoMap, len. rewrite Hsize.
  change (negb (Z.of_nat 0 =? 0)%Z) with false. run.
  rewrite <- app_assoc. reflexivity.
Qed.

(** With an empty map, [syncNegStatusAnnotation] writes at most the removal
    of an annotation that is there. *)
Lemma syncNegStatusAnnotation_empty_writes namespace name tr :
  exists out new,
    syncNegStatusAnnotation namespace name ∅ tr = (out, tr ++ new) /\
    forall service newObjectMeta,
      In (PatchServiceObjectMetadataCall service newObjectMeta) new ->
      is_Some (Annotations (ServiceMeta service) !! NEGStatusKey deps) /\
      newObjectMeta =
        set_Annotations (delete (NEGStatusKey deps) (Annotations (ServiceMeta service)))
                        (ServiceMeta service).
Proof.
  unfold Neg.syncNegStatusAnnotation. unfold bind at 1, call at 1.
  assert (Hno2 : forall a b service newObjectMeta,
            In (PatchServiceObjectMetadataCall service newObjectMeta)
               [ListZonesCall a; ServiceGetByKeyCall b] ->
            is_Some (Annotations (ServiceMeta service) !! NEGStatusKey deps) /\
            newObjectMeta =
              set_Annotations
                (delete (NEGStatusKey deps) (Annotations (ServiceMeta service)))
                (ServiceMeta service)).
  { intros a b service newObjectMeta [H|[H|[]]]; discriminate. }
  destruct (zoneGetter_ListZones c tr _) as [zones|err].
  2:{ eexists _, [_]. split; [reflexivity|]. intros ? ? [H|[]]. discriminate. }
  unfold bind at 1, call at 1.
  destruct (serviceLister_GetByKey c _ _) as [[obj exists_] err].
  destruct err as [err|].
  { eexists _, [_; _]. rewrite <- app_assoc. split; [reflexivity|apply Hno2]. }
  destruct exists_; cbn [negb].
  2:{ eexists _, [_; _]. rewrite <- app_assoc. split; [reflexivity|apply Hno2]. }
  destruct obj as [[service|]|].
  - change (len (∅ : PortInfoMap) =? 0)%Z with true. cbn iota.
    destruct (Annotations (ServiceMeta service) !! NEGStatusKey deps) eqn:Hann.
    + unfold call. eexists _, [_; _; _]. rewrite <- !app_assoc.
      split; [reflexivity|].
      intros service' meta' [H|[H|[H|[]]]]; try discriminate.
      injection H as <- <-. rewrite Hann. split; [eexists; reflexivity|reflexivity].
    + eexists _, [_; _]. rewrite <- app_assoc. split; [reflexivity|apply Hno2].
  - eexists _, [_; _]. rewrite <- app_assoc. split; [reflexivity|apply Hno2].
  - eexists _, [_; _]. rewrite <- app_assoc. split; [reflexivity|apply Hno2].
Qed.

(** With an empty map, zones listed and the service found,
    [syncNegStatusAnnotation] removes the annotation if it is there. *)
Lemma syncNegStatusAnnotation_empty_removes namespace name tr zones current :
  let mode := EndpointsCalculatorMode deps ∅ in
  let k := getServiceKey deps namespace name in
  zoneGetter_ListZones c tr mode = Ok zones ->
  serviceLister_GetByKey c (tr ++ [ListZonesCall mode]) k
    = (ServicePtr (Some current), true, None) ->
  let looked := tr ++ [ListZonesCall mode; ServiceGetByKeyCall k] in
  let newObjectMeta :=
    set_Annotations (delete (NEGStatusKey deps) (Annotations (ServiceMeta current)))
                    (ServiceMeta current) in
  syncNegStatusAnnotation namespace name ∅ tr =
    match Annotations (ServiceMeta current) !! NEGStatusKey deps with
    | Some _ =>
      (Returns (patch_PatchServiceObjectMetadata c looked current newObjectMeta),
       looked ++ [PatchServiceObjectMetadataCall current newObjectMeta])
    | None => (Returns None, looked)
    end.
Proof.
  intros mode k Hzones Hget looked newObjectMeta.
  unfold Neg.syncNegStatusAnnotation. unfold bind at 1, call at 1.
  fold mode. rewrite Hzones.
  unfold bind at 1, call at 1. fold k. rewrite Hget. cbn [negb].
  change (len (∅ : PortInfoMap) =? 0)%Z with true. cbn iota.
  subst looked. rewrite <- app_assoc. cbn [app].
  destruct (Annotations (ServiceMeta current) !! NEGStatusKey deps); reflexivity.
Qed.

(** What [processService] does once the desired state of an existing service
    is resolved without error. *)
Lemma processService_resolved key namespace name service svcPortInfoMap negUsage tr tr1 :
  SplitMetaNamespaceKey deps key = (namespace, name, None) ->
  serviceLister_GetByKey c tr key = (ServicePtr (Some service), true, None) ->
  negb (String.eqb (Type_ (Spec service)) ServiceTypeLoadBalancer)
    && isSingleStackIPv6Service service = false ->
  resolvePortInfoMap key namespace name service (tr ++ [ServiceGetByKeyCall key])
    = (Returns (svcPortInfoMap, negUsage, None), tr1) ->
  processService key tr = applyPortInfoMap key namespace name svcPortInfoMap negUsage tr1.
Proof.
  intros Hkey Hget Hv6 Hres. unfold Neg.processService. rewrite Hkey.
  unfold bind at 1, call at 1. rewrite Hget. cbn [negb]. rewrite Hv6.
  unfold bind. rewrite Hres. reflexivity.
Qed.

(** C8, as the code has it: when [processService] resolves an empty map for a
    service that exists, it tells the usage collector and calls [StopSyncer]
    for the service; whatever happens next, the only write to the service
    resource it can make is the removal of a status annotation that is there;
    and when the zones are listed and the service is found again, it does
    remove the status annotation if the service carries it, and writes
    nothing if the service does not. *)
Theorem processService_empty_map_stops_syncer_and_removes_annotation
  key namespace name service svcPortInfoMap negUsage tr tr1 :
  SplitMetaNamespaceKey deps key = (namespace, name, None) ->
  serviceLister_GetByKey c tr key = (ServicePtr (Some service), true, None) ->
  negb (String.eqb (Type_ (Spec service)) ServiceTypeLoadBalancer)
    && isSingleStackIPv6Service service = false ->
  resolvePortInfoMap key namespace name service (tr ++ [ServiceGetByKeyCall key])
    = (Returns (svcPortInfoMap, negUsage, None), tr1) ->
  size svcPortInfoMap = 0 ->
  let stopped := tr1 ++ [DeleteNegServiceCall key; StopSyncerCall namespace name] in
  let mode := EndpointsCalculatorMode deps ∅ in
  let k := getServiceKey deps namespace name in
  (exists out rest,
     processService key tr = (out, stopped ++ rest) /\
     forall written newObjectMeta,
       In (PatchServiceObjectMetadataCall written newObjectMeta) rest ->
       is_Some (Annotations (ServiceMeta written) !! NEGStatusKey deps) /\
       newObjectMeta =
         set_Annotations
           (delete (NEGStatusKey deps) (Annotations (ServiceMeta written)))
           (ServiceMeta written)) /\
  (forall zones current,
     zoneGetter_ListZones c stopped mode = Ok zones ->
     serviceLister_GetByKey c (stopped ++ [ListZonesCall mode]) k
       = (ServicePtr (Some current), true, None) ->
     let looked := stopped ++ [ListZonesCall mode; ServiceGetByKeyCall k] in
     let newObjectMeta :=
       set_Annotations (delete (NEGStatusKey deps) (Annotations (ServiceMeta current)))
                       (ServiceMeta current) in
     Annotations newObjectMeta !! NEGStatusKey deps = None /\
     processService key tr =
       match Annotations (ServiceMeta current) !! NEGStatusKey deps with
       | Some _ =>
         (Returns (patch_PatchServiceObjectMetadata c looked current newObjectMeta),
          looked ++ [PatchServiceObjectMetadataCall current newObjectMeta])
       | None => (Returns None, looked)
       end).
Proof.
  intros Hkey Hget Hv6 Hres Hsize stopped mode k.
  rewrite (processService_resolved _ _ _ _ _ _ _ _ Hkey Hget Hv6 Hres).
  rewrite (applyPortInfoMap_empty _ _ _ _ _ _ Hsize). fold stopped.
  split.
  - apply syncNegStatusAnnotation_empty_writes.
  - intros zones current Hzones Hcurrent looked newObjectMeta. split.
    + apply lookup_delete_eq.
    + exact (syncNegStatusAnnotation_empty_removes _ _ _ _ _ Hzones Hcurrent).
Qed.

End WithDeps.

(** *** The statements on the scenarios *)

Import NegScenarios.

(** An annotation that enables ingress mode and gives port 80 a custom name
    is rejected. *)
Lemma processService_rejects_custom_names_with_ingress_witness :
  exists err new,
    processService deps (controller (web {[ negKey := "ingress+custom" ]}) (Ok ["zone1"]))
                   "default/web" []
    = (Returns (Some err), [] ++ new) /\
    Forall isRead new.
Proof.
  refine (processService_rejects_custom_names_with_ingress
            deps (controller (web {[ negKey := "ingress+custom" ]}) (Ok ["zone1"]))
            "default/web" "default" "web" (web {[ negKey := "ingress+custom" ]})
            {| Ingress_ := true; ExposedPorts := {[ 80%Z := {| AttrName := "my-neg" |} ]} |}
            (fst (fst (exposedServicePorts
                         {| Ingress_ := true;
                            ExposedPorts := {[ 80%Z := {| AttrName := "my-neg" |} ]} |}
                         (gatherPortMappingFromService (web {[ negKey := "ingress+custom" ]})))))
            (snd (fst (exposedServicePorts
                         {| Ingress_ := true;
                            ExposedPorts := {[ 80%Z := {| AttrName := "my-neg" |} ]} |}
                         (gatherPortMappingFromService (web {[ negKey := "ingress+custom" ]})))))
            None [] eq_refl eq_refl _ eq_refl _ _ _).
  - vm_compute. reflexivity.
  - vm_compute. reflexivity.
  - vm_compute. reflexivity.
  - vm_compute. discriminate.
Defined.

(** A service without exposure annotation that still carries the status
    annotation: the syncers are stopped and the annotation is removed. *)
Lemma processService_empty_map_stops_syncer_and_removes_annotation_witness :
  processService deps (controller (web {[ statusKey := "{}" ]}) (Ok ["zone1"]))
                 "default/web" []
  = (Returns None,
     [ServiceGetByKeyCall "default/web";
      ServiceNetworkCall (web {[ statusKey := "{}" ]});
      DeleteNegServiceCall "default/web";
      StopSyncerCall "default" "web";
      ListZonesCall "L7";
      ServiceGetByKeyCall "default/web";
      PatchServiceObjectMetadataCall (web {[ statusKey := "{}" ]}) (ServiceMeta (web ∅))]).
Proof.
  assert (Hresolved :
            resolvePortInfoMap deps (controller (web {[ statusKey := "{}" ]}) (Ok ["zone1"]))
                               "default/web" "default" "web" (web {[ statusKey := "{}" ]})
                               ([] ++ [ServiceGetByKeyCall "default/web"])
            = (Returns (∅, zeroUsage, None),
               [ServiceGetByKeyCall "default/web";
                ServiceNetworkCall (web {[ statusKey := "{}" ]})]))
    by (vm_compute; reflexivity).
  assert (Hempty : size (∅ : PortInfoMap) = 0) by (vm_compute; reflexivity).
  destruct (processService_empty_map_stops_syncer_and_removes_annotation
              deps (controller (web {[ statusKey := "{}" ]}) (Ok ["zone1"]))
              "default/web" "default" "web" (web {[ statusKey := "{}" ]})
              ∅ zeroUsage [] _ eq_refl eq_refl eq_refl Hresolved Hempty)
    as [_ Hremoves].
  destruct (Hremoves ["zone1"] (web {[ statusKey := "{}" ]}) eq_refl eq_refl)
    as [_ Hrun].
  rewrite Hrun. vm_compute. reflexivity.
Defined.

(** C8 as stated fails when the zones cannot be listed: the map resolved for
    the existing service is empty, the service carries the status annotation,
    the syncers are stopped, and [processService] returns the error of the
    zone getter without having written to the service. *)
Lemma processService_keeps_annotation_when_zones_fail :
  let service := web {[ statusKey := "{}" ]} in
  let c := controller service (Err (OpaqueError "zones not listed")) in
  resolvePortInfoMap deps c "default/web" "default" "web" service
                     [ServiceGetByKeyCall "default/web"]
    = (Returns (∅, zeroUsage, None),
       [ServiceGetByKeyCall "default/web"; ServiceNetworkCall service]) /\
  is_Some (Annotations (ServiceMeta service) !! NEGStatusKey deps) /\
  processService deps c "default/web" []
    = (Returns (Some (OpaqueError "zones not listed")),
       [ServiceGetByKeyCall "default/web";
        ServiceNetworkCall service;
        DeleteNegServiceCall "default/web";
        StopSyncerCall "default" "web";
        ListZonesCall "L7"]) /\
  ~ Exists isPatch (snd (processService deps c "default/web" [])).
Proof.
  cbv zeta. split; [|split; [|split]].
  - vm_compute. reflexivity.
  - vm_compute. eexists. reflexivity.
  - vm_compute. reflexivity.
  - apply Forall_Exists_neg. vm_compute. repeat constructor; intros [].
Qed.

End NegFacts.

(** * Further properties of package [backends] *)

Module BackendsExtra.
Import Backends BackendsMore.

Ltac run := unfold bind, call, mret, panic in *; cbn beta iota in *.

Section WithHelpers.

Variable VersionFromDescription : string -> Version.
Variable IsLowerVersion : Version -> Version -> bool.
Variable IsHTTPErrorCode : error -> Z -> bool.
Variable IsInUsedByError : error -> bool.

Local Abbreviation Get := (Get VersionFromDescription IsLowerVersion).
Local Abbreviation Delete := (Delete IsHTTPErrorCode IsInUsedByError).
Local Abbreviation Health := (Health VersionFromDescription IsLowerVersion).

(** [Get] always returns. *)
Lemma Get_returns b name version scope tr :
  exists r tr1, Get b name version scope tr = (Returns r, tr1).
Proof.
  unfold Backends.Get.
  destruct (CreateKey (cloud b) name scope) as [key|e]; [|unfold mret; eauto].
  run.
  destruct (GetBackendService (cloud b) tr key version) as [be|e]; [|eauto].
  destruct (IsLowerVersion (VersionFromDescription (Description be)) version); [|eauto].
  destruct (GetBackendService (cloud b) _ key _); eauto.
Qed.

(** X1: [Get] always returns and only reads: it adds no call when the key
    cannot be made, and otherwise one fetch at the requested version,
    followed by at most one more fetch, at a version lower than the
    requested one. *)
Theorem Get_makes_one_or_two_fetches b name version scope tr :
  exists r new,
    Get b name version scope tr = (Returns r, tr ++ new) /\
    match CreateKey (cloud b) name scope with
    | Err e => new = [] /\ r = Err e
    | Ok key =>
      new = [GetBackendServiceCall key version] \/
      exists lower,
        IsLowerVersion lower version = true /\
        new = [GetBackendServiceCall key version; GetBackendServiceCall key lower]
    end.
Proof.
  destruct (CreateKey (cloud b) name scope) as [key|e] eqn:Hkey.
  2:{ exists (Err e), []. unfold Backends.Get. rewrite Hkey, app_nil_r. auto. }
  rewrite (BackendsFacts.Get_run _ _ _ _ _ _ key _ Hkey).
  destruct (GetBackendService (cloud b) tr key version) as [be|e]; [|eauto].
  cbn zeta.
  destruct (IsLowerVersion (VersionFromDescription (Description be)) version) eqn:Hlow.
  - eexists _, [_; _]. rewrite <- app_assoc. split; [reflexivity|].
    right. eauto.
  - eauto.
Qed.

(** X2: What [Delete] returns and does, on every run: it makes the delete
    call exactly when the key is made and no other call; and it returns an
    error exactly when the key cannot be made, or the remote delete fails with
    an error that is neither a 404 nor an in-use error; the error is then
    returned as it is. *)
Theorem Delete_errors_exactly b name version scope tr :
  exists r new,
    Delete b name version scope tr = (Returns r, tr ++ new) /\
    match CreateKey (cloud b) name scope with
    | Err e => new = [] /\ r = Some e
    | Ok key =>
      new = [DeleteBackendServiceCall key version] /\
      forall e,
        r = Some e <->
        DeleteBackendService (cloud b) tr key version = Some e /\
        IsHTTPErrorCode e StatusNotFound = false /\ IsInUsedByError e = false
    end.
Proof.
  unfold Backends.Delete.
  destruct (CreateKey (cloud b) name scope) as [key|e].
  2:{ exists (Some e), []. rewrite app_nil_r. auto. }
  run.
  destruct (DeleteBackendService (cloud b) tr key version) as [err|].
  - destruct (IsHTTPErrorCode err StatusNotFound) eqn:H404;
      [|destruct (IsInUsedByError err) eqn:Huse]; cbn [orb];
      eexists _, _; (split; [reflexivity|]); (split; [reflexivity|]);
      intros e; split; try discriminate.
    + intros ([= <-] & ? & ?). congruence.
    + intros ([= <-] & ? & ?). congruence.
    + intros [= <-]. auto.
    + intros ([= <-] & _). reflexivity.
  - eexists _, _. split; [reflexivity|]. split; [reflexivity|].
    intros e. split; [discriminate|intros ([=] & _)].
Qed.

(** *** Every run of [Health] *)

Lemma scanHealthStatus_found statuses ret ret' :
  scanHealthStatus statuses ret = FoundHealthy ret' -> ret' = "HEALTHY".
Proof.
  revert ret. induction statuses as [|[s|] l IH]; intros ret; cbn; try discriminate.
  destruct (String.eqb (HealthState s) "HEALTHY") eqn:Hs; [|apply IH].
  intros [= <-]. apply String.eqb_eq, Hs.
Qed.

(** The loop asks the groups in order and stops somewhere; an error comes
    with "Unknown"; a verdict other than "HEALTHY" is reached at the end of
    the list only. *)
Lemma healthLoop_paths b name scope backends ret tr :
  exists out k,
    healthLoop b name scope backends ret tr
    = (out, tr ++ map (healthQuery b name scope) (take k backends)) /\
    (forall state err, out = Returns (state, Some err) -> state = "Unknown") /\
    (forall state, out = Returns (state, None) -> state <> "HEALTHY" ->
                   take k backends = backends).
Proof.
  revert ret tr. induction backends as [|g rest IH]; intros ret tr.
  { exists (Returns (ret, None)), 0. cbn. rewrite app_nil_r.
    split; [reflexivity|]. split; [discriminate|reflexivity]. }
  destruct (decide (scope = Zonal)) as [->|Hscope].
  { exists (Returns ("Unknown", Some (Errorf "invalid scope for Health(): %s"))), 0.
    cbn. rewrite app_nil_r. split; [reflexivity|].
    split; [intros ? ? [= <- _]; reflexivity|discriminate]. }
  cbn [healthLoop]. rewrite (BackendsFacts.groupHealth_scope _ _ _ _ Hscope). run.
  assert (Hstep : forall ret',
            exists out k,
              healthLoop b name scope rest ret' (tr ++ [healthQuery b name scope g])
              = (out, tr ++ map (healthQuery b name scope) (take k (g :: rest))) /\
              (forall state err, out = Returns (state, Some err) -> state = "Unknown") /\
              (forall state, out = Returns (state, None) -> state <> "HEALTHY" ->
                             take k (g :: rest) = g :: rest)).
  { intros ret'.
    destruct (IH ret' (tr ++ [healthQuery b name scope g])) as (out & k & H & He & Hn).
    exists out, (S k). cbn [take map]. rewrite H, <- app_assoc.
    split; [reflexivity|]. split; [exact He|].
    intros state Hout Hs. f_equal. exact (Hn state Hout Hs). }
  assert (Hstop : forall (state : string) (e : option error),
            exists out k,
              (Returns (state, e), tr ++ [healthQuery b name scope g])
              = (out, tr ++ map (healthQuery b name scope) (take k (g :: rest))) /\
              out = Returns (state, e)).
  { intros state e. exists (Returns (state, e)), 1. cbn [take map].
    rewrite take_0. split; reflexivity. }
  destruct (healthAnswer b name scope g tr) as [hs|e].
  2:{ destruct (Hstop "Unknown" (Some (ErrorfW "error getting health for backend %q: %w" e)))
        as (out & k & H & ->).
      eexists _, k. split; [exact H|].
      split; [intros ? ? [= <- _]; reflexivity|discriminate]. }
  destruct (noHealthStatus hs); [apply Hstep|].
  destruct (scanHealthStatus (HealthStatus_ hs) ret) as [ret'|ret'|] eqn:Hscan.
  - apply scanHealthStatus_found in Hscan as ->.
    destruct (Hstop "HEALTHY" None) as (out & k & H & ->).
    eexists _, k. split; [exact H|].
    split; [discriminate|intros ? [= <-] Hne; congruence].
  - apply Hstep.
  - exists Panics, 1. cbn [take map]. rewrite take_0.
    split; [reflexivity|]. split; discriminate.
Qed.

(** X3: whenever [Health] returns an error, the state it returns with it is
    "Unknown": a state read before a failing lookup is never reported. *)
Theorem Health_error_comes_with_unknown b name version scope tr state err tr' :
  Health b name version scope tr = (Returns (state, Some err), tr') ->
  state = "Unknown".
Proof.
  unfold Backends.Health, bind.
  destruct (Get_returns b name version scope tr) as (r & tr1 & ->).
  destruct r as [be|e]; [|intros [= <- _]; reflexivity].
  destruct (length (Backends_ be) =? 0); [intros [= <- _]; reflexivity|].
  destruct (healthLoop_paths b name scope (Backends_ be) "Unknown" tr1)
    as (out & k & -> & He & _).
  intros [= -> _]. eapply He. reflexivity.
Qed.

(** X4: when [Health] returns without error a state other than "HEALTHY",
    the fetch has succeeded and every attached group has been asked, each
    once and in the order of attachment. *)
Theorem Health_verdict_needs_every_group b name version scope tr state tr' :
  Health b name version scope tr = (Returns (state, None), tr') ->
  state <> "HEALTHY" ->
  exists be tr1,
    Get b name version scope tr = (Returns (Ok be), tr1) /\
    tr' = tr1 ++ map (healthQuery b name scope) (Backends_ be).
Proof.
  unfold Backends.Health, bind.
  destruct (Get_returns b name version scope tr) as (r & tr1 & ->).
  destruct r as [be|e]; [|discriminate].
  destruct (length (Backends_ be) =? 0); [discriminate|].
  destruct (healthLoop_paths b name scope (Backends_ be) "Unknown" tr1)
    as (out & k & -> & _ & Hn).
  intros [= -> <-] Hs. exists be, tr1. split; [reflexivity|].
  rewrite (Hn state eq_refl Hs). reflexivity.
Qed.

(** X5: after a successful fetch, the calls of [Health] are health lookups
    of the attached groups, in the order of attachment and without gap or
    repetition, up to some group. *)
Theorem Health_asks_groups_in_order b name version scope tr be tr1 :
  Get b name version scope tr = (Returns (Ok be), tr1) ->
  exists out k,
    Health b name version scope tr
    = (out, tr1 ++ map (healthQuery b name scope) (take k (Backends_ be))).
Proof.
  intros Hget. unfold Backends.Health, bind. rewrite Hget.
  destruct (length (Backends_ be) =? 0).
  - eexists _, 0. rewrite take_0, app_nil_r. reflexivity.
  - destruct (healthLoop_paths b name scope (Backends_ be) "Unknown" tr1)
      as (out & k & H & _). eauto.
Qed.

(** X6: a lookup that fails ends the scan: when the groups before [g] have
    answered without a healthy status and the lookup of [g] fails with [e],
    [Health] returns "Unknown" with [e] wrapped, whatever states were read
    before, and the groups behind [g] are not asked. *)
Theorem Health_stops_at_failing_lookup
  b name version scope tr be tr1 pre g post hpre e :
  Get b name version scope tr = (Returns (Ok be), tr1) ->
  scope <> Zonal ->
  Backends_ be = pre ++ g :: post ->
  healthAnswers b name scope (pre ++ [g]) tr1 = map Ok hpre ++ [Err e] ->
  Forall notHealthy (examined hpre) ->
  Health b name version scope tr =
    (Returns ("Unknown", Some (ErrorfW "error getting health for backend %q: %w" e)),
     tr1 ++ map (healthQuery b name scope) (pre ++ [g])).
Proof.
  intros Hget Hscope Hbe Hans Hpre.
  rewrite (BackendsFacts.Health_run _ _ _ _ _ _ _ _ _ Hget)
    by (rewrite Hbe; destruct pre; discriminate).
  rewrite Hbe.
  rewrite BackendsFacts.healthAnswers_app in Hans. cbn in Hans.
  apply app_inj_tail in Hans as [Hans Hg].
  rewrite (BackendsFacts.healthLoop_app_notHealthy _ _ _ _ _ _ _ _ Hscope Hans Hpre).
  cbn [healthLoop]. rewrite (BackendsFacts.groupHealth_scope _ _ _ _ Hscope). run.
  rewrite Hg, map_app, app_assoc. reflexivity.
Qed.

(** X7: [Health] does not panic as long as the cloud hands out no nil entry
    in the status lists it answers with. *)
Theorem Health_returns_without_nil_entries b name version scope tr :
  (forall g h hs, healthAnswer b name scope g h = Ok hs ->
                  Forall is_Some (HealthStatus_ hs)) ->
  exists r tr', Health b name version scope tr = (Returns r, tr').
Proof.
  intros Hsome. unfold Backends.Health, bind.
  destruct (Get_returns b name version scope tr) as (r & tr1 & ->).
  destruct r as [be|e]; [|unfold mret; eauto].
  destruct (length (Backends_ be) =? 0); [unfold mret; eauto|].
  generalize "Unknown". generalize tr1.
  induction (Backends_ be) as [|g rest IH]; intros h ret; [unfold mret; cbn; eauto|].
  destruct (decide (scope = Zonal)) as [->|Hscope]; [unfold mret; cbn; eauto|].
  cbn [healthLoop]. rewrite (BackendsFacts.groupHealth_scope _ _ _ _ Hscope). run.
  destruct (healthAnswer b name scope g h) as [hs|e] eqn:Hg; [|eauto].
  destruct (noHealthStatus hs); [apply IH|].
  destruct (scanHealthStatus (HealthStatus_ hs) ret) as [ret'|ret'|] eqn:Hscan;
    [eauto|apply IH|].
  exfalso. specialize (Hsome g h hs Hg). clear -Hsome Hscan.
  revert ret Hscan. induction Hsome as [|st l [s ->] _ IHl]; intros ret; cbn.
  - discriminate.
  - destruct (String.eqb (HealthState s) "HEALTHY"); [discriminate|apply IHl].
Qed.

End WithHelpers.

(** *** Every run of [EnsureL4BackendService] *)

Section Ensure.

Variable IsNotFoundError : error -> bool.
Variable MakeL4LBServiceDescription :
  string -> string -> Version -> bool -> L4LBType -> string * option error.
Variable TranslateAffinityType : string -> string.

Local Abbreviation EnsureL4BackendService :=
  (EnsureL4BackendService IsNotFoundError MakeL4LBServiceDescription
                          TranslateAffinityType).
Local Abbreviation expectedBackendService :=
  (expectedBackendService MakeL4LBServiceDescription TranslateAffinityType).

(** Splits a run of [EnsureL4BackendService] into its seven paths. *)
Ltac ensure_paths b name tr :=
  let Hkey := fresh "Hkey" in
  let Hget := fresh "Hget" in
  let Heq := fresh "Heq" in
  let key := fresh "key" in
  let bs := fresh "bs" in
  destruct (CreateKey (cloud b) name Regional) as [key|?] eqn:Hkey;
  [ destruct (GetBackendService (cloud b) tr key VersionGA) as [bs|?] eqn:Hget;
    [ rewrite (BackendsFacts.EnsureL4BackendService_found
                 _ _ _ _ _ _ _ _ _ _ _ _ _ _ _ Hkey Hget);
      cbn zeta;
      destruct (backendSvcEqual _ bs _) eqn:Heq;
      [|destruct (UpdateBackendService _ _ _ _) eqn:?]
    | rewrite (BackendsFacts.EnsureL4BackendService_not_found
                 _ _ _ _ _ _ _ _ _ _ _ _ _ _ _ Hkey Hget);
      cbn zeta;
      destruct (IsNotFoundError _) eqn:Heq; cbn [negb];
      [destruct (CreateBackendService _ _ _ _) eqn:?|] ]
  | unfold Backends.EnsureL4BackendService; rewrite Hkey ].

(** Reads the calls added off an equation between histories. *)
Ltac new_calls H :=
  lazymatch type of H with
  | ?t = ?t ++ _ => rewrite <- (app_nil_r t) in H at 1
  | _ => idtac
  end;
  apply app_inv_head in H as <-.

(** X8: [EnsureL4BackendService] always returns; it adds at most three
    calls, none of which is a delete or a health lookup, and submits at most
    one object. *)
Theorem EnsureL4BackendService_submits_at_most_once
  b name hcLink protocol sessionAffinity scheme namespacedName network policy tr :
  exists r new,
    EnsureL4BackendService b name hcLink protocol sessionAffinity scheme namespacedName
                           network policy tr = (Returns r, tr ++ new) /\
    Forall (fun c => ~ isDelete c /\ ~ isHealthLookup c) new /\
    length (submissions new) <= 1 /\
    length new <= 3.
Proof.
  ensure_paths b name tr;
    try (eexists _, _; split; [reflexivity|]);
    try (exists (Err e), []; rewrite app_nil_r; split; [reflexivity|]);
    (split; [repeat constructor; intros []|cbn; lia]).
Qed.

(** X9: an object returned by [EnsureL4BackendService] is never the one it
    built: it is the answer of the cloud to the last call of the run, which
    is a fetch. *)
Theorem EnsureL4BackendService_returns_a_fetched_object
  b name hcLink protocol sessionAffinity scheme namespacedName network policy tr bs tr' :
  EnsureL4BackendService b name hcLink protocol sessionAffinity scheme namespacedName
                         network policy tr = (Returns (Ok bs), tr') ->
  exists h key,
    tr' = h ++ [GetBackendServiceCall key VersionGA] /\
    GetBackendService (cloud b) h key VersionGA = Ok bs.
Proof.
  ensure_paths b name tr; intros [= H <-]; try discriminate H.
  - eexists tr, _. split; [reflexivity|]. congruence.
  - eexists (tr ++ [_; _]), _. rewrite <- app_assoc. split; [reflexivity|]. congruence.
  - eexists (tr ++ [_; _]), _. rewrite <- app_assoc. split; [reflexivity|]. congruence.
Qed.

(** X10: a create is submitted exactly when the first fetch fails with a
    not-found error, and what is created is the expected object as built, with
    empty fingerprint and no backend; any other failure of the fetch is
    returned as it is, with nothing submitted. *)
Theorem EnsureL4BackendService_creates_only_when_not_found
  b name hcLink protocol sessionAffinity scheme namespacedName network policy key tr :
  CreateKey (cloud b) name Regional = Ok key ->
  let expectedBS := expectedBackendService b name hcLink protocol sessionAffinity
                      scheme namespacedName network policy in
  let run := EnsureL4BackendService b name hcLink protocol sessionAffinity scheme
               namespacedName network policy tr in
  exists new,
    snd run = tr ++ new /\
    ((exists k be, In (CreateBackendServiceCall k be) new) <->
     (exists e, GetBackendService (cloud b) tr key VersionGA = Err e /\
                IsNotFoundError e = true)) /\
    (forall k be, In (CreateBackendServiceCall k be) new -> k = key /\ be = expectedBS) /\
    (forall e, GetBackendService (cloud b) tr key VersionGA = Err e ->
               IsNotFoundError e = false ->
               fst run = Returns (Err e) /\ submissions new = []).
Proof.
  intros Hkey0. cbn zeta.
  ensure_paths b name tr; try congruence;
    assert (key0 = key) as -> by congruence;
    (eexists; split; [reflexivity|]); cbn [fst snd];
    (split; [split|split]).
  (* the object is found and equal *)
  - intros (k & be & [H|[]]). discriminate.
  - intros (e' & He' & _). congruence.
  - intros k be [H|[]]. discriminate.
  - intros e' He' _. congruence.
  (* found, the update fails *)
  - intros (k & be & [H|[H|[]]]); discriminate.
  - intros (e' & He' & _). congruence.
  - intros k be [H|[H|[]]]; discriminate.
  - intros e' He' _. congruence.
  (* found, updated and fetched again *)
  - intros (k & be & [H|[H|[H|[]]]]); discriminate.
  - intros (e' & He' & _). congruence.
  - intros k be [H|[H|[H|[]]]]; discriminate.
  - intros e' He' _. congruence.
  (* not found, the create fails *)
  - intros _. eauto.
  - intros _. eexists _, _. right. left. reflexivity.
  - intros k be [H|[H|[]]]; [discriminate|]. injection H as <- <-. auto.
  - intros e' He' Hnf. congruence.
  (* not found, created and fetched again *)
  - intros _. eauto.
  - intros _. eexists _, _. right. left. reflexivity.
  - intros k be [H|[H|[H|[]]]]; try discriminate. injection H as <- <-. auto.
  - intros e' He' Hnf. congruence.
  (* another failure of the fetch *)
  - intros (k & be & [H|[]]). discriminate.
  - intros (e' & He' & Hnf). congruence.
  - intros k be [H|[]]. discriminate.
  - intros e' He' _. split; [congruence|reflexivity].
Qed.

(** What [updatedBackendService] changes and what it keeps. *)
Lemma updatedBackendService_fields protocol expectedBS bs :
  let update := updatedBackendService protocol expectedBS bs in
  Fingerprint update = Fingerprint bs /\
  Backends_ update = Backends_ bs /\
  sameExceptDraining expectedBS update.
Proof.
  cbn zeta. unfold updatedBackendService, sameExceptDraining.
  destruct (ConnectionDraining_ bs) as [cd|];
    [destruct ((0 <? DrainingTimeoutSec cd)%Z && String.eqb protocol ProtocolTCP)|];
    cbn; repeat split.
Qed.

Lemma sameExceptDraining_refl be : sameExceptDraining be be.
Proof. unfold sameExceptDraining. repeat split. Qed.

Lemma sameExceptDraining_trans a b c :
  sameExceptDraining a b -> sameExceptDraining b c -> sameExceptDraining a c.
Proof. unfold sameExceptDraining. intuition congruence. Qed.

(** X11: an update never detaches backends nor loses the lock: when the
    existing object is found and differs, the one object submitted is an
    update for the same key that carries the fingerprint and the backends of
    the existing object, and the desired value of every other attribute that
    is asked for. *)
Theorem EnsureL4BackendService_update_keeps_fingerprint_and_backends
  b name hcLink protocol sessionAffinity scheme namespacedName network policy
  key bs tr :
  CreateKey (cloud b) name Regional = Ok key ->
  GetBackendService (cloud b) tr key VersionGA = Ok bs ->
  let expectedBS := expectedBackendService b name hcLink protocol sessionAffinity
                      scheme namespacedName network policy in
  backendSvcEqual expectedBS bs (useConnectionTrackingPolicy b) = false ->
  exists update rest,
    snd (EnsureL4BackendService b name hcLink protocol sessionAffinity scheme
                                namespacedName network policy tr)
    = tr ++ GetBackendServiceCall key VersionGA
            :: UpdateBackendServiceCall key update :: rest /\
    submissions rest = [] /\
    Fingerprint update = Fingerprint bs /\
    Backends_ update = Backends_ bs /\
    sameExceptDraining expectedBS update.
Proof.
  intros Hkey Hget expectedBS Hne.
  rewrite (BackendsFacts.EnsureL4BackendService_found
             _ _ _ _ _ _ _ _ _ _ _ _ _ _ _ Hkey Hget).
  fold expectedBS. rewrite Hne. cbn zeta.
  exists (updatedBackendService protocol expectedBS bs).
  destruct (UpdateBackendService _ _ _ _);
    [exists []|exists [GetBackendServiceCall key VersionGA]];
    (split; [reflexivity|]); (split; [reflexivity|]);
    apply updatedBackendService_fields.
Qed.

(** Whatever a run submits carries the desired attributes. *)
Lemma submitted_carries_desired
  b name hcLink protocol sessionAffinity scheme namespacedName network policy tr new sub :
  snd (EnsureL4BackendService b name hcLink protocol sessionAffinity scheme
                              namespacedName network policy tr) = tr ++ new ->
  In sub (submissions new) ->
  sameExceptDraining
    (expectedBackendService b name hcLink protocol sessionAffinity scheme
                            namespacedName network policy) sub.
Proof.
  ensure_paths b name tr; unfold mret; cbn [snd]; intros Hnew;
    new_calls Hnew; cbn;
    intros Hin; repeat (destruct Hin as [<-|Hin]); try destruct Hin;
    try apply updatedBackendService_fields; apply sameExceptDraining_refl.
Qed.

(** X12: the reconciler settles.  When a later call, with the same
    arguments, fetches an object that carries the attributes of an object
    submitted by an earlier call (the cloud may have changed its fingerprint,
    self link, backends and draining timeout), it makes the fetch only and
    returns the fetched object. *)
Theorem EnsureL4BackendService_settles
  b name hcLink protocol sessionAffinity scheme namespacedName network policy
  tr new sub tr2 key bs :
  snd (EnsureL4BackendService b name hcLink protocol sessionAffinity scheme
                              namespacedName network policy tr) = tr ++ new ->
  In sub (submissions new) ->
  CreateKey (cloud b) name Regional = Ok key ->
  GetBackendService (cloud b) tr2 key VersionGA = Ok bs ->
  sameExceptDraining sub bs ->
  EnsureL4BackendService b name hcLink protocol sessionAffinity scheme namespacedName
                         network policy tr2
  = (Returns (Ok bs), tr2 ++ [GetBackendServiceCall key VersionGA]).
Proof.
  intros Hnew Hin Hkey Hget Hsame.
  pose proof (submitted_carries_desired _ _ _ _ _ _ _ _ _ _ _ _ Hnew Hin) as Hsub.
  rewrite (BackendsFacts.EnsureL4BackendService_found
             _ _ _ _ _ _ _ _ _ _ _ _ _ _ _ Hkey Hget).
  rewrite (BackendsFacts.backendSvcEqual_sameExceptDraining _ _ _
             (sameExceptDraining_trans _ _ _ Hsub Hsame)).
  reflexivity.
Qed.

(** X13: for TCP, an existing timeout that is not positive is not kept: when
    nothing is found, or what is found has no draining timeout or one that is
    zero or negative, every object submitted carries the default of thirty
    seconds. *)
Theorem EnsureL4BackendService_TCP_default_timeout
  b name hcLink sessionAffinity scheme namespacedName network policy tr new :
  snd (EnsureL4BackendService b name hcLink ProtocolTCP sessionAffinity scheme
                              namespacedName network policy tr) = tr ++ new ->
  (forall key bs cd,
     CreateKey (cloud b) name Regional = Ok key ->
     GetBackendService (cloud b) tr key VersionGA = Ok bs ->
     ConnectionDraining_ bs = Some cd -> (DrainingTimeoutSec cd <= 0)%Z) ->
  forall be, In be (submissions new) ->
             drainingTimeout be = Some DefaultConnectionDrainingTimeoutSeconds.
Proof.
  intros Hnew Hexisting.
  assert (Hupd : forall key bs expectedBS,
            CreateKey (cloud b) name Regional = Ok key ->
            GetBackendService (cloud b) tr key VersionGA = Ok bs ->
            drainingTimeout (updatedBackendService ProtocolTCP expectedBS bs)
            = drainingTimeout expectedBS).
  { intros key bs expectedBS Hkey Hget. unfold updatedBackendService.
    destruct (ConnectionDraining_ bs) as [cd|] eqn:Hcd; [|reflexivity].
    specialize (Hexisting key bs cd Hkey Hget Hcd).
    replace (0 <? DrainingTimeoutSec cd)%Z with false; [reflexivity|].
    symmetry. apply Z.ltb_ge. exact Hexisting. }
  revert Hnew.
  ensure_paths b name tr; unfold mret; cbn [snd]; intros Hnew;
    new_calls Hnew; cbn;
    intros be Hin; repeat (destruct Hin as [<-|Hin]); try destruct Hin;
    try (erewrite Hupd by (reflexivity || eassumption)); reflexivity.
Qed.

End Ensure.

(** *** The equality of backend services *)

Lemma connectionTrackingPolicyEqual_eq p q :
  connectionTrackingPolicyEqual p q = true <-> p = q.
Proof.
  destruct p as [[m1 s1 i1]|], q as [[m2 s2 i2]|]; cbn;
    try (split; [discriminate|intros [=]]); [|tauto].
  rewrite !andb_true_iff, String.eqb_eq, Bool.eqb_true_iff, Z.eqb_eq.
  split; [intros [[-> ->] ->]; reflexivity|intros [= -> -> ->]; auto].
Qed.

(** X15: [backendSvcEqual] decides exactly this: the two objects agree on
    protocol, description, session affinity, scheme and network, their health
    checks are the same set, and, when the connection tracking is to be
    compared, their tracking policies are both absent or agree on the
    tracking mode, the strong-affinity flag and the idle timeout.  Without the
    flag the policies are not looked at.  The comparison of the health checks
    is that of [EqualStringSets] above. *)
Theorem backendSvcEqual_decides a b flag :
  backendSvcEqual a b flag = true <->
  Protocol a = Protocol b /\ Description a = Description b /\
  SessionAffinity a = SessionAffinity b /\
  LoadBalancingScheme a = LoadBalancingScheme b /\
  list_to_set (HealthChecks a) =@{gset string} list_to_set (HealthChecks b) /\
  Network a = Network b /\
  (flag = true -> ConnectionTrackingPolicy a = ConnectionTrackingPolicy b).
Proof.
  unfold backendSvcEqual, EqualStringSets.
  destruct flag;
    rewrite !andb_true_iff, !String.eqb_eq, bool_decide_eq_true,
      ?connectionTrackingPolicyEqual_eq; intuition congruence.
Qed.

(** X14: for either value of the flag, [backendSvcEqual] is symmetric and
    transitive, the health checks being compared by [EqualStringSets] above. *)
Theorem backendSvcEqual_symmetric_transitive flag :
  (forall a b, backendSvcEqual a b flag = backendSvcEqual b a flag) /\
  (forall a b c,
     backendSvcEqual a b flag = true -> backendSvcEqual b c flag = true ->
     backendSvcEqual a c flag = true).
Proof.
  assert (Hiff : forall a b,
            backendSvcEqual a b flag = true <->
            Protocol a = Protocol b /\ Description a = Description b /\
            SessionAffinity a = SessionAffinity b /\
            LoadBalancingScheme a = LoadBalancingScheme b /\
            list_to_set (HealthChecks a) =@{gset string} list_to_set (HealthChecks b) /\
            Network a = Network b /\
            (flag = true -> ConnectionTrackingPolicy a = ConnectionTrackingPolicy b)).
  { intros a b. unfold backendSvcEqual, EqualStringSets.
    destruct flag;
      rewrite !andb_true_iff, !String.eqb_eq, bool_decide_eq_true,
        ?connectionTrackingPolicyEqual_eq; intuition congruence. }
  split.
  - intros a b. apply eq_true_iff_eq. rewrite !Hiff. intuition congruence.
  - intros a b c. rewrite !Hiff. intuition congruence.
Qed.

(** *** The statements on the scenarios *)

Import BackendsScenarios BackendsMoreScenarios.

Local Abbreviation Get' := (Get versionFromDescription isLowerVersion).
Local Abbreviation Health' := (Health versionFromDescription isLowerVersion).
Local Abbreviation Ensure' :=
  (EnsureL4BackendService isNotFoundError makeL4LBServiceDescription
                          translateAffinityType).
Local Abbreviation expected' :=
  (expectedBackendService makeL4LBServiceDescription translateAffinityType).

(** The first of three groups reports an unhealthy instance and the lookup
    of the second fails: the state "UNHEALTHY" is not reported. *)
Lemma Health_error_comes_with_unknown_witness :
  exists state err tr',
    Health' (fetching (getWith threeGroups) failingSecond) "k8s-be" VersionGA Global []
    = (Returns (state, Some err), tr') /\
    state = "Unknown".
Proof.
  assert (Hrun :
    Health' (fetching (getWith threeGroups) failingSecond) "k8s-be" VersionGA Global []
    = (Returns ("Unknown",
                Some (ErrorfW "error getting health for backend %q: %w"
                              (ApiError 503 "unavailable"))),
       [GetBackendServiceCall globalKey VersionGA;
        GetGlobalBackendServiceHealthCall "k8s-be" "g1";
        GetGlobalBackendServiceHealthCall "k8s-be" "g2"]))
    by (vm_compute; reflexivity).
  eexists _, _, _. split; [exact Hrun|].
  exact (Health_error_comes_with_unknown versionFromDescription isLowerVersion
           _ _ _ _ _ _ _ _ Hrun).
Defined.

(** Three regional groups without a healthy instance: the verdict "TIMEOUT"
    comes after all three have been asked. *)
Lemma Health_verdict_needs_every_group_witness :
  Health' (fetching (getWith threeGroups) neverHealthy) "k8s-be" VersionGA Regional []
  = (Returns ("TIMEOUT", None),
     [GetBackendServiceCall regionalKey VersionGA;
      GetRegionalBackendServiceHealthCall "k8s-be" "region1" "g1";
      GetRegionalBackendServiceHealthCall "k8s-be" "region1" "g2";
      GetRegionalBackendServiceHealthCall "k8s-be" "region1" "g3"]) /\
  exists be tr1,
    Get' (fetching (getWith threeGroups) neverHealthy) "k8s-be" VersionGA Regional []
    = (Returns (Ok be), tr1) /\
    [GetBackendServiceCall regionalKey VersionGA;
     GetRegionalBackendServiceHealthCall "k8s-be" "region1" "g1";
     GetRegionalBackendServiceHealthCall "k8s-be" "region1" "g2";
     GetRegionalBackendServiceHealthCall "k8s-be" "region1" "g3"]
    = tr1 ++ map (healthQuery (fetching (getWith threeGroups) neverHealthy)
                              "k8s-be" Regional) (Backends_ be).
Proof.
  assert (Hrun :
    Health' (fetching (getWith threeGroups) neverHealthy) "k8s-be" VersionGA Regional []
    = (Returns ("TIMEOUT", None),
       [GetBackendServiceCall regionalKey VersionGA;
        GetRegionalBackendServiceHealthCall "k8s-be" "region1" "g1";
        GetRegionalBackendServiceHealthCall "k8s-be" "region1" "g2";
        GetRegionalBackendServiceHealthCall "k8s-be" "region1" "g3"]))
    by (vm_compute; reflexivity).
  split; [exact Hrun|].
  exact (Health_verdict_needs_every_group versionFromDescription isLowerVersion
           _ _ _ _ _ _ _ Hrun ltac:(discriminate)).
Defined.

(** Three groups, the first of which reports a healthy instance. *)
Lemma Health_asks_groups_in_order_witness :
  exists out k,
    Health' (fetching (getWith threeGroups) healthyFirst) "k8s-be" VersionGA Global []
    = (out,
       [GetBackendServiceCall globalKey VersionGA]
         ++ map (healthQuery (fetching (getWith threeGroups) healthyFirst)
                             "k8s-be" Global)
                (take k (Backends_ (existing "" "fp" 30 threeGroups)))).
Proof.
  exact (Health_asks_groups_in_order versionFromDescription isLowerVersion
           (fetching (getWith threeGroups) healthyFirst) "k8s-be" VersionGA Global []
           (existing "" "fp" 30 threeGroups) [GetBackendServiceCall globalKey VersionGA]
           eq_refl).
Defined.

(** The lookup of the second of three groups fails: the third is not asked
    and the state read from the first is not reported. *)
Lemma Health_stops_at_failing_lookup_witness :
  Health' (fetching (getWith threeGroups) failingSecond) "k8s-be" VersionGA Global []
  = (Returns ("Unknown",
              Some (ErrorfW "error getting health for backend %q: %w"
                            (ApiError 503 "unavailable"))),
     [GetBackendServiceCall globalKey VersionGA]
       ++ map (healthQuery (fetching (getWith threeGroups) failingSecond)
                           "k8s-be" Global)
              ([ {| Group := "g1" |} ] ++ [ {| Group := "g2" |} ])).
Proof.
  refine (Health_stops_at_failing_lookup versionFromDescription isLowerVersion
            (fetching (getWith threeGroups) failingSecond) "k8s-be" VersionGA Global []
            (existing "" "fp" 30 threeGroups) [GetBackendServiceCall globalKey VersionGA]
            [ {| Group := "g1" |} ] {| Group := "g2" |} [ {| Group := "g3" |} ]
            [ {| HealthStatus_ := [status "UNHEALTHY"] |} ] (ApiError 503 "unavailable")
            eq_refl ltac:(discriminate) eq_refl eq_refl _).
  repeat constructor. apply BackendsFacts.notHealthy_status. reflexivity.
Defined.

(** A cloud whose status lists have no nil entry. *)
Lemma Health_returns_without_nil_entries_witness :
  (forall g h hs,
     healthAnswer (fetching (getWith threeGroups) neverHealthy) "k8s-be" Global g h
     = Ok hs ->
     Forall is_Some (HealthStatus_ hs)) /\
  exists r tr',
    Health' (fetching (getWith threeGroups) neverHealthy) "k8s-be" VersionGA Global []
    = (Returns r, tr').
Proof.
  assert (Hsome : forall g h hs,
            healthAnswer (fetching (getWith threeGroups) neverHealthy) "k8s-be" Global g h
            = Ok hs ->
            Forall is_Some (HealthStatus_ hs)).
  { intros g h hs. unfold healthAnswer. cbn. unfold neverHealthy.
    destruct (String.eqb (Group g) "g1"); [|destruct (String.eqb (Group g) "g2")];
      intros [= <-]; cbn; repeat constructor; eexists; reflexivity. }
  split; [exact Hsome|].
  exact (Health_returns_without_nil_entries versionFromDescription isLowerVersion
           (fetching (getWith threeGroups) neverHealthy) "k8s-be" VersionGA Global []
           Hsome).
Defined.

(** Over the cloud with a memory nothing is found at first: the object built
    is created, and what is returned is what the cloud then hands out, under
    the fingerprint the cloud gave it. *)
Lemma EnsureL4BackendService_returns_a_fetched_object_witness :
  Ensure' (pool rememberingCloud) "k8s-be" "hc" "TCP" "None" "INTERNAL" serviceName
          defaultNetwork None []
  = (Returns (Ok (set_Fingerprint "fp-new"
                    (expected' (pool rememberingCloud) "k8s-be" "hc" "TCP" "None"
                               "INTERNAL" serviceName defaultNetwork None))),
     [GetBackendServiceCall regionalKey VersionGA;
      CreateBackendServiceCall regionalKey
        (expected' (pool rememberingCloud) "k8s-be" "hc" "TCP" "None" "INTERNAL"
                   serviceName defaultNetwork None);
      GetBackendServiceCall regionalKey VersionGA]) /\
  exists h key,
    [GetBackendServiceCall regionalKey VersionGA;
     CreateBackendServiceCall regionalKey
       (expected' (pool rememberingCloud) "k8s-be" "hc" "TCP" "None" "INTERNAL"
                  serviceName defaultNetwork None);
     GetBackendServiceCall regionalKey VersionGA]
    = h ++ [GetBackendServiceCall key VersionGA] /\
    GetBackendService (cloud (pool rememberingCloud)) h key VersionGA
    = Ok (set_Fingerprint "fp-new"
            (expected' (pool rememberingCloud) "k8s-be" "hc" "TCP" "None" "INTERNAL"
                       serviceName defaultNetwork None)).
Proof.
  assert (Hrun :
    Ensure' (pool rememberingCloud) "k8s-be" "hc" "TCP" "None" "INTERNAL" serviceName
            defaultNetwork None []
    = (Returns (Ok (set_Fingerprint "fp-new"
                      (expected' (pool rememberingCloud) "k8s-be" "hc" "TCP" "None"
                                 "INTERNAL" serviceName defaultNetwork None))),
       [GetBackendServiceCall regionalKey VersionGA;
        CreateBackendServiceCall regionalKey
          (expected' (pool rememberingCloud) "k8s-be" "hc" "TCP" "None" "INTERNAL"
                     serviceName defaultNetwork None);
        GetBackendServiceCall regionalKey VersionGA]))
    by (vm_compute; reflexivity).
  split; [exact Hrun|].
  exact (EnsureL4BackendService_returns_a_fetched_object
           isNotFoundError makeL4LBServiceDescription translateAffinityType
           _ _ _ _ _ _ _ _ _ _ _ _ Hrun).
Defined.

(** Over the cloud with a memory the first fetch fails with not-found, and a
    create is submitted. *)
Lemma EnsureL4BackendService_creates_only_when_not_found_witness :
  CreateKey (cloud (pool rememberingCloud)) "k8s-be" Regional = Ok regionalKey /\
  exists new,
    snd (Ensure' (pool rememberingCloud) "k8s-be" "hc" "TCP" "None" "INTERNAL"
                 serviceName defaultNetwork None [])
    = [] ++ new /\
    exists k be, In (CreateBackendServiceCall k be) new.
Proof.
  split; [reflexivity|].
  destruct (EnsureL4BackendService_creates_only_when_not_found
              isNotFoundError makeL4LBServiceDescription translateAffinityType
              (pool rememberingCloud) "k8s-be" "hc" "TCP" "None" "INTERNAL" serviceName
              defaultNetwork None regionalKey [] eq_refl)
    as (new & Hnew & Hiff & _).
  exists new. split; [exact Hnew|]. apply Hiff.
  exists (ApiError 404 "notFound"). split; reflexivity.
Defined.

(** An existing object with three groups attached and another health check:
    the update carries its fingerprint and its three groups. *)
Lemma EnsureL4BackendService_update_keeps_fingerprint_and_backends_witness :
  exists update rest,
    snd (Ensure' (fetching (getWith' expectedDescription 600 threeGroups) silent)
                 "k8s-be" "hc2" "TCP" "None" "INTERNAL" serviceName defaultNetwork None [])
    = [] ++ GetBackendServiceCall regionalKey VersionGA
            :: UpdateBackendServiceCall regionalKey update :: rest /\
    Fingerprint update = "fp" /\
    Backends_ update = threeGroups.
Proof.
  assert (Hne :
    backendSvcEqual
      (expected' (fetching (getWith' expectedDescription 600 threeGroups) silent)
                 "k8s-be" "hc2" "TCP" "None" "INTERNAL" serviceName defaultNetwork None)
      (existing expectedDescription "fp" 600 threeGroups)
      (useConnectionTrackingPolicy
         (fetching (getWith' expectedDescription 600 threeGroups) silent))
    = false) by (vm_compute; reflexivity).
  destruct (EnsureL4BackendService_update_keeps_fingerprint_and_backends
              isNotFoundError makeL4LBServiceDescription translateAffinityType
              (fetching (getWith' expectedDescription 600 threeGroups) silent)
              "k8s-be" "hc2" "TCP" "None" "INTERNAL" serviceName defaultNetwork None
              regionalKey (existing expectedDescription "fp" 600 threeGroups) []
              eq_refl eq_refl Hne)
    as (update & rest & Hrun & _ & Hfp & Hbe & _).
  exists update, rest. split; [exact Hrun|]. split; [exact Hfp|exact Hbe].
Defined.

(** Over the cloud with a memory, a second call after the one that created
    the object fetches it and submits nothing. *)
Lemma EnsureL4BackendService_settles_witness :
  Ensure' (pool rememberingCloud) "k8s-be" "hc" "TCP" "None" "INTERNAL" serviceName
          defaultNetwork None
          (snd (Ensure' (pool rememberingCloud) "k8s-be" "hc" "TCP" "None" "INTERNAL"
                        serviceName defaultNetwork None []))
  = (Returns (Ok (set_Fingerprint "fp-new"
                    (expected' (pool rememberingCloud) "k8s-be" "hc" "TCP" "None"
                               "INTERNAL" serviceName defaultNetwork None))),
     snd (Ensure' (pool rememberingCloud) "k8s-be" "hc" "TCP" "None" "INTERNAL"
                  serviceName defaultNetwork None [])
       ++ [GetBackendServiceCall regionalKey VersionGA]).
Proof.
  refine (EnsureL4BackendService_settles
            isNotFoundError makeL4LBServiceDescription translateAffinityType
            (pool rememberingCloud) "k8s-be" "hc" "TCP" "None" "INTERNAL" serviceName
            defaultNetwork None []
            (snd (Ensure' (pool rememberingCloud) "k8s-be" "hc" "TCP" "None" "INTERNAL"
                          serviceName defaultNetwork None []))
            (expected' (pool rememberingCloud) "k8s-be" "hc" "TCP" "None" "INTERNAL"
                       serviceName defaultNetwork None)
            _ regionalKey _ eq_refl _ eq_refl _ _).
  - vm_compute. left. reflexivity.
  - vm_compute. reflexivity.
  - repeat split.
Defined.

(** An existing TCP object with the timeout zero and another health check:
    the update carries the default of thirty seconds. *)
Lemma EnsureL4BackendService_TCP_default_timeout_witness :
  exists update,
    submissions
      (snd (Ensure' (fetching (getWith' expectedDescription 0 threeGroups) silent)
                    "k8s-be" "hc2" ProtocolTCP "None" "INTERNAL" serviceName
                    defaultNetwork None []))
    = [update] /\
    drainingTimeout update = Some DefaultConnectionDrainingTimeoutSeconds.
Proof.
  eexists. split; [vm_compute; reflexivity|].
  refine (EnsureL4BackendService_TCP_default_timeout
            isNotFoundError makeL4LBServiceDescription translateAffinityType
            (fetching (getWith' expectedDescription 0 threeGroups) silent)
            "k8s-be" "hc2" "None" "INTERNAL" serviceName defaultNetwork None []
            (snd (Ensure' (fetching (getWith' expectedDescription 0 threeGroups) silent)
                          "k8s-be" "hc2" ProtocolTCP "None" "INTERNAL" serviceName
                          defaultNetwork None []))
            eq_refl _ _ _).
  - intros key bs cd _ Hget Hcd. cbn in Hget. injection Hget as <-.
    cbn in Hcd. injection Hcd as <-. reflexivity.
  - vm_compute. left. reflexivity.
Defined.

End BackendsExtra.

(** * Further properties of package [neg] *)

Module NegExtra.
Import Neg NegMore.

Ltac run := unfold bind, call, mret, panic in *; cbn beta iota in *.

Section WithDeps.

Variable deps : Deps.
Variable c : Controller.

Local Abbreviation processService := (processService deps c).
Local Abbreviation resolvePortInfoMap := (resolvePortInfoMap deps c).
Local Abbreviation applyPortInfoMap := (applyPortInfoMap deps c).
Local Abbreviation syncNegStatusAnnotation := (syncNegStatusAnnotation deps c).

(** *** The resolution only reads *)

Lemma quiet_read e : isRead e -> quiet e.
Proof. left. assumption. Qed.

Lemma mergeDefaultBackendServicePortInfoMap_calls
  key service portInfoMap networkInfo tr :
  exists out new,
    mergeDefaultBackendServicePortInfoMap deps c key service portInfoMap networkInfo tr
    = (out, tr ++ new) /\
    Forall isRead new.
Proof.
  unfold mergeDefaultBackendServicePortInfoMap.
  destruct (negb _).
  { eexists _, []. rewrite app_nil_r. split; [reflexivity|constructor]. }
  destruct (NegFacts.scanIngress_run deps c portInfoMap networkInfo
              (IsGCEL7ILBIngress deps) tr) as (m1 & e1 & H1).
  unfold bind at 1. rewrite H1.
  destruct e1 as [e1|].
  { eexists _, [IngressListCall]. split; [reflexivity|repeat constructor]. }
  assert (Hsecond : exists m2 e2 new2,
            (if enableIngressRegionalExternal c
             then scanIngress deps c m1 networkInfo (IsGCEL7XLBRegionalIngress deps)
             else mret (m1, None)) (tr ++ [IngressListCall])
            = (Returns (m2, e2), tr ++ new2) /\ Forall isRead new2).
  { destruct (enableIngressRegionalExternal c).
    - destruct (NegFacts.scanIngress_run deps c m1 networkInfo
                  (IsGCEL7XLBRegionalIngress deps) (tr ++ [IngressListCall]))
        as (m2 & e2 & H2).
      exists m2, e2, [IngressListCall; IngressListCall].
      rewrite H2, <- app_assoc. split; [reflexivity|repeat constructor].
    - exists m1, None, [IngressListCall]. split; [reflexivity|repeat constructor]. }
  destruct Hsecond as (m2 & e2 & new2 & H2 & Hnew2).
  unfold bind. rewrite H2.
  destruct e2 as [e2|]; [eauto|].
  destruct (NEGAnnotation deps service) as [[ann found] err].
  destruct err as [err|]; [eauto|].
  destruct (negb found); [eauto|].
  destruct ann as [ann|]; [|unfold panic; eauto].
  destruct (Bool.eqb (Ingress_ ann) false); [eauto|].
  destruct (NegFacts.scanIngress_run deps c m2 networkInfo (IsGCEIngress deps)
              (tr ++ new2)) as (m3 & e3 & H3).
  eexists _, (new2 ++ [IngressListCall]).
  rewrite H3, <- app_assoc. split; [reflexivity|].
  apply NegFacts.Forall_isRead_snoc, Hnew2.
Qed.

Lemma mergeVmIpNEGsPortInfo_calls service name portInfoMap negUsage networkInfo tr :
  exists portInfoMap' negUsage' err new,
    mergeVmIpNEGsPortInfo deps c service name portInfoMap negUsage networkInfo tr
    = (Returns (portInfoMap', negUsage', err), tr ++ new) /\
    Forall isEventf new.
Proof.
  unfold mergeVmIpNEGsPortInfo. cbn zeta.
  destruct (negb (WantsL4ILB deps service) && _).
  { eexists _, _, _, []. rewrite app_nil_r. split; [reflexivity|constructor]. }
  destruct (WantsL4ILB deps service && _).
  { run. eexists _, _, _, [_]. split; [reflexivity|repeat constructor]. }
  destruct (LoadBalancerClass (Spec service)).
  { eexists _, _, _, []. rewrite app_nil_r. split; [reflexivity|constructor]. }
  destruct (Merge deps portInfoMap _) as [m e].
  eexists _, _, _, []. rewrite app_nil_r. split; [reflexivity|constructor].
Qed.

Lemma resolvePortInfoMap_calls key namespace name service tr :
  exists out new,
    resolvePortInfoMap key namespace name service tr
    = (out, tr ++ ServiceNetworkCall service :: new) /\
    Forall quiet new.
Proof.
  unfold Neg.resolvePortInfoMap.
  unfold bind at 1, call at 1.
  destruct (networkResolver_ServiceNetwork c tr service) as [networkInfo|err].
  2:{ eexists _, []. split; [reflexivity|]. constructor. }
  destruct (mergeDefaultBackendServicePortInfoMap_calls key service ∅ networkInfo
              (tr ++ [ServiceNetworkCall service]))
    as (out1 & new1 & H1 & Hnew1).
  unfold bind at 1. rewrite H1.
  assert (Hq1 : Forall quiet new1).
  { eapply Forall_impl; [exact Hnew1|]. exact quiet_read. }
  assert (Htr1 : (tr ++ [ServiceNetworkCall service]) ++ new1
                 = tr ++ ServiceNetworkCall service :: new1).
  { rewrite <- app_assoc. reflexivity. }
  rewrite Htr1.
  destruct out1 as [[m1 e1]|]; [|eauto].
  destruct e1 as [e1|]; [eauto|].
  cbn zeta.
  destruct (NegFacts.mergeIngressPortInfo_reads deps c service
              {| types.Namespace := namespace; types.Name := name |} m1 networkInfo
              (tr ++ ServiceNetworkCall service :: new1))
    as (m2 & e2 & new2 & H2 & Hnew2).
  unfold bind at 1. rewrite H2.
  assert (Hq2 : Forall quiet (new1 ++ new2)).
  { apply Forall_app. split; [exact Hq1|].
    eapply Forall_impl; [exact Hnew2|]. exact quiet_read. }
  assert (Htr2 : (tr ++ ServiceNetworkCall service :: new1) ++ new2
                 = tr ++ ServiceNetworkCall service :: new1 ++ new2).
  { rewrite <- app_assoc. reflexivity. }
  rewrite Htr2.
  destruct e2 as [e2|]; [eauto|].
  destruct (mergeStandaloneNEGsPortInfo deps c service _ m2 _ networkInfo)
    as [[m3 u3] e3].
  destruct e3 as [e3|]; [eauto|].
  match goal with
  | |- context [if enableASM c then ?a else ?b] =>
    destruct (if enableASM c then a else b) as [[m4 u4] e4]
  end.
  destruct e4 as [e4|]; [eauto|].
  destruct (runL4 c); [|eauto].
  destruct (mergeVmIpNEGsPortInfo_calls service
              {| types.Namespace := namespace; types.Name := name |} m4 u4 networkInfo
              (tr ++ ServiceNetworkCall service :: new1 ++ new2))
    as (m5 & u5 & e5 & new5 & H5 & Hnew5).
  rewrite H5. eexists _, ((new1 ++ new2) ++ new5). split.
  - rewrite <- (app_assoc tr). reflexivity.
  - apply Forall_app. split; [exact Hq2|].
    eapply Forall_impl; [exact Hnew5|]. intros e He. right. exact He.
Qed.

(** X18: the resolution of the desired state only reads: every call it adds
    is a look-up in a store or the network resolution, or the recording of an
    event; syncers, usage metrics and the service resource are not touched
    before the resolution has ended. *)
Theorem resolvePortInfoMap_only_reads key namespace name service tr :
  exists out new,
    resolvePortInfoMap key namespace name service tr = (out, tr ++ new) /\
    Forall quiet new.
Proof.
  destruct (resolvePortInfoMap_calls key namespace name service tr)
    as (out & new & Hrun & Hnew).
  exists out, (ServiceNetworkCall service :: new). split; [exact Hrun|].
  constructor; [left; exact I|exact Hnew].
Qed.

(** *** The status annotation *)

(** X19: [syncNegStatusAnnotation] lists the zones, looks the service up
    and writes at most once.  What it writes goes to the service the look-up
    has just handed out, and the metadata written differs from that of the
    service in the status annotation only: namespace, name, finalizers and
    every other annotation are kept.  When the look-up reports the service
    absent, nothing is written and nil is returned. *)
Theorem syncNegStatusAnnotation_writes_the_status_only namespace name portMap tr :
  let zones := zonesCall deps portMap in
  let lookup := lookupCall deps namespace name in
  exists out new,
    syncNegStatusAnnotation namespace name portMap tr = (out, tr ++ new) /\
    (new = [zones] \/
     new = [zones; lookup] \/
     exists service newObjectMeta,
       new = [zones; lookup; PatchServiceObjectMetadataCall service newObjectMeta] /\
       serviceLister_GetByKey c (tr ++ [zones]) (getServiceKey deps namespace name)
       = (ServicePtr (Some service), true, None) /\
       sameButAnnotation (NEGStatusKey deps) (ServiceMeta service) newObjectMeta) /\
    (forall obj,
       new <> [zones] ->
       serviceLister_GetByKey c (tr ++ [zones]) (getServiceKey deps namespace name)
       = (obj, false, None) ->
       out = Returns None /\ new = [zones; lookup]).
Proof.
  cbn zeta. unfold Neg.syncNegStatusAnnotation, zonesCall, lookupCall.
  unfold bind at 1, call at 1.
  destruct (zoneGetter_ListZones c tr _) as [zones|err].
  { cbn beta iota. unfold bind at 1, call at 1.
    destruct (serviceLister_GetByKey c _ _) as [[obj exists_] err] eqn:Hget.
    assert (Hframe : forall service a,
              sameButAnnotation (NEGStatusKey deps) (ServiceMeta service)
                (set_Annotations a (ServiceMeta service)) <->
              forall k, k <> NEGStatusKey deps ->
                        a !! k = Annotations (ServiceMeta service) !! k).
    { intros service a. unfold sameButAnnotation. cbn. tauto. }
    destruct err as [err|].
    { eexists _, [_; _]. rewrite <- app_assoc. split; [reflexivity|].
      split; [auto|]. intros obj' _ [=]. }
    destruct exists_; cbn [negb].
    2:{ eexists _, [_; _]. rewrite <- app_assoc. split; [reflexivity|].
        split; [auto|]. intros obj' _ _. split; reflexivity. }
    destruct obj as [service|].
    2:{ eexists _, [_; _]. rewrite <- app_assoc. split; [reflexivity|].
        split; [auto|]. intros obj' _ [=]. }
    destruct (len portMap =? 0)%Z.
    - destruct service as [service|].
      2:{ eexists _, [_; _]. rewrite <- app_assoc. split; [reflexivity|].
          split; [auto|]. intros obj' _ [=]. }
      destruct (Annotations (ServiceMeta service) !! NEGStatusKey deps).
      + unfold call. eexists _, [_; _; _]. rewrite <- !app_assoc.
        split; [reflexivity|]. split; [|intros obj' _ [=]].
        right. right. eexists _, _. split; [reflexivity|]. split; [reflexivity|].
        apply Hframe. intros k Hk. apply lookup_delete_ne. congruence.
      + eexists _, [_; _]. rewrite <- app_assoc. split; [reflexivity|].
        split; [auto|]. intros obj' _ [=].
    - destruct (NegStatusMarshal deps zones portMap) as [annotation [err|]].
      { eexists _, [_; _]. rewrite <- app_assoc. split; [reflexivity|].
        split; [auto|]. intros obj' _ [=]. }
      destruct service as [service|].
      2:{ eexists _, [_; _]. rewrite <- app_assoc. split; [reflexivity|].
          split; [auto|]. intros obj' _ [=]. }
      destruct (match Annotations (ServiceMeta service) !! NEGStatusKey deps with
                | Some existingAnnotation => String.eqb existingAnnotation annotation
                | None => false
                end).
      + eexists _, [_; _]. rewrite <- app_assoc. split; [reflexivity|].
        split; [auto|]. intros obj' _ [=].
      + unfold call. eexists _, [_; _; _]. rewrite <- !app_assoc.
        split; [reflexivity|]. split; [|intros obj' _ [=]].
        right. right. eexists _, _. split; [reflexivity|]. split; [reflexivity|].
        apply Hframe. intros k Hk. apply lookup_insert_ne. congruence. }
  eexists _, [_]. split; [reflexivity|]. split; [auto|].
  intros obj Hne. exfalso. apply Hne. reflexivity.
Qed.

(** X20: with a map that is not empty, zones listed and the service found,
    the annotation is written on change only: when the service already
    carries the marshalled status, nothing is written and nil is returned;
    otherwise one write is made whose metadata carries the marshalled status
    under the status key. *)
Theorem syncNegStatusAnnotation_writes_on_change_only
  namespace name portMap tr zones service annotation :
  size portMap <> 0 ->
  zoneGetter_ListZones c tr (EndpointsCalculatorMode deps portMap) = Ok zones ->
  serviceLister_GetByKey c (tr ++ [zonesCall deps portMap])
                         (getServiceKey deps namespace name)
  = (ServicePtr (Some service), true, None) ->
  NegStatusMarshal deps zones portMap = (annotation, None) ->
  let looked := tr ++ [zonesCall deps portMap; lookupCall deps namespace name] in
  (Annotations (ServiceMeta service) !! NEGStatusKey deps = Some annotation ->
   syncNegStatusAnnotation namespace name portMap tr = (Returns None, looked)) /\
  (Annotations (ServiceMeta service) !! NEGStatusKey deps <> Some annotation ->
   exists newObjectMeta,
     syncNegStatusAnnotation namespace name portMap tr
     = (Returns (patch_PatchServiceObjectMetadata c looked service newObjectMeta),
        looked ++ [PatchServiceObjectMetadataCall service newObjectMeta]) /\
     Annotations newObjectMeta !! NEGStatusKey deps = Some annotation).
Proof.
  intros Hsize Hzones Hget Hmarshal looked.
  assert (Hrun :
    syncNegStatusAnnotation namespace name portMap tr =
    if match Annotations (ServiceMeta service) !! NEGStatusKey deps with
       | Some existingAnnotation => String.eqb existingAnnotation annotation
       | None => false
       end
    then (Returns None, looked)
    else
      let newSvcObjectMeta :=
        set_Annotations
          (<[NEGStatusKey deps := annotation]> (Annotations (ServiceMeta service)))
          (ServiceMeta service) in
      (Returns (patch_PatchServiceObjectMetadata c looked service newSvcObjectMeta),
       looked ++ [PatchServiceObjectMetadataCall service newSvcObjectMeta])).
  { unfold Neg.syncNegStatusAnnotation, zonesCall, lookupCall in *.
    unfold bind at 1, call at 1. rewrite Hzones. cbn beta iota.
    unfold bind at 1, call at 1. rewrite Hget. cbn [negb].
    replace (len portMap =? 0)%Z with false
      by (symmetry; apply Z.eqb_neq; unfold len; lia).
    rewrite Hmarshal. subst looked. rewrite <- !app_assoc. cbn [app].
    destruct (match Annotations (ServiceMeta service) !! NEGStatusKey deps with
              | Some existingAnnotation => String.eqb existingAnnotation annotation
              | None => false
              end); unfold call, mret; rewrite <- ?app_assoc; reflexivity. }
  rewrite Hrun. clear Hrun. split.
  - intros ->. rewrite String.eqb_refl. reflexivity.
  - intros Hne.
    assert (Hcmp : match Annotations (ServiceMeta service) !! NEGStatusKey deps with
                   | Some existingAnnotation => String.eqb existingAnnotation annotation
                   | None => false
                   end = false).
    { destruct (Annotations (ServiceMeta service) !! NEGStatusKey deps) as [old|];
        [|reflexivity].
      apply String.eqb_neq. congruence. }
    rewrite Hcmp. eexists. split; [reflexivity|]. cbn. apply lookup_insert_eq.
Qed.

(** *** The paths of [processService] *)

Lemma syncNegStatusAnnotation_shape namespace name portMap tr :
  exists out new,
    syncNegStatusAnnotation namespace name portMap tr = (out, tr ++ new) /\
    syncCalls deps namespace name portMap new.
Proof.
  unfold Neg.syncNegStatusAnnotation, syncCalls, zonesCall, lookupCall.
  unfold bind at 1, call at 1.
  destruct (zoneGetter_ListZones c tr _) as [zones|err].
  2:{ eexists _, [_]. split; [reflexivity|auto]. }
  cbn beta iota. unfold bind at 1, call at 1.
  destruct (serviceLister_GetByKey c _ _) as [[obj exists_] err].
  assert (Htwo : forall (out : outcome (option error)) a b,
            exists out' new,
              (out, (tr ++ [a]) ++ [b]) = (out', tr ++ new) /\
              (new = [a] \/ new = [a; b] \/
               exists service newObjectMeta,
                 new = [a; b; PatchServiceObjectMetadataCall service newObjectMeta])).
  { intros out a b. exists out, [a; b]. rewrite <- app_assoc. auto. }
  assert (Hthree : forall (out : outcome (option error)) a b service newObjectMeta,
            exists out' new,
              (out, ((tr ++ [a]) ++ [b])
                    ++ [PatchServiceObjectMetadataCall service newObjectMeta])
              = (out', tr ++ new) /\
              (new = [a] \/ new = [a; b] \/
               exists service newObjectMeta,
                 new = [a; b; PatchServiceObjectMetadataCall service newObjectMeta])).
  { intros out a b service newObjectMeta.
    exists out, [a; b; PatchServiceObjectMetadataCall service newObjectMeta].
    rewrite <- !app_assoc. split; [reflexivity|]. right. right. eauto. }
  destruct err as [err|]; [apply Htwo|].
  destruct exists_; cbn [negb]; [|apply Htwo].
  destruct obj as [service|]; [|apply Htwo].
  destruct (len portMap =? 0)%Z.
  - destruct service as [service|]; [|apply Htwo].
    destruct (Annotations (ServiceMeta service) !! NEGStatusKey deps);
      [apply Hthree|apply Htwo].
  - destruct (NegStatusMarshal deps zones portMap) as [annotation [err|]];
      [apply Htwo|].
    destruct service as [service|]; [|apply Htwo].
    destruct (match Annotations (ServiceMeta service) !! NEGStatusKey deps with
              | Some existingAnnotation => String.eqb existingAnnotation annotation
              | None => false
              end); [apply Htwo|apply Hthree].
Qed.

Lemma applyPortInfoMap_paths key namespace name portMap usage tr :
  exists out new sync,
    applyPortInfoMap key namespace name portMap usage tr = (out, tr ++ new) /\
    ((size portMap <> 0 /\
      syncCalls deps namespace name portMap sync /\
      ((syncNegStatusAnnotation namespace name portMap tr = (out, tr ++ sync) /\
        out <> Returns None /\ new = sync) \/
       (syncNegStatusAnnotation namespace name portMap tr = (Returns None, tr ++ sync) /\
        exists successful errored err,
          manager_EnsureSyncers c (tr ++ sync) namespace name portMap
          = (successful, errored, err) /\
          new = sync ++ [EnsureSyncersCall namespace name portMap;
                         SetNegServiceCall key
                           (set_SuccessfulErrorNeg successful errored usage)] /\
          out = Returns err))) \/
     (portMap = ∅ /\
      syncCalls deps namespace name ∅ sync /\
      syncNegStatusAnnotation namespace name ∅
        (tr ++ [DeleteNegServiceCall key; StopSyncerCall namespace name])
      = (out, (tr ++ [DeleteNegServiceCall key; StopSyncerCall namespace name]) ++ sync) /\
      new = [DeleteNegServiceCall key; StopSyncerCall namespace name] ++ sync)).
Proof.
  destruct (decide (size portMap = 0)) as [Hsize|Hsize].
  - rewrite (NegFacts.applyPortInfoMap_empty deps c _ _ _ _ _ _ Hsize).
    destruct (syncNegStatusAnnotation_shape namespace name ∅
                (tr ++ [DeleteNegServiceCall key; StopSyncerCall namespace name]))
      as (out & sync & Hrun & Hsync).
    exists out, ([DeleteNegServiceCall key; StopSyncerCall namespace name] ++ sync), sync.
    rewrite Hrun. split; [rewrite <- app_assoc; reflexivity|].
    right. split; [apply map_size_empty_iff; exact Hsize|]. auto.
  - unfold Neg.applyPortInfoMap.
    replace (len portMap =? 0)%Z with false
      by (symmetry; apply Z.eqb_neq; unfold len; lia).
    cbn [negb].
    destruct (syncNegStatusAnnotation_shape namespace name portMap tr)
      as (out & sync & Hrun & Hsync).
    unfold bind at 1. rewrite Hrun.
    destruct out as [[err|]|].
    + exists (Returns (Some err)), sync, sync. split; [reflexivity|].
      left. split; [exact Hsize|]. split; [exact Hsync|]. left.
      split; [reflexivity|]. split; [discriminate|reflexivity].
    + unfold bind, call, mret.
      destruct (manager_EnsureSyncers c (tr ++ sync) namespace name portMap)
        as [[successful errored] err] eqn:Hensure.
      eexists (Returns err), _, sync. rewrite <- !app_assoc. cbn [app].
      split; [reflexivity|].
      left. split; [exact Hsize|]. split; [exact Hsync|]. right.
      split; [reflexivity|]. exists successful, errored, err. auto.
    + exists Panics, sync, sync. split; [reflexivity|].
      left. split; [exact Hsize|]. split; [exact Hsync|]. left.
      split; [reflexivity|]. split; [discriminate|reflexivity].
Qed.

Lemma processService_paths key tr :
  exists out new,
    processService key tr = (out, tr ++ new) /\
    ((Forall quiet new /\ out <> Returns None) \/
     exists namespace name,
       SplitMetaNamespaceKey deps key = (namespace, name, None) /\
       ((new = [ServiceGetByKeyCall key; DeleteNegServiceCall key;
                StopSyncerCall namespace name] /\
         out = Returns None) \/
        exists reads portMap usage rest,
          Forall quiet reads /\
          new = (ServiceGetByKeyCall key :: reads) ++ rest /\
          applyPortInfoMap key namespace name portMap usage
            (tr ++ ServiceGetByKeyCall key :: reads)
          = (out, (tr ++ ServiceGetByKeyCall key :: reads) ++ rest))).
Proof.
  unfold Neg.processService.
  destruct (SplitMetaNamespaceKey deps key) as [[namespace name] [err|]] eqn:Hsplit.
  { exists (Returns (Some err)), []. rewrite app_nil_r. split; [reflexivity|].
    left. split; [constructor|discriminate]. }
  assert (Hone : forall out : outcome (option error),
            out <> Returns None ->
            exists out' new,
              (out, tr ++ [ServiceGetByKeyCall key]) = (out', tr ++ new) /\
              ((Forall quiet new /\ out' <> Returns None) \/
               exists namespace' name',
                 (namespace, name, @None error) = (namespace', name', None) /\
                 ((new = [ServiceGetByKeyCall key; DeleteNegServiceCall key;
                          StopSyncerCall namespace' name'] /\
                   out' = Returns None) \/
                  exists reads portMap usage rest,
                    Forall quiet reads /\
                    new = (ServiceGetByKeyCall key :: reads) ++ rest /\
                    applyPortInfoMap key namespace' name' portMap usage
                      (tr ++ ServiceGetByKeyCall key :: reads)
                    = (out', (tr ++ ServiceGetByKeyCall key :: reads) ++ rest)))).
  { intros out Hout. exists out, [ServiceGetByKeyCall key]. split; [reflexivity|].
    left. split; [|exact Hout]. repeat constructor. }
  unfold bind at 1, call at 1.
  destruct (serviceLister_GetByKey c tr key) as [[obj exists_] err].
  destruct err as [err|]; [apply Hone; discriminate|].
  destruct exists_; cbn [negb].
  2:{ unfold bind, call, mret. eexists _, [_; _; _]. rewrite <- !app_assoc.
      split; [reflexivity|]. right. exists namespace, name. auto. }
  destruct obj as [[service|]|]; [|apply Hone; discriminate..].
  destruct (negb _ && _); [apply Hone; discriminate|].
  destruct (resolvePortInfoMap_calls key namespace name service
              (tr ++ [ServiceGetByKeyCall key]))
    as (out & reads & Hres & Hreads).
  unfold bind at 1. rewrite Hres.
  assert (Hq : Forall quiet (ServiceNetworkCall service :: reads)).
  { constructor; [left; exact I|exact Hreads]. }
  assert (Htr : (tr ++ [ServiceGetByKeyCall key]) ++ ServiceNetworkCall service :: reads
                = tr ++ ServiceGetByKeyCall key :: ServiceNetworkCall service :: reads).
  { rewrite <- app_assoc. reflexivity. }
  rewrite Htr.
  assert (Hfail : forall out : outcome (option error),
            out <> Returns None ->
            exists out' new,
              (out, tr ++ ServiceGetByKeyCall key :: ServiceNetworkCall service :: reads)
              = (out', tr ++ new) /\
              ((Forall quiet new /\ out' <> Returns None) \/
               exists namespace' name',
                 (namespace, name, @None error) = (namespace', name', None) /\
                 ((new = [ServiceGetByKeyCall key; DeleteNegServiceCall key;
                          StopSyncerCall namespace' name'] /\
                   out' = Returns None) \/
                  exists reads portMap usage rest,
                    Forall quiet reads /\
                    new = (ServiceGetByKeyCall key :: reads) ++ rest /\
                    applyPortInfoMap key namespace' name' portMap usage
                      (tr ++ ServiceGetByKeyCall key :: reads)
                    = (out', (tr ++ ServiceGetByKeyCall key :: reads) ++ rest)))).
  { intros out' Hout. eexists out', _. split; [reflexivity|].
    left. split; [|exact Hout]. constructor; [left; exact I|exact Hq]. }
  destruct out as [[[portMap usage] [err|]]|]; [apply Hfail; discriminate| |apply Hfail; discriminate].
  destruct (applyPortInfoMap_paths key namespace name portMap usage
              (tr ++ ServiceGetByKeyCall key :: ServiceNetworkCall service :: reads))
    as (out & rest & sync & Happly & _).
  rewrite Happly.
  exists out, ((ServiceGetByKeyCall key :: ServiceNetworkCall service :: reads) ++ rest).
  split; [rewrite <- app_assoc; reflexivity|].
  right. exists namespace, name. split; [reflexivity|]. right.
  exists (ServiceNetworkCall service :: reads), portMap, usage, rest.
  split; [exact Hq|]. split; [reflexivity|]. exact Happly.
Qed.

Ltac count_calls :=
  repeat first [ rewrite filter_cons_True by (vm_compute; tauto)
               | rewrite filter_cons_False by (vm_compute; tauto)
               | rewrite filter_nil ].

Lemma quiet_plain e : quiet e -> ~ isSyncerCall e /\ ~ isPatch e.
Proof. unfold quiet, isSyncerCall. destruct e; cbn; tauto. Qed.

Lemma syncCalls_plain namespace name portMap sync e :
  syncCalls deps namespace name portMap sync -> In e sync -> ~ isSyncerCall e.
Proof.
  unfold syncCalls, zonesCall, lookupCall, isSyncerCall.
  intros [->|[->|(service & newObjectMeta & ->)]] Hin; cbn in Hin;
    repeat (destruct Hin as [<-|Hin]; [cbn; tauto|]); destruct Hin.
Qed.

Lemma syncCalls_one_write namespace name portMap sync :
  syncCalls deps namespace name portMap sync -> length (filter isPatch sync) <= 1.
Proof.
  unfold syncCalls, zonesCall, lookupCall.
  intros [->|[->|(service & newObjectMeta & ->)]]; vm_compute; lia.
Qed.

Lemma filter_none {A} (P : A -> Prop) `{forall x, Decision (P x)} (l : list A) :
  (forall x, In x l -> ~ P x) -> filter P l = [].
Proof.
  induction l as [|x l IH]; intros Hl; [reflexivity|].
  rewrite filter_cons. destruct (decide (P x)) as [HP|_].
  - exfalso. exact (Hl x (or_introl eq_refl) HP).
  - apply IH. intros y Hy. apply Hl. right. exact Hy.
Qed.

(** X21: the syncers of a service are ensured only at the end of a pass that
    went well: for the namespace and name of the key, with a map that is not
    empty, after calls that are reads or recordings of events and nothing
    else, and after a synchronisation of the status annotation that returned
    nil.  The usage recorded right after it carries the counts
    it returned, also when it failed, and its error is what [processService]
    returns. *)
Theorem processService_ensures_syncers_last key tr :
  exists out new,
    processService key tr = (out, tr ++ new) /\
    forall namespace name portMap,
      In (EnsureSyncersCall namespace name portMap) new ->
      SplitMetaNamespaceKey deps key = (namespace, name, None) /\
      size portMap <> 0 /\
      exists reads sync successful errored err usage,
        new = reads ++ sync ++ [EnsureSyncersCall namespace name portMap;
                                SetNegServiceCall key usage] /\
        Forall quiet reads /\
        syncNegStatusAnnotation namespace name portMap (tr ++ reads)
        = (Returns None, (tr ++ reads) ++ sync) /\
        manager_EnsureSyncers c ((tr ++ reads) ++ sync) namespace name portMap
        = (successful, errored, err) /\
        SuccessfulNeg usage = successful /\
        ErrorNeg usage = errored /\
        out = Returns err.
Proof.
  destruct (processService_paths key tr) as (out & new & Hrun & Hpaths).
  exists out, new. split; [exact Hrun|].
  intros namespace name portMap Hin.
  assert (Hquiet : forall l, Forall quiet l ->
                             ~ In (EnsureSyncersCall namespace name portMap) l).
  { intros l Hl Hin'. rewrite List.Forall_forall in Hl.
    destruct (quiet_plain _ (Hl _ Hin')) as [Hno _]. apply Hno. right. exact I. }
  destruct Hpaths as [[Hq _]|(ns & n & Hsplit & [[-> _]|Happly])].
  { destruct (Hquiet _ Hq Hin). }
  { cbn in Hin. repeat (destruct Hin as [[=]|Hin]). destruct Hin. }
  destruct Happly as (reads & m & usage & rest & Hreads & -> & Happly).
  assert (Hq : Forall quiet (ServiceGetByKeyCall key :: reads)).
  { constructor; [left; exact I|exact Hreads]. }
  destruct (applyPortInfoMap_paths key ns n m usage
              (tr ++ ServiceGetByKeyCall key :: reads))
    as (out' & rest' & sync & Happly' & Hshape).
  rewrite Happly in Happly'. injection Happly' as <- Hrest.
  apply app_inv_head in Hrest. subst rest'.
  apply in_app_or in Hin. destruct Hin as [Hin|Hin]; [destruct (Hquiet _ Hq Hin)|].
  assert (Hsync : syncCalls deps ns n m sync \/ syncCalls deps ns n ∅ sync ->
                  ~ In (EnsureSyncersCall namespace name portMap) sync).
  { intros [Hs|Hs] Hin'; apply (syncCalls_plain _ _ _ _ _ Hs Hin'); right; exact I. }
  destruct Hshape as [(Hsize & Hs & [(_ & _ & ->)|(Hnil & s & e & err & Hens & -> & ->)])
                     |(-> & Hs & _ & ->)].
  - destruct (Hsync (or_introl Hs) Hin).
  - apply in_app_or in Hin. destruct Hin as [Hin|Hin]; [destruct (Hsync (or_introl Hs) Hin)|].
    cbn in Hin. destruct Hin as [[= <- <- <-]|[[=]|[]]].
    split; [exact Hsplit|]. split; [exact Hsize|].
    exists (ServiceGetByKeyCall key :: reads), sync, s, e, err,
           (set_SuccessfulErrorNeg s e usage).
    split; [reflexivity|]. split; [exact Hq|]. split; [exact Hnil|].
    split; [exact Hens|]. auto.
  - cbn in Hin. destruct Hin as [[=]|[[=]|Hin]].
    destruct (Hsync (or_intror Hs) Hin).
Qed.

(** X22: one pass over a service changes its syncers at most once, by
    stopping them or by ensuring them and never both, and writes the service
    resource at most once. *)
Theorem processService_one_syncer_call_one_write key tr :
  exists out new,
    processService key tr = (out, tr ++ new) /\
    length (filter isSyncerCall new) <= 1 /\
    length (filter isPatch new) <= 1.
Proof.
  destruct (processService_paths key tr) as (out & new & Hrun & Hpaths).
  exists out, new. split; [exact Hrun|].
  assert (Hquiet : forall l, Forall quiet l ->
                             filter isSyncerCall l = [] /\ filter isPatch l = []).
  { intros l Hl. rewrite List.Forall_forall in Hl.
    split; apply filter_none; intros x Hx; apply quiet_plain, Hl, Hx. }
  destruct Hpaths as [[Hq _]|(ns & n & Hsplit & [[-> _]|Happly])].
  { destruct (Hquiet _ Hq) as [-> ->]. cbn. lia. }
  { vm_compute. lia. }
  destruct Happly as (reads & m & usage & rest & Hreads & -> & Happly).
  assert (Hq : Forall quiet (ServiceGetByKeyCall key :: reads)).
  { constructor; [left; exact I|exact Hreads]. }
  destruct (Hquiet _ Hq) as [Hq1 Hq2].
  rewrite !filter_app, Hq1, Hq2. cbn [app].
  destruct (applyPortInfoMap_paths key ns n m usage
              (tr ++ ServiceGetByKeyCall key :: reads))
    as (out' & rest' & sync & Happly' & Hshape).
  rewrite Happly in Happly'. injection Happly' as <- Hrest.
  apply app_inv_head in Hrest. subst rest'.
  assert (Hsync : syncCalls deps ns n m sync \/ syncCalls deps ns n ∅ sync ->
                  filter isSyncerCall sync = [] /\ length (filter isPatch sync) <= 1).
  { intros [Hs|Hs]; (split; [apply filter_none; intros x Hx;
                              exact (syncCalls_plain _ _ _ _ _ Hs Hx)
                            |exact (syncCalls_one_write _ _ _ _ Hs)]). }
  destruct Hshape as [(Hsize & Hs & [(_ & _ & ->)|(Hnil & s & e & err & Hens & -> & ->)])
                     |(-> & Hs & _ & ->)].
  - destruct (Hsync (or_introl Hs)) as [-> Hle]. split; [cbn; lia|exact Hle].
  - destruct (Hsync (or_introl Hs)) as [Hnone Hle].
    rewrite !filter_app, Hnone, !length_app. count_calls. cbn [length app]. lia.
  - destruct (Hsync (or_intror Hs)) as [Hnone Hle].
    rewrite !filter_app, Hnone, !length_app. count_calls. cbn [length app]. lia.
Qed.

(** X23: for a service that is gone from the store, [processService] deletes
    its usage, stops its syncer and returns nil; what the store handed out
    with the look-up is not examined, and nothing else is called. *)
Theorem processService_missing_service_cleans_up key namespace name obj tr :
  SplitMetaNamespaceKey deps key = (namespace, name, None) ->
  serviceLister_GetByKey c tr key = (obj, false, None) ->
  processService key tr
  = (Returns None,
     tr ++ [ServiceGetByKeyCall key; DeleteNegServiceCall key;
            StopSyncerCall namespace name]).
Proof.
  intros Hsplit Hget. unfold Neg.processService. rewrite Hsplit.
  unfold bind at 1, call at 1. rewrite Hget. cbn [negb].
  unfold bind, call, mret. rewrite <- !app_assoc. reflexivity.
Qed.

Lemma isSingleStackIPv6Service_true service :
  isSingleStackIPv6Service service = true <->
  (forall policy, IPFamilyPolicy (Spec service) = Some policy ->
                  policy = IPFamilyPolicySingleStack) /\
  IPFamilies (Spec service) = [IPv6Protocol].
Proof.
  unfold isSingleStackIPv6Service.
  destruct (IPFamilyPolicy (Spec service)) as [policy|].
  - destruct (String.eqb policy IPFamilyPolicySingleStack) eqn:Hp; cbn [negb].
    + apply String.eqb_eq in Hp. subst policy.
      destruct (IPFamilies (Spec service)) as [|family [|? ?]].
      * split; [discriminate|]. intros [_ [=]].
      * split.
        -- intros Hf. apply String.eqb_eq in Hf. subst family.
           split; [intros ? [= <-]; reflexivity|reflexivity].
        -- intros [_ [= ->]]. apply String.eqb_refl.
      * split; [discriminate|]. intros [_ [=]].
    + apply String.eqb_neq in Hp. split; [discriminate|].
      intros [Hpol _]. destruct Hp. apply Hpol. reflexivity.
  - destruct (IPFamilies (Spec service)) as [|family [|? ?]].
    + split; [discriminate|]. intros [_ [=]].
    + split.
      * intros Hf. apply String.eqb_eq in Hf. subst family.
        split; [intros ? [=]|reflexivity].
      * intros [_ [= ->]]. apply String.eqb_refl.
    + split; [discriminate|]. intros [_ [=]].
Qed.

(** X24: a service found in the store is refused as IPv6-only, before
    anything else is read, exactly when it is not of type LoadBalancer, its
    list of IP families is IPv6 alone and its family policy is unset or
    SingleStack. *)
Theorem processService_refuses_ipv6_only key namespace name service tr :
  SplitMetaNamespaceKey deps key = (namespace, name, None) ->
  serviceLister_GetByKey c tr key = (ServicePtr (Some service), true, None) ->
  (Type_ (Spec service) <> ServiceTypeLoadBalancer /\
   (forall policy, IPFamilyPolicy (Spec service) = Some policy ->
                   policy = IPFamilyPolicySingleStack) /\
   IPFamilies (Spec service) = [IPv6Protocol]) <->
  processService key tr
  = (Returns (Some (Errorf "NEG is not supported for ipv6 only service (%T)")),
     tr ++ [ServiceGetByKeyCall key]).
Proof.
  intros Hsplit Hget. unfold Neg.processService. rewrite Hsplit.
  unfold bind at 1, call at 1. rewrite Hget. cbn [negb].
  destruct (negb (String.eqb (Type_ (Spec service)) ServiceTypeLoadBalancer)
            && isSingleStackIPv6Service service) eqn:Hcheck.
  - apply andb_true_iff in Hcheck. destruct Hcheck as [Htype Hv6].
    apply negb_true_iff, String.eqb_neq in Htype.
    apply isSingleStackIPv6Service_true in Hv6.
    split; [reflexivity|]. intros _. split; [exact Htype|exact Hv6].
  - split.
    + intros (Htype & Hv6). exfalso.
      apply isSingleStackIPv6Service_true in Hv6.
      apply String.eqb_neq in Htype. rewrite Htype, Hv6 in Hcheck. discriminate.
    + intros Hrun. exfalso.
      destruct (resolvePortInfoMap_calls key namespace name service
                  (tr ++ [ServiceGetByKeyCall key]))
        as (out & reads & Hres & _).
      unfold bind at 1 in Hrun. rewrite Hres in Hrun.
      assert (Hlong : forall (o : outcome (option error)) more,
                (o, ((tr ++ [ServiceGetByKeyCall key])
                     ++ ServiceNetworkCall service :: reads) ++ more)
                <> (Returns (Some (Errorf "NEG is not supported for ipv6 only service (%T)")),
                    tr ++ [ServiceGetByKeyCall key])).
      { intros o more [= _ Htr]. rewrite <- !app_assoc in Htr.
        apply app_inv_head in Htr. discriminate. }
      destruct out as [[[portMap usage] [err|]]|].
      * unfold mret in Hrun. eapply (Hlong _ []). rewrite app_nil_r. exact Hrun.
      * destruct (applyPortInfoMap_paths key namespace name portMap usage
                    ((tr ++ [ServiceGetByKeyCall key])
                     ++ ServiceNetworkCall service :: reads))
          as (out & rest & sync & Happly & _).
        rewrite Happly in Hrun. exact (Hlong _ _ Hrun).
      * eapply (Hlong _ []). rewrite app_nil_r. exact Hrun.
Qed.

(** *** Services with VM-IP groups *)

(** X25: [mergeVmIpNEGsPortInfo] leaves the map and the usage as they are and
    returns nil for a service that wants neither an internal load balancer
    nor a network load balancer with groups, for an internal load balancer
    without the subsetting finalizer, and for a service with a load balancer
    class.  It records an event, a single one, exactly for the internal load
    balancer without the subsetting finalizer. *)
Theorem mergeVmIpNEGsPortInfo_skips service name portInfoMap negUsage networkInfo tr :
  let wantsILB := WantsL4ILB deps service in
  let needsNEGForNetLB :=
    WantsL4NetLB deps service && negb (network.IsDefault networkInfo)
    && HasRBSAnnotation deps service in
  exists portInfoMap' negUsage' err new,
    mergeVmIpNEGsPortInfo deps c service name portInfoMap negUsage networkInfo tr
    = (Returns (portInfoMap', negUsage', err), tr ++ new) /\
    (new <> [] <->
     wantsILB = true /\ IsSubsettingL4ILBService deps service = false) /\
    length new <= 1 /\
    Forall isEventf new /\
    ((wantsILB = false /\ needsNEGForNetLB = false) \/
     (wantsILB = true /\ IsSubsettingL4ILBService deps service = false) \/
     LoadBalancerClass (Spec service) <> None ->
     portInfoMap' = portInfoMap /\ negUsage' = negUsage /\ err = None).
Proof.
  cbn zeta. unfold mergeVmIpNEGsPortInfo. cbn zeta.
  destruct (WantsL4ILB deps service) eqn:HILB; cbn [negb andb].
  - destruct (IsSubsettingL4ILBService deps service) eqn:Hsub; cbn [negb].
    + destruct (LoadBalancerClass (Spec service)) as [class|] eqn:Hclass.
      * eexists _, _, _, []. rewrite app_nil_r. split; [reflexivity|].
        split; [split; [congruence|intros [_ [=]]]|].
        split; [cbn; lia|]. split; [constructor|]. auto.
      * destruct (Merge deps portInfoMap _) as [m e].
        eexists _, _, _, []. rewrite app_nil_r. split; [reflexivity|].
        split; [split; [congruence|intros [_ [=]]]|].
        split; [cbn; lia|]. split; [constructor|].
        intros [[[=] _]|[[_ [=]]|Hc]]. congruence.
    + unfold bind, call, mret. eexists _, _, _, [_]. split; [reflexivity|].
      split; [split; [auto|discriminate]|].
      split; [cbn; lia|]. split; [repeat constructor|]. auto.
  - destruct (WantsL4NetLB deps service && negb (network.IsDefault networkInfo)
              && HasRBSAnnotation deps service) eqn:Hneeds; cbn [negb].
    + destruct (LoadBalancerClass (Spec service)) as [class|] eqn:Hclass.
      * eexists _, _, _, []. rewrite app_nil_r. split; [reflexivity|].
        split; [split; [congruence|intros [[=] _]]|].
        split; [cbn; lia|]. split; [constructor|]. auto.
      * destruct (Merge deps portInfoMap _) as [m e].
        eexists _, _, _, []. rewrite app_nil_r. split; [reflexivity|].
        split; [split; [congruence|intros [[=] _]]|].
        split; [cbn; lia|]. split; [constructor|].
        intros [[_ [=]]|[[[=] _]|Hc]]. congruence.
    + eexists _, _, _, []. rewrite app_nil_r. split; [reflexivity|].
      split; [split; [congruence|intros [[=] _]]|].
      split; [cbn; lia|]. split; [constructor|]. auto.
Qed.

End WithDeps.

(** *** The ports of a service *)

Lemma gather_fold (ports : list ServicePort.t) (acc : SvcPortTupleSet) t :
  t ∈ foldl (fun svcPortTupleSet svcPort =>
               {[ tupleOfServicePort svcPort ]} ∪ svcPortTupleSet) acc ports <->
  t ∈ acc \/ exists sp, sp ∈ ports /\ t = tupleOfServicePort sp.
Proof.
  revert acc. induction ports as [|p ports IH]; intros acc; cbn [foldl].
  - split; [auto|]. intros [H|(sp & Hsp & _)]; [exact H|]. inversion Hsp.
  - rewrite IH. rewrite elem_of_union, elem_of_singleton. split.
    + intros [[->|H]|(sp & Hsp & ->)].
      * right. exists p. split; [left|reflexivity].
      * left. exact H.
      * right. exists sp. split; [right; exact Hsp|reflexivity].
    + intros [H|(sp & Hsp & ->)]; [auto|].
      apply elem_of_cons in Hsp. destruct Hsp as [->|Hsp]; [auto|].
      right. exists sp. auto.
Qed.

(** X26: [gatherPortMappingFromService] returns the tuples of the ports of
    the service and nothing else; ports that give the same tuple are counted
    once, so the set has at most as many members as the service has ports. *)
Theorem gatherPortMappingFromService_members svc :
  (forall t, t ∈ gatherPortMappingFromService svc <->
             exists sp, sp ∈ Ports (Spec svc) /\ t = tupleOfServicePort sp) /\
  size (gatherPortMappingFromService svc) <= length (Ports (Spec svc)).
Proof.
  unfold gatherPortMappingFromService. split.
  - intros t. rewrite gather_fold. split; [|auto].
    intros [H|H]; [|exact H]. apply elem_of_empty in H. destruct H.
  - assert (Hsize : forall ports (acc : SvcPortTupleSet),
              size (foldl (fun svcPortTupleSet svcPort =>
                             {[ tupleOfServicePort svcPort ]} ∪ svcPortTupleSet)
                          acc ports)
              <= size acc + length ports).
    { induction ports as [|p ports IH]; intros acc; cbn [foldl length]; [lia|].
      etransitivity; [apply IH|].
      assert (Hdiff : size (acc ∖ {[tupleOfServicePort p]}) <= size acc).
      { apply subseteq_size. apply subseteq_difference_l. reflexivity. }
      rewrite size_union_alt, size_singleton. lia. }
    etransitivity; [apply Hsize|]. rewrite size_empty. lia.
Qed.

(** *** The ingresses of a service *)

(** X29: only the ingresses of the load balancer controller count.  The
    ingresses that [getIngressServicesFromStore] returns for a service are
    the same when the store leaves out the ingresses of other namespaces and
    of other controllers, and the ports that
    [gatherPortMappingUsedByIngress] gathers are the same when the ingresses
    of other controllers are left out. *)
Theorem ingresses_of_others_are_ignored deps store_List ings svc tr :
  let relevant ing :=
    String.eqb (Namespace (IngressMeta ing)) (Namespace (ServiceMeta svc))
    && IsGLBCIngress deps ing in
  getIngressServicesFromStore deps store_List svc tr
  = getIngressServicesFromStore deps (fun tr => List.filter relevant (store_List tr))
                                svc tr /\
  gatherPortMappingUsedByIngress deps ings svc
  = gatherPortMappingUsedByIngress deps (List.filter (IsGLBCIngress deps) ings) svc.
Proof.
  cbn zeta. split.
  - unfold getIngressServicesFromStore, bind, call, mret. f_equal. f_equal.
    match goal with |- foldl ?f _ _ = _ => set (step := f) end.
    assert (Hall : forall items acc,
              foldl step acc items
              = foldl step acc
                  (List.filter
                     (fun ing =>
                        String.eqb (Namespace (IngressMeta ing))
                                   (Namespace (ServiceMeta svc))
                        && IsGLBCIngress deps ing) items)).
    { induction items as [|ing items IH]; intros acc; [reflexivity|].
      cbn [foldl List.filter].
      destruct (String.eqb (Namespace (IngressMeta ing)) (Namespace (ServiceMeta svc)))
        eqn:Hns; cbn [negb andb].
      - destruct (IsGLBCIngress deps ing) eqn:Hglbc.
        + cbn [foldl]. apply IH.
        + rewrite <- IH. f_equal. unfold step. rewrite Hns, Hglbc. reflexivity.
      - rewrite <- IH. f_equal. unfold step. rewrite Hns. reflexivity. }
    apply Hall.
  - unfold gatherPortMappingUsedByIngress.
    match goal with |- foldl ?f _ _ = _ => set (step := f) end.
    assert (Hall : forall ings acc,
              foldl step acc ings
              = foldl step acc (List.filter (IsGLBCIngress deps) ings)).
    { clear ings. induction ings as [|ing ings IH]; intros acc; [reflexivity|].
      cbn [foldl List.filter].
      destruct (IsGLBCIngress deps ing) eqn:Hglbc.
      - cbn [foldl]. apply IH.
      - rewrite <- IH. f_equal. unfold step. rewrite Hglbc. reflexivity. }
    apply Hall.
Qed.

(** *** The statements on the scenarios *)

Import NegScenarios NegMoreScenarios.

(** The service [default/web] carries no status yet and one port is to be
    exposed: the status is written under the status key. *)
Lemma syncNegStatusAnnotation_writes_on_change_only_witness :
  size webPorts <> 0 /\
  exists newObjectMeta,
    syncNegStatusAnnotation deps (controller (web ∅) (Ok ["zone1"]))
                            "default" "web" webPorts []
    = (Returns None,
       ([] ++ [zonesCall deps webPorts; lookupCall deps "default" "web"])
         ++ [PatchServiceObjectMetadataCall (web ∅) newObjectMeta]) /\
    Annotations newObjectMeta !! statusKey = Some "{}".
Proof.
  assert (Hsize : size webPorts <> 0) by (vm_compute; discriminate).
  split; [exact Hsize|].
  refine (proj2 (syncNegStatusAnnotation_writes_on_change_only
                   deps (controller (web ∅) (Ok ["zone1"])) "default" "web" webPorts []
                   ["zone1"] (web ∅) "{}" Hsize eq_refl eq_refl eq_refl) _).
  vm_compute. discriminate.
Defined.

(** The annotation of [default/web] exposes its port: the status is written
    and the syncers are ensured last, with the map of the port. *)
Lemma processService_ensures_syncers_last_witness :
  exists reads sync usage,
    processService deps (controller (web {[ negKey := "exposed" ]}) (Ok ["zone1"]))
                   "default/web" []
    = (Returns None,
       [] ++ reads ++ sync
          ++ [EnsureSyncersCall "default" "web" webPorts;
              SetNegServiceCall "default/web" usage]) /\
    Forall quiet reads /\
    SuccessfulNeg usage = 1%Z.
Proof.
  destruct (processService_ensures_syncers_last
              deps (controller (web {[ negKey := "exposed" ]}) (Ok ["zone1"]))
              "default/web" [])
    as (out & new & Hrun & Hensured).
  assert (Hin : In (EnsureSyncersCall "default" "web" webPorts) new).
  { assert (Hnew : snd (processService deps
                          (controller (web {[ negKey := "exposed" ]}) (Ok ["zone1"]))
                          "default/web" []) = new)
      by (rewrite Hrun; reflexivity).
    rewrite <- Hnew. vm_compute. do 5 right. left. reflexivity. }
  destruct (Hensured _ _ _ Hin)
    as (_ & _ & reads & sync & successful & errored & err & usage
        & -> & Hreads & _ & Hensure & Hok & _ & ->).
  injection Hensure as <- _ <-.
  exists reads, sync, usage. split; [exact Hrun|]. split; [exact Hreads|exact Hok].
Defined.

(** The store no longer holds [default/web]. *)
Lemma processService_missing_service_cleans_up_witness :
  processService deps emptyStore "default/web" []
  = (Returns None,
     [] ++ [ServiceGetByKeyCall "default/web"; DeleteNegServiceCall "default/web";
            StopSyncerCall "default" "web"]).
Proof.
  exact (processService_missing_service_cleans_up
           deps emptyStore "default/web" "default" "web" OtherObj [] eq_refl eq_refl).
Defined.

(** The service [default/web] of type ClusterIP with the IPv6 family alone
    is refused; with the IPv4 family it is not. *)
Lemma processService_refuses_ipv6_only_witness :
  processService deps (controller web6 (Ok ["zone1"])) "default/web" []
  = (Returns (Some (Errorf "NEG is not supported for ipv6 only service (%T)")),
     [] ++ [ServiceGetByKeyCall "default/web"]) /\
  processService deps (controller (web ∅) (Ok ["zone1"])) "default/web" []
  <> (Returns (Some (Errorf "NEG is not supported for ipv6 only service (%T)")),
      [] ++ [ServiceGetByKeyCall "default/web"]).
Proof.
  split.
  - apply (proj1 (processService_refuses_ipv6_only
                    deps (controller web6 (Ok ["zone1"])) "default/web" "default" "web"
                    web6 [] eq_refl eq_refl)).
    split; [discriminate|]. split; [intros policy [= <-]; reflexivity|reflexivity].
  - intros Hrun.
    apply (proj2 (processService_refuses_ipv6_only
                    deps (controller (web ∅) (Ok ["zone1"])) "default/web" "default" "web"
                    (web ∅) [] eq_refl eq_refl)) in Hrun.
    destruct Hrun as (_ & _ & Hfamilies). discriminate Hfamilies.
Defined.

End NegExtra.

(** * Properties of the listing of package [backends] *)

Module ListingFacts.
Import Backends BackendsMore.

Section Listing.

Variable ListBackendServices :
  list ListCall -> Key -> Version -> result (list (option BackendService)).
Variable NameBelongsToCluster : string -> bool.
Variable ScopeFromSelfLink : string -> result KeyType.

Local Abbreviation listLoop := (listLoop NameBelongsToCluster ScopeFromSelfLink).
Local Abbreviation List :=
  (List ListBackendServices NameBelongsToCluster ScopeFromSelfLink).

Lemma listLoop_ok backends acc l :
  listLoop backends acc = Returns (Ok l) ->
  exists bss added,
    backends = map Some bss /\
    l = acc ++ added /\
    map fst added = List.filter (fun bs => NameBelongsToCluster (Name bs)) bss /\
    Forall (fun '(bs, scope) => ScopeFromSelfLink (SelfLink bs) = Ok scope) added.
Proof.
  revert acc. induction backends as [|[bs|] backends IH]; intros acc Hrun; cbn in Hrun.
  - injection Hrun as <-. exists [], []. rewrite app_nil_r.
    repeat split; constructor.
  - destruct (NameBelongsToCluster (Name bs)) eqn:Hname.
    + destruct (ScopeFromSelfLink (SelfLink bs)) as [scope|err] eqn:Hscope;
        [|discriminate].
      destruct (IH _ Hrun) as (bss & added & -> & -> & Hfst & Hscoped).
      exists (bs :: bss), ((bs, scope) :: added).
      split; [reflexivity|]. split; [rewrite <- app_assoc; reflexivity|].
      split; [cbn; rewrite Hname, Hfst; reflexivity|].
      constructor; [exact Hscope|exact Hscoped].
    + destruct (IH _ Hrun) as (bss & added & -> & -> & Hfst & Hscoped).
      exists (bs :: bss), added.
      split; [reflexivity|]. split; [reflexivity|].
      split; [cbn; rewrite Hname; exact Hfst|exact Hscoped].
  - discriminate.
Qed.

Lemma listLoop_err bss acc err :
  listLoop (map Some bss) acc = Returns (Err err) <->
  exists before bs after,
    bss = before ++ bs :: after /\
    NameBelongsToCluster (Name bs) = true /\
    ScopeFromSelfLink (SelfLink bs) = Err err /\
    Forall (fun b => NameBelongsToCluster (Name b) = true ->
                     exists scope, ScopeFromSelfLink (SelfLink b) = Ok scope) before.
Proof.
  revert acc. induction bss as [|b bss IH]; intros acc; cbn [map BackendsMore.listLoop].
  - split; [discriminate|]. intros (before & bs & after & Hbss & _).
    destruct before; discriminate.
  - cbn. destruct (NameBelongsToCluster (Name b)) eqn:Hname.
    + destruct (ScopeFromSelfLink (SelfLink b)) as [scope|err'] eqn:Hscope.
      * rewrite IH. split.
        -- intros (before & bs & after & -> & Hbs & Herr & Hbefore).
           exists (b :: before), bs, after. split; [reflexivity|].
           split; [exact Hbs|]. split; [exact Herr|].
           constructor; [eauto|exact Hbefore].
        -- intros (before & bs & after & Hbss & Hbs & Herr & Hbefore).
           destruct before as [|b' before]; cbn in Hbss; injection Hbss as -> ->.
           { congruence. }
           exists before, bs, after. split; [reflexivity|].
           split; [exact Hbs|]. split; [exact Herr|].
           inversion Hbefore; assumption.
      * split.
        -- intros [= <-]. exists [], b, bss. split; [reflexivity|].
           split; [exact Hname|]. split; [exact Hscope|constructor].
        -- intros (before & bs & after & Hbss & Hbs & Herr & Hbefore).
           destruct before as [|b' before]; cbn in Hbss; injection Hbss as -> ->.
           { congruence. }
           inversion Hbefore as [|? ? Hb' _]; subst.
           destruct (Hb' Hname) as (scope & Hok). congruence.
    + rewrite IH. split.
      * intros (before & bs & after & -> & Hbs & Herr & Hbefore).
        exists (b :: before), bs, after. split; [reflexivity|].
        split; [exact Hbs|]. split; [exact Herr|].
        constructor; [congruence|exact Hbefore].
      * intros (before & bs & after & Hbss & Hbs & Herr & Hbefore).
        destruct before as [|b' before]; cbn in Hbss; injection Hbss as -> ->.
        { congruence. }
        exists before, bs, after. split; [reflexivity|].
        split; [exact Hbs|]. split; [exact Herr|].
        inversion Hbefore; assumption.
Qed.

(** X16: what [List] returns without error are the listed backends whose
    names belong to the cluster, all of them and in the order of the listing,
    each with the scope of its self link; the listing is asked for once. *)
Theorem List_returns_the_cluster_backends key version tr l tr' :
  List key version tr = (Returns (Ok l), tr') ->
  tr' = tr ++ [ListBackendServicesCall key version] /\
  exists bss,
    ListBackendServices tr key version = Ok (map Some bss) /\
    map fst l = List.filter (fun bs => NameBelongsToCluster (Name bs)) bss /\
    Forall (fun '(bs, scope) => ScopeFromSelfLink (SelfLink bs) = Ok scope) l.
Proof.
  unfold BackendsMore.List, bind, call, mret.
  destruct (ListBackendServices tr key version) as [backends|err]; [|discriminate].
  intros [= Hloop <-]. split; [reflexivity|].
  destruct (listLoop_ok _ _ _ Hloop) as (bss & added & -> & -> & Hfst & Hscoped).
  exists bss. split; [reflexivity|]. split; [exact Hfst|exact Hscoped].
Qed.

(** X17: [List] returns all or nothing.  Over a listing without nil entries
    it fails with an error exactly when a backend of the cluster has a self
    link without scope, and the error is that of the first such backend;
    the self links of backends that do not belong to the cluster are not
    looked at. *)
Theorem List_fails_on_first_bad_self_link key version tr bss err :
  ListBackendServices tr key version = Ok (map Some bss) ->
  List key version tr
  = (Returns (Err err), tr ++ [ListBackendServicesCall key version]) <->
  exists before bs after,
    bss = before ++ bs :: after /\
    NameBelongsToCluster (Name bs) = true /\
    ScopeFromSelfLink (SelfLink bs) = Err err /\
    Forall (fun b => NameBelongsToCluster (Name b) = true ->
                     exists scope, ScopeFromSelfLink (SelfLink b) = Ok scope) before.
Proof.
  intros Hlist. unfold BackendsMore.List, bind, call, mret. rewrite Hlist.
  rewrite <- (listLoop_err bss [] err). split.
  - intros [= ->]. reflexivity.
  - intros ->. reflexivity.
Qed.

End Listing.

(** *** The statements on the scenarios *)

Import BackendsScenarios BackendsMoreScenarios.

(** Two backends of the cluster around one of somebody else whose self link
    has no scope: the two are returned with their scopes. *)
Lemma List_returns_the_cluster_backends_witness :
  List (listing ownAndForeign) nameBelongsToCluster scopeFromSelfLink
       regionalKey VersionGA []
  = (Returns (Ok [ (listed "k8s-a" "regions/region1/backendServices/k8s-a", Regional);
                   (listed "k8s-c" "global/backendServices/k8s-c", Global) ]),
     [ListBackendServicesCall regionalKey VersionGA]) /\
  [ListBackendServicesCall regionalKey VersionGA]
  = [] ++ [ListBackendServicesCall regionalKey VersionGA] /\
  exists bss,
    listing ownAndForeign [] regionalKey VersionGA = Ok (map Some bss) /\
    map fst [ (listed "k8s-a" "regions/region1/backendServices/k8s-a", Regional);
              (listed "k8s-c" "global/backendServices/k8s-c", Global) ]
    = List.filter (fun bs => nameBelongsToCluster (Name bs)) bss /\
    Forall (fun '(bs, scope) => scopeFromSelfLink (SelfLink bs) = Ok scope)
           [ (listed "k8s-a" "regions/region1/backendServices/k8s-a", Regional);
             (listed "k8s-c" "global/backendServices/k8s-c", Global) ].
Proof.
  assert (Hrun :
    List (listing ownAndForeign) nameBelongsToCluster scopeFromSelfLink
         regionalKey VersionGA []
    = (Returns (Ok [ (listed "k8s-a" "regions/region1/backendServices/k8s-a", Regional);
                     (listed "k8s-c" "global/backendServices/k8s-c", Global) ]),
       [ListBackendServicesCall regionalKey VersionGA]))
    by (vm_compute; reflexivity).
  split; [exact Hrun|].
  exact (List_returns_the_cluster_backends
           (listing ownAndForeign) nameBelongsToCluster scopeFromSelfLink
           regionalKey VersionGA [] _ _ Hrun).
Defined.

(** Three backends of the cluster, the second with a self link without
    scope: nothing is returned but its error. *)
Lemma List_fails_on_first_bad_self_link_witness :
  List (listing ownWithBadLink) nameBelongsToCluster scopeFromSelfLink
       regionalKey VersionGA []
  = (Returns (Err (Errorf "failed to parse self link %q")),
     [] ++ [ListBackendServicesCall regionalKey VersionGA]).
Proof.
  apply (proj2 (List_fails_on_first_bad_self_link
                  (listing ownWithBadLink) nameBelongsToCluster scopeFromSelfLink
                  regionalKey VersionGA [] ownWithBadLink
                  (Errorf "failed to parse self link %q") eq_refl)).
  exists [listed "k8s-a" "regions/region1/backendServices/k8s-a"],
         (listed "k8s-d" "backendServices/k8s-d"),
         [listed "k8s-c" "global/backendServices/k8s-c"].
  split; [reflexivity|]. split; [reflexivity|]. split; [reflexivity|].
  repeat constructor. intros _. exists Regional. reflexivity.
Defined.

End ListingFacts.

(** * Properties of the worker of the service queue *)

Module WorkerFacts.
Import Neg NegWorkers.

Lemma controllerCalls_app tr1 tr2 :
  controllerCalls (tr1 ++ tr2) = controllerCalls tr1 ++ controllerCalls tr2.
Proof. unfold controllerCalls. apply omap_app. Qed.

Lemma controllerCalls_lifted new : controllerCalls (map ControllerCall new) = new.
Proof.
  unfold controllerCalls. induction new as [|e new IH]; [reflexivity|].
  cbn. f_equal. exact IH.
Qed.

Lemma controllerCalls_processed tr new :
  controllerCalls (tr ++ QueueGetCall :: map ControllerCall new)
  = controllerCalls tr ++ new.
Proof.
  rewrite controllerCalls_app. f_equal. exact (controllerCalls_lifted new).
Qed.

Lemma lift_run {A} (m : M Event A) tr out new :
  m (controllerCalls tr) = (out, controllerCalls tr ++ new) ->
  lift m tr = (out, tr ++ map ControllerCall new).
Proof.
  intros Hrun. unfold lift. rewrite Hrun, drop_app_length. reflexivity.
Qed.

Lemma lift_call {A} e (oracle : list Event -> A) tr :
  lift (call e oracle) tr
  = (Returns (oracle (controllerCalls tr)), tr ++ [ControllerCall e]).
Proof. exact (lift_run (call e oracle) tr _ [e] eq_refl). Qed.

Section WithDeps.

Variable deps : Deps.
Variable c : Controller.
Variable serviceQueue_Get : list WorkerEvent -> Item * bool.

Local Abbreviation handleErr := (handleErr c).
Local Abbreviation serviceWorker := (serviceWorker deps c serviceQueue_Get).

Lemma handleErr_paths err key tr :
  exists out new,
    handleErr err key tr = (out, tr ++ new) /\
    Forall (fun e => e <> QueueGetCall /\ forall k, e <> QueueDoneCall k) new.
Proof.
  unfold NegWorkers.handleErr.
  destruct err as [err|].
  2:{ eexists _, [_]. split; [reflexivity|]. repeat constructor; discriminate. }
  destruct key as [k|].
  2:{ exists Panics, []. rewrite app_nil_r. split; [reflexivity|constructor]. }
  unfold bind at 1. rewrite lift_call.
  destruct (serviceLister_GetByKey c (controllerCalls tr) k) as [[obj exists_] lerr].
  destruct lerr as [lerr|].
  { unfold bind, call, mret. eexists _, [_; _]. rewrite <- app_assoc.
    split; [reflexivity|]. repeat constructor; discriminate. }
  destruct exists_.
  2:{ unfold bind, call, mret. eexists _, [_; _]. rewrite <- app_assoc.
      split; [reflexivity|]. repeat constructor; discriminate. }
  destruct obj as [service|].
  - unfold bind, call, mret. eexists _, [_; _; _]. rewrite <- !app_assoc.
    split; [reflexivity|]. repeat constructor; discriminate.
  - unfold bind, panic. eexists _, [_]. split; [reflexivity|].
    repeat constructor; discriminate.
Qed.

(** X27: a key that the service queue hands out is marked done, once and as
    the last call of the turn, whether the work on it returned or panicked.
    When the queue has shut down nothing is done after the look at it. *)
Theorem serviceWorker_marks_done tr key quit :
  serviceQueue_Get tr = (key, quit) ->
  (quit = true -> serviceWorker tr = (Returns tt, tr ++ [QueueGetCall])) /\
  (quit = false ->
   exists out work,
     serviceWorker tr = (out, tr ++ QueueGetCall :: work ++ [QueueDoneCall key]) /\
     Forall (fun e => e <> QueueGetCall /\ forall k, e <> QueueDoneCall k) work).
Proof.
  intros Hget. unfold NegWorkers.serviceWorker.
  split; intros ->; unfold bind at 1, call at 1; rewrite Hget.
  { reflexivity. }
  unfold defer. destruct key as [k|].
  2:{ exists Panics, []. unfold panic, call. cbn [app].
      rewrite <- app_assoc. split; [reflexivity|constructor]. }
  destruct (NegExtra.processService_paths deps c k (controllerCalls (tr ++ [QueueGetCall])))
    as (result & new & Hrun & _).
  unfold bind at 1. rewrite (lift_run _ _ _ _ Hrun).
  assert (Hlifted : Forall (fun e => e <> QueueGetCall /\ forall k, e <> QueueDoneCall k)
                           (map ControllerCall new)).
  { apply List.Forall_forall. intros e He. apply in_map_iff in He.
    destruct He as (e' & <- & _). split; [discriminate|intros; discriminate]. }
  destruct result as [err|].
  - destruct (handleErr_paths err (StringItem k)
                ((tr ++ [QueueGetCall]) ++ map ControllerCall new))
      as (out & report & Hhandle & Hreport).
    rewrite Hhandle. unfold call.
    exists out, (map ControllerCall new ++ report).
    split; [rewrite <- !app_assoc; reflexivity|].
    apply Forall_app. split; assumption.
  - exists Panics, (map ControllerCall new). unfold call.
    split; [rewrite <- !app_assoc; reflexivity|exact Hlifted].
Qed.

(** X28: what becomes of a key after [processService].  When it returned nil
    the key is forgotten.  When it returned an error the service is looked
    up once more and the key is queued again with rate limiting, also when
    that look-up fails or finds nothing; a warning event is recorded when the
    look-up finds the service.  When it panicked, or the store holds an
    object that is no service, the key is neither forgotten nor queued again.
    In all cases the key is marked done last. *)
Theorem serviceWorker_forgets_or_requeues tr k result new :
  serviceQueue_Get tr = (StringItem k, false) ->
  processService deps c k (controllerCalls tr) = (result, controllerCalls tr ++ new) ->
  let key := StringItem k in
  let processed := tr ++ QueueGetCall :: map ControllerCall new in
  let lookup := ControllerCall (ServiceGetByKeyCall k) in
  serviceWorker tr =
  match result with
  | Returns None =>
    (Returns tt, processed ++ [QueueForgetCall key; QueueDoneCall key])
  | Returns (Some _) =>
    match serviceLister_GetByKey c (controllerCalls tr ++ new) k with
    | (ServicePtr service, true, None) =>
      (Returns tt,
       processed ++ [lookup;
                     RecorderEventfCall service EventTypeWarning "ProcessServiceFailed"
                                        "error processing service %q: %v";
                     QueueAddRateLimitedCall key; QueueDoneCall key])
    | (OtherObj, true, None) => (Panics, processed ++ [lookup; QueueDoneCall key])
    | _ =>
      (Returns tt, processed ++ [lookup; QueueAddRateLimitedCall key; QueueDoneCall key])
    end
  | Panics => (Panics, processed ++ [QueueDoneCall key])
  end.
Proof.
  intros Hget Hrun key processed lookup. unfold NegWorkers.serviceWorker.
  unfold bind at 1, call at 1. rewrite Hget. unfold defer.
  assert (Hcalls : controllerCalls (tr ++ [QueueGetCall]) = controllerCalls tr).
  { rewrite controllerCalls_app. apply app_nil_r. }
  rewrite <- Hcalls in Hrun.
  unfold bind at 1. rewrite (lift_run _ _ _ _ Hrun).
  assert (Hprocessed : (tr ++ [QueueGetCall]) ++ map ControllerCall new = processed).
  { unfold processed. rewrite <- app_assoc. reflexivity. }
  rewrite Hprocessed.
  destruct result as [[err|]|].
  - unfold NegWorkers.handleErr. unfold bind at 1. rewrite lift_call.
    unfold processed at 1. rewrite controllerCalls_processed.
    destruct (serviceLister_GetByKey c (controllerCalls tr ++ new) k)
      as [[obj exists_] lerr].
    destruct lerr as [lerr|].
    { unfold bind, call, mret.
      destruct obj, exists_; rewrite <- !app_assoc; reflexivity. }
    destruct exists_.
    2:{ unfold bind, call, mret. destruct obj; rewrite <- !app_assoc; reflexivity. }
    destruct obj as [service|].
    + unfold bind, call, mret. rewrite <- !app_assoc. reflexivity.
    + unfold bind, call, panic. rewrite <- !app_assoc. reflexivity.
  - unfold NegWorkers.handleErr, call. rewrite <- !app_assoc. reflexivity.
  - unfold call. reflexivity.
Qed.

End WithDeps.

(** *** The statements on the scenarios *)

Import NegScenarios NegMoreScenarios.

(** The queue hands out [default/web]. *)
Lemma serviceWorker_marks_done_witness :
  exists out work,
    serviceWorker deps (controller (web ∅) (Ok ["zone1"])) (queueOf "default/web") []
    = (out, [] ++ QueueGetCall :: work ++ [QueueDoneCall (StringItem "default/web")]) /\
    Forall (fun e => e <> QueueGetCall /\ forall k, e <> QueueDoneCall k) work.
Proof.
  exact (proj2 (serviceWorker_marks_done
                  deps (controller (web ∅) (Ok ["zone1"])) (queueOf "default/web") []
                  (StringItem "default/web") false eq_refl) eq_refl).
Defined.

(** The annotation of [default/web] gives a custom name in ingress mode:
    [processService] fails after three reads, a warning is recorded on the
    service and the key is queued again. *)
Lemma serviceWorker_forgets_or_requeues_witness :
  serviceWorker deps (controller (web {[ negKey := "ingress+custom" ]}) (Ok ["zone1"]))
                (queueOf "default/web") []
  = (Returns tt,
     ([] ++ QueueGetCall
         :: map ControllerCall
              [ServiceGetByKeyCall "default/web";
               ServiceNetworkCall (web {[ negKey := "ingress+custom" ]});
               IngressListCall])
       ++ [ControllerCall (ServiceGetByKeyCall "default/web");
           RecorderEventfCall (Some (web {[ negKey := "ingress+custom" ]}))
                              EventTypeWarning "ProcessServiceFailed"
                              "error processing service %q: %v";
           QueueAddRateLimitedCall (StringItem "default/web");
           QueueDoneCall (StringItem "default/web")]).
Proof.
  assert (Hrun :
    processService deps (controller (web {[ negKey := "ingress+custom" ]}) (Ok ["zone1"]))
                   "default/web" (controllerCalls [])
    = (Returns (Some (Errorf "configuration for negs in service (%s) is invalid, custom neg name cannot be used with ingress enabled")),
       controllerCalls []
         ++ [ServiceGetByKeyCall "default/web";
             ServiceNetworkCall (web {[ negKey := "ingress+custom" ]});
             IngressListCall]))
    by (vm_compute; reflexivity).
  exact (serviceWorker_forgets_or_requeues
           deps (controller (web {[ negKey := "ingress+custom" ]}) (Ok ["zone1"]))
           (queueOf "default/web") [] "default/web" _ _ eq_refl Hrun).
Defined.

End WorkerFacts.
